(** * Relay engine of the Telegram channel monitor: model and properties

    A shallow embedding of [file_namer.py], [config.py], [database.py] and of
    the relay pipelines of [main.py], [clean_monitor.py] and
    [user_monitor.py].

    Conventions.
    - A Python [str] is a list of characters.  A character is an [ascii],
      read as the code point of the same number, so the model covers text
      whose code points lie below 256; [isspace] and [lower_char] are
      Python's tables restricted to that range.  [str.lower] looks at the
      context of one letter, the Greek capital sigma: the strings of
      [Unicode] carry it, for the extension filter.
    - A Python [int] is a [Z].
    - The SQLite tables are finite maps keyed by their primary key. *)

From Stdlib Require Import ZArith Ascii String Decimal Lia Bool.
From Stdlib Require DecimalZ.
From stdpp Require Import base option list gmap strings.

Local Open Scope Z_scope.

(** ** Python strings *)

Module PyStr.

Abbreviation pystr := (list ascii).

(** String literals of the development. *)
Definition str (s : string) : pystr := list_ascii_of_string s.

Definition code (c : ascii) : Z := Z.of_N (N_of_ascii c).

Definition chr (n : Z) : ascii := ascii_of_N (Z.to_N n).

Definition ascii_eqb (a b : ascii) : bool := Ascii.eqb a b.

(** [str.isspace] and the class [\s] of [re] on a [str] pattern. *)
Definition isspace (c : ascii) : bool :=
  let n := code c in
  ((9 <=? n) && (n <=? 13)) || ((28 <=? n) && (n <=? 32))
  || (n =? 133) || (n =? 160).

(** The class [\d] of [re]. *)
Definition isdigit (c : ascii) : bool :=
  let n := code c in (48 <=? n) && (n <=? 57).

(** [str.lower] on one character. *)
Definition lower_char (c : ascii) : ascii :=
  let n := code c in
  if ((65 <=? n) && (n <=? 90))
     || ((192 <=? n) && (n <=? 214))
     || ((216 <=? n) && (n <=? 222))
  then chr (n + 32) else c.

(** [s.lower()] on code points below 256, where every character is
    lowered by itself; [Unicode.lower] is [str.lower] with the one rule
    that looks at the context, and agrees with this one on these
    strings ([lower_of_pystr]). *)
Definition lower (s : pystr) : pystr := map lower_char s.

Fixpoint startswith (s p : pystr) {struct p} : bool :=
  match p, s with
  | [], _ => true
  | _ :: _, [] => false
  | a :: p', b :: s' => ascii_eqb a b && startswith s' p'
  end.

(** [s.endswith(suf)] *)
Definition endswith (s suf : pystr) : bool :=
  startswith (rev s) (rev suf).

(** [s.replace(c, '')] for a one-character [c]. *)
Definition remove_char (c : ascii) (s : pystr) : pystr :=
  filter (fun x => x <> c) s.

(** [s.rsplit('.', 1)] when ['.' in s], [None] when [s] has no dot. *)
Fixpoint rsplit_dot (s : pystr) : option (pystr * pystr) :=
  match s with
  | [] => None
  | c :: t =>
      match rsplit_dot t with
      | Some (n, e) => Some (c :: n, e)
      | None => if ascii_eqb c "."%char then Some ([], t) else None
      end
  end.

Fixpoint lstrip (s : pystr) : pystr :=
  match s with
  | [] => []
  | c :: t => if isspace c then lstrip t else s
  end.

(** Trailing whitespace goes: a string that is whitespace only becomes
    empty, any other keeps its first character. *)
Fixpoint rstrip (s : pystr) : pystr :=
  match s with
  | [] => []
  | c :: t =>
      match rstrip t with
      | [] => if isspace c then [] else [c]
      | r => c :: r
      end
  end.

Definition starts_with_space (s : pystr) : bool :=
  match s with
  | c :: _ => isspace c
  | [] => false
  end.

(** [s.strip()] *)
Definition strip (s : pystr) : pystr := lstrip (rstrip s).

(** [re.sub(r'\s+', ' ', s)]: every maximal run of whitespace becomes one
    space.  The space is emitted at the last character of the run. *)
Fixpoint collapse_ws (s : pystr) : pystr :=
  match s with
  | [] => []
  | c :: t =>
      if isspace c then
        match t with
        | c' :: _ => if isspace c' then collapse_ws t
                     else " "%char :: collapse_ws t
        | [] => [" "%char]
        end
      else c :: collapse_ws t
  end.

Fixpoint uint_chars (d : Decimal.uint) : pystr :=
  match d with
  | Nil => []
  | D0 d => "0"%char :: uint_chars d
  | D1 d => "1"%char :: uint_chars d
  | D2 d => "2"%char :: uint_chars d
  | D3 d => "3"%char :: uint_chars d
  | D4 d => "4"%char :: uint_chars d
  | D5 d => "5"%char :: uint_chars d
  | D6 d => "6"%char :: uint_chars d
  | D7 d => "7"%char :: uint_chars d
  | D8 d => "8"%char :: uint_chars d
  | D9 d => "9"%char :: uint_chars d
  end.

(** [str(n)] for an [int]. *)
Definition str_int (n : Z) : pystr :=
  match Z.to_int n with
  | Pos d => uint_chars d
  | Neg d => "-"%char :: uint_chars d
  end.

Definition zfill (width : nat) (ds : pystr) : pystr :=
  replicate (width - length ds)%nat "0"%char ++ ds.

(** [f"{n:04d}"]: the sign counts in the width. *)
Definition fmt_04d (n : Z) : pystr :=
  match Z.to_int n with
  | Pos d => zfill 4 (uint_chars d)
  | Neg d => "-"%char :: zfill 3 (uint_chars d)
  end.

End PyStr.

Import PyStr.

(** ** config.py *)

Module Config.

(** The environment variables that the relay engine reads; [None] is an
    unset variable. *)
Record Environ := {
  env_TARGET_EXTENSION : option pystr;
  env_DESTINATION_CHANNEL : option pystr;
  env_FILE_PREFIX : option pystr;
  env_SHOW_SEQUENCE_NUMBER : option pystr
}.

Definition getenv (v : option pystr) (dflt : pystr) : pystr :=
  match v with Some s => s | None => dflt end.

Definition pystr_eqb (a b : pystr) : bool := bool_decide (a = b).

Definition TARGET_EXTENSION (e : Environ) : pystr :=
  lower (getenv (env_TARGET_EXTENSION e) (str ".npvt")).

Definition DESTINATION_CHANNEL (e : Environ) : pystr :=
  strip (getenv (env_DESTINATION_CHANNEL e) []).

Definition FILE_PREFIX (e : Environ) : pystr :=
  getenv (env_FILE_PREFIX e) (str "Hamipn_").

Definition SHOW_SEQUENCE_NUMBER (e : Environ) : bool :=
  pystr_eqb (lower (getenv (env_SHOW_SEQUENCE_NUMBER e) (str "true")))
            (str "true").

(** The test [filename.lower().endswith(self.target_extension)] of the
    three pipelines. *)
Definition has_target_extension (e : Environ) (filename : pystr) : bool :=
  endswith (lower filename) (TARGET_EXTENSION e).

(** [config.DATABASE_FILE], which [user_monitor.py] reads: [config.py]
    assigns no such name, so the attribute lookup raises
    [AttributeError]. *)
Definition DATABASE_FILE : option pystr := None.

(** [s.split(',')]: the pieces between the commas, the empty ones too. *)
Fixpoint split_comma (s : pystr) : list pystr :=
  match s with
  | [] => [[]]
  | c :: t =>
      if ascii_eqb c ","%char then [] :: split_comma t
      else match split_comma t with
           | piece :: rest => (c :: piece) :: rest
           | [] => [[c]]
           end
  end.

(** [SOURCE_CHANNELS]: the pieces of the variable, trimmed, without those
    that are empty once trimmed. *)
Definition SOURCE_CHANNELS (source_channels_str : pystr) : list pystr :=
  map strip (filter (fun c => strip c <> []) (split_comma source_channels_str)).

End Config.

(** ** Python strings with the Greek sigmas

    [str.lower] lowers every character by itself, except the Greek
    capital sigma, which becomes the final sigma at the end of a word and
    the small sigma elsewhere.  The strings of this module have, beside the
    code points below 256, the three sigmas, so that they carry this
    rule; on the code points below 256 alone [lower] is [PyStr.lower]. *)

Module Unicode.

Inductive uchar :=
| Latin (c : ascii)
| CapitalSigma
| SmallSigma
| FinalSigma.
(* [Latin c] is the code point of [c]; the sigmas are U+03A3, U+03C3 and
   U+03C2. *)

#[global] Instance uchar_eq_dec : EqDecision uchar.
Proof. solve_decision. Defined.

Abbreviation ustr := (list uchar).

(** A string of code points below 256, among the strings of this
    module. *)
Definition of_pystr (s : pystr) : ustr := map Latin s.

(** The characters that are cased and not case-ignorable: among the code
    points below 256 the letters A-Z and a-z, the ordinal indicators, the
    micro sign and the letters from U+00C0 on but the two operators. *)
Definition cased (c : uchar) : bool :=
  match c with
  | Latin a =>
      let n := code a in
      ((65 <=? n) && (n <=? 90)) || ((97 <=? n) && (n <=? 122))
      || (n =? 170) || (n =? 181) || (n =? 186)
      || ((192 <=? n) && (n <=? 214)) || ((216 <=? n) && (n <=? 246))
      || ((248 <=? n) && (n <=? 255))
  | CapitalSigma | SmallSigma | FinalSigma => true
  end.

(** The case-ignorable characters: apostrophe, full stop, colon,
    circumflex, grave, diaeresis, soft hyphen, macron, acute, middle dot and
    cedilla. *)
Definition case_ignorable (c : uchar) : bool :=
  match c with
  | Latin a =>
      let n := code a in
      (n =? 39) || (n =? 46) || (n =? 58) || (n =? 94) || (n =? 96)
      || (n =? 168) || (n =? 173) || (n =? 175) || (n =? 180)
      || (n =? 183) || (n =? 184)
  | CapitalSigma | SmallSigma | FinalSigma => false
  end.

(** The first character of [s] that is not case-ignorable is there and is
    cased. *)
Fixpoint cased_comes_first (s : ustr) : bool :=
  match s with
  | [] => false
  | c :: t => if case_ignorable c then cased_comes_first t else cased c
  end.

(** The capital sigma that has [before] in front of it, nearest character
    first, and [after] behind it: final when a cased character precedes it
    and none follows, case-ignorable characters set aside. *)
Definition lower_capital_sigma (before after : ustr) : uchar :=
  if cased_comes_first before && negb (cased_comes_first after)
  then FinalSigma else SmallSigma.

Definition lower_char (before after : ustr) (c : uchar) : uchar :=
  match c with
  | Latin a => Latin (PyStr.lower_char a)
  | CapitalSigma => lower_capital_sigma before after
  | SmallSigma => SmallSigma
  | FinalSigma => FinalSigma
  end.

Fixpoint lower_from (before s : ustr) : ustr :=
  match s with
  | [] => []
  | c :: t => lower_char before t c :: lower_from (c :: before) t
  end.

(** [s.lower()] *)
Definition lower (s : ustr) : ustr := lower_from [] s.

(** [s.endswith(suf)] *)
Definition endswith (s suf : ustr) : bool := bool_decide (suf `suffix_of` s).

(** [os.getenv('TARGET_EXTENSION', '.npvt')] *)
Definition configured_extension (env : option ustr) : ustr :=
  match env with
  | Some s => s
  | None => of_pystr (str ".npvt")
  end.

Definition TARGET_EXTENSION (env : option ustr) : ustr :=
  lower (configured_extension env).

(** [filename.lower().endswith(self.target_extension)] *)
Definition has_target_extension (env : option ustr) (filename : ustr)
    : bool :=
  endswith (lower filename) (TARGET_EXTENSION env).

End Unicode.

(** ** file_namer.py *)

Module FileNamer.

Record FileNamingSystem := {
  prefix : pystr;
  show_sequence : bool;
  destination_id : pystr
}.

(** [FileNamingSystem.__init__]: an empty or missing prefix falls back to
    the configured one. *)
Definition init (e : Config.Environ)
    (prefix_arg : option pystr) (show_sequence_arg : option bool)
    : FileNamingSystem :=
  {| prefix := match prefix_arg with
               | Some (c :: p) => c :: p
               | _ => Config.FILE_PREFIX e
               end;
     show_sequence := match show_sequence_arg with
                      | Some b => b
                      | None => Config.SHOW_SEQUENCE_NUMBER e
                      end;
     destination_id := remove_char "@"%char (Config.DESTINATION_CHANNEL e) |}.

(** The character class that [clean_filename] deletes with [re.sub]:
    less-than, greater-than, colon, double quote, slash, backslash,
    vertical bar, question mark and asterisk. *)
Definition invalid_char (c : ascii) : bool :=
  let n := code c in
  (n =? 60) || (n =? 62) || (n =? 58) || (n =? 34) || (n =? 47)
  || (n =? 92) || (n =? 124) || (n =? 63) || (n =? 42).

(** The first lines of [clean_filename]: base name and extension. *)
Definition split_ext (filename : pystr) : pystr * pystr :=
  match rsplit_dot filename with
  | Some (name, ext) => (name, ext)
  | None => (filename, [])
  end.

(** An extension as it is appended to a name: with its dot, or nothing
    when there is no extension. *)
Definition ext_suffix (ext : pystr) : pystr :=
  match ext with
  | [] => []
  | _ :: _ => "."%char :: ext
  end.

(** What [clean_filename] does to the base name. *)
Definition clean_base (name : pystr) : pystr :=
  let name := filter (fun c => invalid_char c = false) name in
  let name := strip (collapse_ws name) in
  if (50 <? length name)%nat then take 50 name else name.

Definition clean_filename (filename : pystr) : pystr :=
  let '(name, ext) := split_ext filename in
  let name := clean_base name in
  match ext with
  | [] => name
  | _ :: _ => name ++ "."%char :: ext
  end.

Definition generate_new_filename (self : FileNamingSystem)
    (original_filename : pystr) (sequence_number : Z) : pystr :=
  let cleaned_name := clean_filename original_filename in
  let '(name_part, extension) := split_ext cleaned_name in
  let new_name :=
    if show_sequence self
    then prefix self ++ fmt_04d sequence_number
           ++ "_"%char :: destination_id self
    else prefix self ++ destination_id self in
  let new_name :=
    if (0 <? length name_part)%nat
    then new_name ++ "_"%char :: take 20 name_part
    else new_name in
  match extension with
  | [] => new_name
  | _ :: _ => new_name ++ "."%char :: extension
  end.

(** [s] without the literal [p] in front, when it is there. *)
Fixpoint strip_literal (p s : pystr) {struct p} : option pystr :=
  match p, s with
  | [], _ => Some s
  | _ :: _, [] => None
  | a :: p', b :: s' => if ascii_eqb a b then strip_literal p' s' else None
  end.

Fixpoint span_digits (s : pystr) : pystr * pystr :=
  match s with
  | [] => ([], [])
  | c :: t => if isdigit c
              then let '(ds, r) := span_digits t in (c :: ds, r)
              else ([], s)
  end.

(** [extract_original_name]: the pattern is the escaped prefix, [\d+],
    [_], the escaped destination id, [_], anchored at the start.  The
    greedy [\d+] takes the whole run of digits; a shorter run cannot be
    followed by [_], so backtracking finds no other match. *)
Definition extract_original_name (self : FileNamingSystem)
    (new_filename : pystr) : option pystr :=
  match strip_literal (prefix self) new_filename with
  | None => None
  | Some r =>
      match span_digits r with
      | ([], _) => None
      | (_ :: _, r') =>
          strip_literal ("_"%char :: destination_id self ++ ["_"%char]) r'
      end
  end.

End FileNamer.

Import FileNamer.

(** ** Telegram objects, as the pipelines read them *)

Module Telethon.

Inductive DocumentAttribute :=
| DocumentAttributeFilename (file_name : pystr)
| DocumentAttributeOther.

(** [date] is the document's timestamp in whole epoch seconds. *)
Record Document := {
  doc_id : Z;
  doc_size : Z;
  doc_date : Z;
  doc_attributes : list DocumentAttribute
}.

(** The [document] of a [MessageMediaDocument] is optional in the
    Telegram schema. *)
Inductive MessageMedia :=
| MessageMediaDocument (document : option Document)
| MessageMediaOther.

Record Message := {
  msg_id : Z;
  msg_media : option MessageMedia
}.

Record Channel := {
  ch_id : Z;
  ch_username : option pystr
}.

(** What [client.download_media] answers. *)
Inductive DownloadOutcome :=
| Downloaded (path : pystr) (data : list Byte.byte)
| DownloadedNothing
| DownloadRaises.

(** What one publish call ([client.send_file], [client.forward_messages])
    answers. *)
Inductive SendOutcome :=
| SendOk
| SendFloodWait (seconds : Z)
| SendAdminRequired
| SendFails.

Definition is_send_ok (o : SendOutcome) : bool :=
  match o with
  | SendOk => true
  | _ => false
  end.

(** What [client.get_entity] answers. *)
Inductive EntityOutcome :=
| EntityFound (c : Channel)
| EntityPrivate
| EntityFails.

(** The remote service: the answers it gives.  Publish calls are numbered
    from 0 in the order they are issued. *)
Record Transport := {
  download_media : Message -> DownloadOutcome;
  publish_outcome : nat -> SendOutcome;
  get_entity : pystr -> EntityOutcome;
  get_messages : Channel -> list Message
}.

(** The loop that every pipeline runs over [document.attributes]: the
    first file name attribute. *)
Fixpoint extract_filename (attrs : list DocumentAttribute) : option pystr :=
  match attrs with
  | [] => None
  | DocumentAttributeFilename n :: _ => Some n
  | DocumentAttributeOther :: rest => extract_filename rest
  end.

End Telethon.

Import Telethon.

(** ** The machine: stores, clock, temporary files and the effect trace *)

Module Machine.

(** A row of [processed_files] in [database.py], without its key and
    without [processed_at], which SQLite fills in. *)
Record ProcessedFile := {
  original_filename : pystr;
  new_filename : pystr;
  sequence_number : Z;
  channel_username : option pystr;
  file_size : Z
}.

(** A row of [processed_files] in [clean_monitor.py]. *)
Record CleanRow := {
  original_message_id : Z;
  channel_id : Z;
  file_name : pystr
}.

(** A row of [sent_messages] in [user_monitor.py]. *)
Record SentRow := {
  sent_channel_username : option pystr;
  sent_file_name : pystr;
  sent_file_size : Z
}.

(** The caption of a published file.  Its fixed text lies outside the
    character range of the model, so a caption is kept as the values that
    its lines render. *)
Record Caption := {
  cap_filename : pystr;
  cap_sequence : option Z;
  cap_destination_id : pystr;
  cap_size : option Z;
  cap_time : Z
}.

(** The arguments of [client.send_file] that vary. *)
Record PublishArgs := {
  pa_entity : pystr;
  pa_file : list Byte.byte;
  pa_caption : Caption;
  pa_file_name : pystr
}.

(** The effects that leave the process, in the order they happen. *)
Inductive Event :=
| EvLedgerLookup (file_hash : pystr)
| EvSentLookup (message_id channel_id : Z)
| EvDownload (m : Message)
| EvSeqAlloc (n : Z)
| EvPublish (a : PublishArgs)
| EvForward (message_id from_peer : Z)
| EvSleep (seconds : Z)
| EvLedgerWrite (file_hash : pystr)
| EvSentWrite (message_id channel_id : Z)
| EvAudit (action details : pystr).

Record World := {
  processed_files : gmap pystr ProcessedFile;
  counters : gmap pystr Z;
  activity_log : list (pystr * pystr);
  clean_processed_files : gmap pystr CleanRow;
  sent_messages : gmap (Z * Z) SentRow;
  files : gmap pystr (list Byte.byte);
  clock : Z;
  publish_calls : nat;
  trace : list Event
}.

Inductive exn :=
| FloodWaitError (seconds : Z)
| ChatAdminRequiredError
| IntegrityError
| AttributeError
| FileNotFoundError
| TransportError.

(** [OutOfFuel] is not a result of the program: the model ran out of
    steps before the program answered. *)
Inductive outcome (A : Type) :=
| Return (a : A)
| Raise (e : exn)
| OutOfFuel.
Arguments Return {A} a.
Arguments Raise {A} e.
Arguments OutOfFuel {A}.

Definition M (A : Type) : Type := World -> outcome A * World.

Definition ret {A} (a : A) : M A := fun w => (Return a, w).

Definition bind {A B} (m : M A) (k : A -> M B) : M B :=
  fun w =>
    match m w with
    | (Return a, w') => k a w'
    | (Raise e, w') => (Raise e, w')
    | (OutOfFuel, w') => (OutOfFuel, w')
    end.

Definition raise {A} (e : exn) : M A := fun w => (Raise e, w).

Definition out_of_fuel {A} : M A := fun w => (OutOfFuel, w).

(** [try: m  except Exception as e: h e] *)
Definition try_except {A} (m : M A) (h : exn -> M A) : M A :=
  fun w =>
    match m w with
    | (Raise e, w') => h e w'
    | r => r
    end.

Definition gets {A} (f : World -> A) : M A := fun w => (Return (f w), w).

Definition modify (f : World -> World) : M unit := fun w => (Return tt, f w).

Definition set_processed_files (x : gmap pystr ProcessedFile) (w : World) :=
  {| processed_files := x; counters := counters w;
     activity_log := activity_log w;
     clean_processed_files := clean_processed_files w;
     sent_messages := sent_messages w; files := files w;
     clock := clock w; publish_calls := publish_calls w;
     trace := trace w |}.

Definition set_counters (x : gmap pystr Z) (w : World) :=
  {| processed_files := processed_files w; counters := x;
     activity_log := activity_log w;
     clean_processed_files := clean_processed_files w;
     sent_messages := sent_messages w; files := files w;
     clock := clock w; publish_calls := publish_calls w;
     trace := trace w |}.

Definition set_activity_log (x : list (pystr * pystr)) (w : World) :=
  {| processed_files := processed_files w; counters := counters w;
     activity_log := x;
     clean_processed_files := clean_processed_files w;
     sent_messages := sent_messages w; files := files w;
     clock := clock w; publish_calls := publish_calls w;
     trace := trace w |}.

Definition set_clean_processed_files (x : gmap pystr CleanRow) (w : World) :=
  {| processed_files := processed_files w; counters := counters w;
     activity_log := activity_log w;
     clean_processed_files := x;
     sent_messages := sent_messages w; files := files w;
     clock := clock w; publish_calls := publish_calls w;
     trace := trace w |}.

Definition set_sent_messages (x : gmap (Z * Z) SentRow) (w : World) :=
  {| processed_files := processed_files w; counters := counters w;
     activity_log := activity_log w;
     clean_processed_files := clean_processed_files w;
     sent_messages := x; files := files w;
     clock := clock w; publish_calls := publish_calls w;
     trace := trace w |}.

Definition set_files (x : gmap pystr (list Byte.byte)) (w : World) :=
  {| processed_files := processed_files w; counters := counters w;
     activity_log := activity_log w;
     clean_processed_files := clean_processed_files w;
     sent_messages := sent_messages w; files := x;
     clock := clock w; publish_calls := publish_calls w;
     trace := trace w |}.

Definition set_clock (x : Z) (w : World) :=
  {| processed_files := processed_files w; counters := counters w;
     activity_log := activity_log w;
     clean_processed_files := clean_processed_files w;
     sent_messages := sent_messages w; files := files w;
     clock := x; publish_calls := publish_calls w;
     trace := trace w |}.

Definition set_publish_calls (x : nat) (w : World) :=
  {| processed_files := processed_files w; counters := counters w;
     activity_log := activity_log w;
     clean_processed_files := clean_processed_files w;
     sent_messages := sent_messages w; files := files w;
     clock := clock w; publish_calls := x;
     trace := trace w |}.

Definition set_trace (x : list Event) (w : World) :=
  {| processed_files := processed_files w; counters := counters w;
     activity_log := activity_log w;
     clean_processed_files := clean_processed_files w;
     sent_messages := sent_messages w; files := files w;
     clock := clock w; publish_calls := publish_calls w;
     trace := x |}.

Definition emit (e : Event) : M unit :=
  modify (fun w => set_trace (trace w ++ [e]) w).

(** [await asyncio.sleep(seconds)]: the only place where the clock of the
    model moves. *)
Definition sleep (seconds : Z) : M unit :=
  bind (emit (EvSleep seconds)) (fun _ =>
  modify (fun w => set_clock (clock w + Z.max 0 seconds) w)).

(** [datetime.now()] *)
Definition now : M Z := gets clock.

(** [open(path, 'rb').read()] *)
Definition read_file (path : pystr) : M (list Byte.byte) :=
  fun w =>
    match files w !! path with
    | Some data => (Return data, w)
    | None => (Raise FileNotFoundError, w)
    end.

(** [if os.path.exists(path): os.remove(path)] *)
Definition remove_if_exists (path : pystr) : M unit :=
  modify (fun w => set_files (delete path (files w)) w).

(** How a publish call ends, by the answer of the transport. *)
Definition publish_result (o : SendOutcome) : outcome unit :=
  match o with
  | SendOk => Return tt
  | SendFloodWait s => Raise (FloodWaitError s)
  | SendAdminRequired => Raise ChatAdminRequiredError
  | SendFails => Raise TransportError
  end.

(** One publish call: the transport answers by the number of the call. *)
Definition publish (T : Transport) (ev : Event) : M unit :=
  bind (emit ev) (fun _ =>
  bind (gets publish_calls) (fun n =>
  bind (modify (set_publish_calls (S n))) (fun _ =>
  fun w => (publish_result (publish_outcome T n), w)))).

(** [client.download_media(message.media, file=...)] followed by the
    test [downloaded and os.path.exists(downloaded)]: the path of the
    file that was written, if any. *)
Definition download (T : Transport) (message : Message)
    : M (option (pystr * Z)) :=
  bind (emit (EvDownload message)) (fun _ =>
  match download_media T message with
  | Downloaded path data =>
      bind (modify (fun w => set_files (<[path := data]> (files w)) w))
           (fun _ => ret (Some (path, Z.of_nat (length data))))
  | DownloadedNothing => ret None
  | DownloadRaises => raise TransportError
  end).

(** [str(e)] of an exception.  The text comes from the library that
    raised it; the model keeps one text per kind of exception. *)
Definition exn_str (e : exn) : pystr :=
  match e with
  | FloodWaitError s => str "FloodWaitError " ++ str_int s
  | ChatAdminRequiredError => str "ChatAdminRequiredError"
  | IntegrityError => str "UNIQUE constraint failed: processed_files.file_hash"
  | AttributeError => str "AttributeError"
  | FileNotFoundError => str "FileNotFoundError"
  | TransportError => str "TransportError"
  end.

End Machine.

Import Machine.

#[global] Instance M_ret : MRet M := @ret.
#[global] Instance M_bind : MBind M := fun A B k m => bind m k.

(** ** database.py *)

Module DatabaseManager.

(** [init_counter]: the row is created at 0 unless it exists. *)
Definition init_counter (counter_name : pystr) : M unit :=
  row ← gets (fun w => counters w !! counter_name);
  match row with
  | Some _ => mret tt
  | None =>
      modify (fun w => set_counters (<[counter_name := 0]> (counters w)) w)
  end.

(** [get_next_sequence_number]: the [UPDATE] changes the row of the
    counter and does nothing when there is no such row. *)
Definition get_next_sequence_number (counter_name : pystr) : M Z :=
  result ← gets (fun w => counters w !! counter_name);
  let current_value := match result with Some v => v | None => 0 end in
  let new_value := current_value + 1 in
  modify (fun w =>
    match counters w !! counter_name with
    | Some _ => set_counters (<[counter_name := new_value]> (counters w)) w
    | None => w
    end);;
  emit (EvSeqAlloc new_value);;
  mret new_value.

Definition get_current_sequence_number (counter_name : pystr) : M Z :=
  result ← gets (fun w => counters w !! counter_name);
  mret (match result with Some v => v | None => 0 end).

Definition is_file_processed (file_hash : pystr) : M bool :=
  emit (EvLedgerLookup file_hash);;
  result ← gets (fun w => processed_files w !! file_hash);
  mret (match result with Some _ => true | None => false end).

(** [save_processed_file]: a plain [INSERT] into a table whose primary
    key is [file_hash]; SQLite refuses a second row with the same key. *)
Definition save_processed_file (file_hash : pystr) (row : ProcessedFile)
    : M unit :=
  emit (EvLedgerWrite file_hash);;
  existing ← gets (fun w => processed_files w !! file_hash);
  match existing with
  | Some _ => raise IntegrityError
  | None =>
      modify (fun w =>
        set_processed_files (<[file_hash := row]> (processed_files w)) w)
  end.

Definition log_activity (action details : pystr) : M unit :=
  emit (EvAudit action details);;
  modify (fun w =>
    set_activity_log (activity_log w ++ [(action, details)]) w).

(** The counter that the pipeline uses, and that [initialize] creates. *)
Definition file_counter : pystr := str "file_counter".

(** The part of [initialize] after the tables exist. *)
Definition initialize : M unit := init_counter file_counter.

End DatabaseManager.

(** ** main.py *)

Module AdvancedTelegramMonitor.

(** [str(d.timestamp())] for a time in whole seconds, below the size
    where Python turns to exponent notation. *)
Definition timestamp_str (t : Z) : pystr := str_int t ++ str ".0".

(** The hash of a document: its id, its size and its date. *)
Definition document_hash (d : Document) : pystr :=
  str_int (doc_id d) ++ "_"%char :: str_int (doc_size d)
    ++ "_"%char :: timestamp_str (doc_date d).

(** [get_file_hash]: an object without [id] and [size] gets a hash made
    from the clock. *)
Definition get_file_hash (document : option Document) : M pystr :=
  match document with
  | Some d => mret (document_hash d)
  | None =>
      t ← now;
      mret (str "hash_" ++ timestamp_str t)
  end.

(** [document.attributes] on the document of a media. *)
Definition attributes_of (document : option Document)
    : M (list DocumentAttribute) :=
  match document with
  | Some d => mret (doc_attributes d)
  | None => raise AttributeError
  end.

Definition download_file (T : Transport) (message : Message)
    : M (option (pystr * pystr * Z)) :=
  try_except
    (match msg_media message with
     | Some (MessageMediaDocument document) =>
         attrs ← attributes_of document;
         match extract_filename attrs with
         | Some (c :: n) =>
             let original_filename := c :: n in
             downloaded ← download T message;
             match downloaded with
             | Some (path, size) =>
                 mret (Some (path, original_filename, size))
             | None => mret None
             end
         | _ => mret None
         end
     | _ => mret None
     end)
    (fun _ => mret None).

(** The caption that [send_file_with_new_name] builds at time [t], and
    the arguments it gives to [client.send_file]. *)
Definition send_file_args (e : Config.Environ) (new_filename : pystr)
    (sequence_number file_size : Z) (file_data : list Byte.byte) (t : Z)
    : PublishArgs :=
  let destination_id :=
    remove_char "@"%char (Config.DESTINATION_CHANNEL e) in
  let caption :=
    {| cap_filename := new_filename;
       cap_sequence := Some sequence_number;
       cap_destination_id := destination_id;
       cap_size := Some file_size;
       cap_time := t |} in
  {| pa_entity := Config.DESTINATION_CHANNEL e;
     pa_file := file_data;
     pa_caption := caption;
     pa_file_name := new_filename |}.

Fixpoint send_file_with_new_name (e : Config.Environ) (T : Transport)
    (fuel : nat) (file_path original_name : pystr) (file_size : Z)
    (channel_username : option pystr) (message : Message) : M bool :=
  match fuel with
  | O => out_of_fuel
  | S fuel' =>
      try_except
        (sequence_number ←
           DatabaseManager.get_next_sequence_number
             DatabaseManager.file_counter;
         let new_filename :=
           generate_new_filename (FileNamer.init e None None)
             original_name sequence_number in
         file_data ← read_file file_path;
         t ← now;
         publish T (EvPublish
           (send_file_args e new_filename sequence_number file_size
              file_data t));;
         file_hash ←
           match msg_media message with
           | Some (MessageMediaDocument document) => get_file_hash document
           | _ =>
               t ← now;
               mret (timestamp_str t ++ "_"%char :: original_name)
           end;
         DatabaseManager.save_processed_file file_hash
           {| original_filename := original_name;
              new_filename := new_filename;
              sequence_number := sequence_number;
              channel_username := channel_username;
              file_size := file_size |};;
         DatabaseManager.log_activity (str "FILE_SENT")
           (new_filename ++ str " - #" ++ str_int sequence_number);;
         mret true)
        (fun err =>
           match err with
           | FloodWaitError seconds =>
               sleep seconds;;
               send_file_with_new_name e T fuel' file_path original_name
                 file_size channel_username message
           | _ =>
               DatabaseManager.log_activity (str "SEND_ERROR") (exn_str err);;
               mret false
           end)
  end.

Definition process_message (e : Config.Environ) (T : Transport)
    (fuel : nat) (message : Message) (channel : Channel) : M bool :=
  try_except
    (match msg_media message with
     | Some (MessageMediaDocument document) =>
         attrs ← attributes_of document;
         match extract_filename attrs with
         | Some (c :: n) =>
             let original_filename := c :: n in
             if negb (Config.has_target_extension e original_filename)
             then mret false
             else
               file_hash ← get_file_hash document;
               processed ← DatabaseManager.is_file_processed file_hash;
               if (processed : bool) then mret false
               else
                 download_result ← download_file T message;
                 match download_result with
                 | None => mret false
                 | Some (file_path, original_name, file_size) =>
                     success ←
                       send_file_with_new_name e T fuel file_path
                         original_name file_size (ch_username channel)
                         message;
                     remove_if_exists file_path;;
                     mret success
                 end
         | _ => mret false
         end
     | _ => mret false
     end)
    (fun err =>
       DatabaseManager.log_activity (str "PROCESS_ERROR") (exn_str err);;
       mret false).

(** The [for] loop of [check_channel]. *)
Fixpoint process_messages (e : Config.Environ) (T : Transport)
    (fuel : nat) (messages : list Message) (channel : Channel)
    (sent_count : Z) : M Z :=
  match messages with
  | [] => mret sent_count
  | message :: rest =>
      sent ← process_message e T fuel message channel;
      if (sent : bool)
      then sleep 3;;
           process_messages e T fuel rest channel (sent_count + 1)
      else process_messages e T fuel rest channel sent_count
  end.

Definition check_channel (e : Config.Environ) (T : Transport)
    (fuel : nat) (channel_username : pystr) : M Z :=
  match get_entity T channel_username with
  | EntityFound channel =>
      process_messages e T fuel (get_messages T channel) channel 0
  | EntityPrivate => mret 0
  | EntityFails => mret 0
  end.

(** The [for] loop of [monitoring_cycle]: after each channel but those
    equal to the last of the list, a pause of two seconds. *)
Fixpoint cycle_channels (e : Config.Environ) (T : Transport) (fuel : nat)
    (source_channels remaining : list pystr) (total_sent : Z) : M Z :=
  match remaining with
  | [] => mret total_sent
  | channel :: rest =>
      sent ← check_channel e T fuel channel;
      (if bool_decide (Some channel <> last source_channels)
       then sleep 2 else mret tt);;
      cycle_channels e T fuel source_channels rest (total_sent + sent)
  end.

(** [monitoring_cycle].  The detail text of the audit record has a Persian
    label before the number; its characters are outside the range of the
    model and only the number is kept. *)
Definition monitoring_cycle (e : Config.Environ) (T : Transport)
    (fuel : nat) (source_channels : list pystr) : M Z :=
  total_sent ← cycle_channels e T fuel source_channels source_channels 0;
  DatabaseManager.log_activity (str "CYCLE_COMPLETE") (str_int total_sent);;
  mret total_sent.

End AdvancedTelegramMonitor.

(** ** clean_monitor.py *)

Module CleanFileMonitor.

Definition get_file_hash (document : Document) : pystr :=
  str_int (doc_id document) ++ "_"%char :: str_int (doc_size document).

Definition is_file_processed (file_hash : pystr) : M bool :=
  emit (EvLedgerLookup file_hash);;
  result ← gets (fun w => clean_processed_files w !! file_hash);
  mret (match result with Some _ => true | None => false end).

(** [mark_file_as_processed]: [INSERT OR REPLACE]. *)
Definition mark_file_as_processed (file_hash : pystr) (message_id : Z)
    (channel_id : Z) (filename : pystr) : M unit :=
  emit (EvLedgerWrite file_hash);;
  modify (fun w =>
    set_clean_processed_files
      (<[file_hash := {| original_message_id := message_id;
                         channel_id := channel_id;
                         file_name := filename |}]>
         (clean_processed_files w)) w).

Definition download_file (T : Transport) (message : Message)
    (filename : pystr) : M (option pystr) :=
  try_except
    (downloaded ← download T message;
     match downloaded with
     | Some (path, _) => mret (Some path)
     | None => mret None
     end)
    (fun _ => mret None).

(** The caption that [send_clean_file] builds at time [t], and the
    arguments it gives to [client.send_file]. *)
Definition send_file_args (e : Config.Environ) (filename : pystr)
    (file_data : list Byte.byte) (t : Z) : PublishArgs :=
  let caption :=
    {| cap_filename := filename;
       cap_sequence := None;
       cap_destination_id :=
         remove_char "@"%char (Config.DESTINATION_CHANNEL e);
       cap_size := None;
       cap_time := t |} in
  {| pa_entity := Config.DESTINATION_CHANNEL e;
     pa_file := file_data;
     pa_caption := caption;
     pa_file_name := filename |}.

Fixpoint send_clean_file (e : Config.Environ) (T : Transport)
    (fuel : nat) (file_path filename : pystr)
    (source_channel_name : option pystr) : M bool :=
  match fuel with
  | O => out_of_fuel
  | S fuel' =>
      try_except
        (file_data ← read_file file_path;
         t ← now;
         publish T (EvPublish (send_file_args e filename file_data t));;
         mret true)
        (fun err =>
           match err with
           | FloodWaitError seconds =>
               sleep seconds;;
               send_clean_file e T fuel' file_path filename
                 source_channel_name
           | _ => mret false
           end)
  end.

Definition process_message (e : Config.Environ) (T : Transport)
    (fuel : nat) (message : Message) (channel : Channel) : M bool :=
  try_except
    (match msg_media message with
     | Some (MessageMediaDocument document) =>
         attrs ← AdvancedTelegramMonitor.attributes_of document;
         match extract_filename attrs, document with
         | Some (c :: n), Some d =>
             let filename := c :: n in
             if negb (Config.has_target_extension e filename)
             then mret false
             else
               let file_hash := get_file_hash d in
               processed ← is_file_processed file_hash;
               if (processed : bool) then mret false
               else
                 downloaded_path ← download_file T message filename;
                 match downloaded_path with
                 | None => mret false
                 | Some path =>
                     success ←
                       send_clean_file e T fuel path filename
                         (ch_username channel);
                     if (success : bool)
                     then
                       mark_file_as_processed file_hash (msg_id message)
                         (ch_id channel) filename;;
                       mret true
                     else mret false
                 end
         | _, _ => mret false
         end
     | _ => mret false
     end)
    (fun _ => mret false).

Fixpoint process_messages (e : Config.Environ) (T : Transport)
    (fuel : nat) (messages : list Message) (channel : Channel)
    (sent_count : Z) : M Z :=
  match messages with
  | [] => mret sent_count
  | message :: rest =>
      sent ← process_message e T fuel message channel;
      if (sent : bool)
      then sleep 2;;
           process_messages e T fuel rest channel (sent_count + 1)
      else process_messages e T fuel rest channel sent_count
  end.

Definition check_channel (e : Config.Environ) (T : Transport)
    (fuel : nat) (channel_username : pystr) : M Z :=
  match get_entity T channel_username with
  | EntityFound channel =>
      process_messages e T fuel (get_messages T channel) channel 0
  | EntityPrivate => mret 0
  | EntityFails => mret 0
  end.

Fixpoint cycle_channels (e : Config.Environ) (T : Transport) (fuel : nat)
    (source_channels remaining : list pystr) (total_sent : Z) : M Z :=
  match remaining with
  | [] => mret total_sent
  | channel :: rest =>
      sent ← check_channel e T fuel channel;
      (if bool_decide (Some channel <> last source_channels)
       then sleep 3 else mret tt);;
      cycle_channels e T fuel source_channels rest (total_sent + sent)
  end.

Definition monitoring_cycle (e : Config.Environ) (T : Transport)
    (fuel : nat) (source_channels : list pystr) : M Z :=
  cycle_channels e T fuel source_channels source_channels 0.

End CleanFileMonitor.

(** ** user_monitor.py *)

Module TelegramChannelMonitor.

(** The handle that [aiosqlite.connect] returns, by the path of its file. *)
Inductive Connection := connect (database : pystr).

(** The attribute of the monitor that its database methods test. *)
Record Monitor := { db_conn : option Connection }.

(** [__init__]: [self.db_conn = None]. *)
Definition init : Monitor := {| db_conn := None |}.

(** [init_database]:
    [self.db_conn = await aiosqlite.connect(config.DATABASE_FILE)].  The
    argument is evaluated before the call and before the assignment, and
    [config] has no such attribute.  The tables of the model are there in
    every world, as [CREATE TABLE IF NOT EXISTS] would leave them. *)
Definition init_database (self : Monitor) : M Monitor :=
  match Config.DATABASE_FILE with
  | Some database => mret {| db_conn := Some (connect database) |}
  | None => raise AttributeError
  end.

(** [log_activity]: [if self.db_conn: ...]. *)
Definition log_activity (self : Monitor) (action details : pystr) : M unit :=
  match db_conn self with
  | Some _ => DatabaseManager.log_activity action details
  | None => mret tt
  end.

(** [is_message_processed]: [if not self.db_conn: return False]. *)
Definition is_message_processed (self : Monitor) (message_id channel_id : Z)
    : M bool :=
  match db_conn self with
  | None => mret false
  | Some _ =>
      emit (EvSentLookup message_id channel_id);;
      result ← gets (fun w => sent_messages w !! (message_id, channel_id));
      mret (match result with Some _ => true | None => false end)
  end.

(** [mark_message_as_sent]: [if not self.db_conn: return], then
    [INSERT OR IGNORE] under [UNIQUE(message_id, channel_id)]. *)
Definition mark_message_as_sent (self : Monitor) (message : Message)
    (channel : Channel) (filename : pystr) : M unit :=
  match db_conn self with
  | None => mret tt
  | Some _ =>
      size ←
        match msg_media message with
        | Some (MessageMediaDocument (Some d)) => mret (doc_size d)
        | Some (MessageMediaDocument None) => mret 0
        | _ => raise AttributeError
        end;
      emit (EvSentWrite (msg_id message) (ch_id channel));;
      modify (fun w =>
        match sent_messages w !! (msg_id message, ch_id channel) with
        | Some _ => w
        | None =>
            set_sent_messages
              (<[(msg_id message, ch_id channel) :=
                   {| sent_channel_username := ch_username channel;
                      sent_file_name := filename;
                      sent_file_size := size |}]> (sent_messages w)) w
        end);;
      log_activity self (str "FILE_SENT")
        (filename ++ " "%char :: str_int (ch_id channel))
  end.
(* The detail text of the source has a Persian word between the file name
   and the channel id; its characters are outside the range of the model
   and a space stands for it. *)

Fixpoint forward_message (self : Monitor) (T : Transport) (fuel : nat)
    (message : Message) (source_channel : Channel) (filename : pystr)
    : M unit :=
  match fuel with
  | O => out_of_fuel
  | S fuel' =>
      try_except
        (publish T (EvForward (msg_id message) (ch_id source_channel));;
         mark_message_as_sent self message source_channel filename;;
         log_activity self (str "FORWARD_SUCCESS") filename)
        (fun err =>
           match err with
           | FloodWaitError seconds =>
               sleep seconds;;
               forward_message self T fuel' message source_channel filename
           | _ => mret tt
           end)
  end.

Definition process_message (self : Monitor) (e : Config.Environ)
    (T : Transport) (fuel : nat) (message : Message) (channel : Channel)
    : M bool :=
  try_except
    (match msg_media message with
     | Some (MessageMediaDocument document) =>
         processed ←
           is_message_processed self (msg_id message) (ch_id channel);
         if (processed : bool) then mret false
         else
           attrs ← AdvancedTelegramMonitor.attributes_of document;
           match extract_filename attrs with
           | Some (c :: n) =>
               let filename := c :: n in
               if negb (Config.has_target_extension e filename)
               then mret false
               else
                 forward_message self T fuel message channel filename;;
                 mret true
           | _ => mret false
           end
     | _ => mret false
     end)
    (fun _ => mret false).

(** The [for] loop of [check_channel_messages]. *)
Fixpoint process_messages (self : Monitor) (e : Config.Environ)
    (T : Transport) (fuel : nat) (messages : list Message)
    (channel : Channel) (sent_count : Z) : M Z :=
  match messages with
  | [] => mret sent_count
  | message :: rest =>
      sent ← process_message self e T fuel message channel;
      if (sent : bool)
      then sleep 1;;
           process_messages self e T fuel rest channel (sent_count + 1)
      else process_messages self e T fuel rest channel sent_count
  end.

Definition check_channel_messages (self : Monitor) (e : Config.Environ)
    (T : Transport) (fuel : nat) (channel_entity : Channel) : M Z :=
  try_except
    (process_messages self e T fuel (get_messages T channel_entity)
       channel_entity 0)
    (fun _ => mret 0).

(** [check_channel_access]: the source channels that can be reached; an
    unreachable destination is an error. *)
Fixpoint accessible_channels (T : Transport) (source_channels : list pystr)
    : list Channel :=
  match source_channels with
  | [] => []
  | channel_username :: rest =>
      match get_entity T channel_username with
      | EntityFound entity => entity :: accessible_channels T rest
      | _ => accessible_channels T rest
      end
  end.

Definition check_channel_access (e : Config.Environ) (T : Transport)
    (source_channels : list pystr) : M (list Channel) :=
  match get_entity T (Config.DESTINATION_CHANNEL e) with
  | EntityFound _ => mret (accessible_channels T source_channels)
  | EntityPrivate => raise TransportError
  | EntityFails => raise TransportError
  end.

#[global] Instance Channel_eq_dec : EqDecision Channel.
Proof. solve_decision. Defined.

Fixpoint cycle_channels (self : Monitor) (e : Config.Environ)
    (T : Transport) (fuel : nat) (channels remaining : list Channel)
    (total_sent : Z) : M Z :=
  match remaining with
  | [] => mret total_sent
  | channel :: rest =>
      sent ← check_channel_messages self e T fuel channel;
      (if bool_decide (Some channel <> last channels)
       then sleep 2 else mret tt);;
      cycle_channels self e T fuel channels rest (total_sent + sent)
  end.

(** [monitor_cycle].  The detail text of [CYCLE_COMPLETE] is kept as the
    number alone, as in [main.py]. *)
Definition monitor_cycle (self : Monitor) (e : Config.Environ)
    (T : Transport) (fuel : nat) (source_channels : list pystr) : M unit :=
  try_except
    (channels ← check_channel_access e T source_channels;
     match channels with
     | [] => mret tt
     | _ :: _ =>
         total_sent ← cycle_channels self e T fuel channels channels 0;
         log_activity self (str "CYCLE_COMPLETE") (str_int total_sent)
     end)
    (fun err => log_activity self (str "CYCLE_ERROR") (exn_str err)).

End TelegramChannelMonitor.

(** ** Call sequences that the properties run *)

Module Scenario.

(** A machine with empty stores and no temporary file, at time 0. *)
Definition empty_world : World :=
  {| processed_files := ∅; counters := ∅; activity_log := [];
     clean_processed_files := ∅; sent_messages := ∅; files := ∅;
     clock := 0; publish_calls := 0; trace := [] |}.

(** [k] calls of [get_next_sequence_number], with what they returned. *)
Fixpoint next_calls (counter_name : pystr) (k : nat) : M (list Z) :=
  match k with
  | O => mret []
  | S k' =>
      v ← DatabaseManager.get_next_sequence_number counter_name;
      vs ← next_calls counter_name k';
      mret (v :: vs)
  end.

(** One [save_processed_file] per row under the same key, by a caller
    that goes on after an error; the result tells which calls returned. *)
Fixpoint save_each (file_hash : pystr) (rows : list ProcessedFile)
    : M (list bool) :=
  match rows with
  | [] => mret []
  | row :: rest =>
      ok ← try_except
             (DatabaseManager.save_processed_file file_hash row;; mret true)
             (fun _ => mret false);
      oks ← save_each file_hash rest;
      mret (ok :: oks)
  end.

(** One [mark_file_as_processed] per row under the same key. *)
Fixpoint mark_each (file_hash : pystr) (rows : list CleanRow) : M unit :=
  match rows with
  | [] => mret tt
  | row :: rest =>
      CleanFileMonitor.mark_file_as_processed file_hash
        (original_message_id row) (channel_id row) (file_name row);;
      mark_each file_hash rest
  end.

(** The world after a publish attempt of [main.py] that was answered by
    a flood wait of [s] seconds: the counter moved from [c], the call was
    counted, the clock moved by the sleep. *)
Definition after_flood_wait (w : World) (c : Z) (a : PublishArgs) (s : Z)
    : World :=
  {| processed_files := processed_files w;
     counters := <[DatabaseManager.file_counter := c + 1]> (counters w);
     activity_log := activity_log w;
     clean_processed_files := clean_processed_files w;
     sent_messages := sent_messages w;
     files := files w;
     clock := clock w + Z.max 0 s;
     publish_calls := S (publish_calls w);
     trace := trace w ++ [EvSeqAlloc (c + 1); EvPublish a; EvSleep s] |}.

(** The publish call of [main.py] for [original_name] at sequence number
    [n] and time [t]. *)
Definition main_publish (e : Config.Environ) (original_name : pystr)
    (file_size : Z) (data : list Byte.byte) (n t : Z) : PublishArgs :=
  AdvancedTelegramMonitor.send_file_args e
    (generate_new_filename (FileNamer.init e None None) original_name n)
    n file_size data t.

(** The world of [main.py] after the flood waits [waits], one per
    attempt. *)
Fixpoint after_waits (e : Config.Environ) (original_name : pystr)
    (file_size : Z) (data : list Byte.byte) (w : World) (c : Z)
    (waits : list Z) : World :=
  match waits with
  | [] => w
  | s :: rest =>
      after_waits e original_name file_size data
        (after_flood_wait w c
           (main_publish e original_name file_size data (c + 1) (clock w))
           s)
        (c + 1) rest
  end.

(** The events of these attempts: each allocates the next sequence
    number, publishes under it, and sleeps as long as it was told. *)
Fixpoint rate_limited_attempts (e : Config.Environ) (original_name : pystr)
    (file_size : Z) (data : list Byte.byte) (c t : Z) (waits : list Z)
    : list Event :=
  match waits with
  | [] => []
  | s :: rest =>
      [EvSeqAlloc (c + 1);
       EvPublish (main_publish e original_name file_size data (c + 1) t);
       EvSleep s]
      ++ rate_limited_attempts e original_name file_size data
           (c + 1) (t + Z.max 0 s) rest
  end.

(** The time that the sleeps take. *)
Fixpoint total_sleep (waits : list Z) : Z :=
  match waits with
  | [] => 0
  | s :: rest => Z.max 0 s + total_sleep rest
  end.

(** The same for [clean_monitor.py], which has no counter. *)
Definition clean_after_flood_wait (w : World) (a : PublishArgs) (s : Z)
    : World :=
  {| processed_files := processed_files w;
     counters := counters w;
     activity_log := activity_log w;
     clean_processed_files := clean_processed_files w;
     sent_messages := sent_messages w;
     files := files w;
     clock := clock w + Z.max 0 s;
     publish_calls := S (publish_calls w);
     trace := trace w ++ [EvPublish a; EvSleep s] |}.

Fixpoint clean_after_waits (e : Config.Environ) (filename : pystr)
    (data : list Byte.byte) (w : World) (waits : list Z) : World :=
  match waits with
  | [] => w
  | s :: rest =>
      clean_after_waits e filename data
        (clean_after_flood_wait w
           (CleanFileMonitor.send_file_args e filename data (clock w)) s)
        rest
  end.

Fixpoint clean_rate_limited_attempts (e : Config.Environ)
    (filename : pystr) (data : list Byte.byte) (t : Z) (waits : list Z)
    : list Event :=
  match waits with
  | [] => []
  | s :: rest =>
      [EvPublish (CleanFileMonitor.send_file_args e filename data t);
       EvSleep s]
      ++ clean_rate_limited_attempts e filename data (t + Z.max 0 s) rest
  end.

(** A small deployment for the examples: one source channel with one
    matching document, relayed to [@dest]. *)
Definition demo_env : Config.Environ :=
  {| Config.env_TARGET_EXTENSION := None;
     Config.env_DESTINATION_CHANNEL := Some (str "@dest");
     Config.env_FILE_PREFIX := None;
     Config.env_SHOW_SEQUENCE_NUMBER := None |}.

Definition demo_document : Document :=
  {| doc_id := 7; doc_size := 3; doc_date := 1700000000;
     doc_attributes := [DocumentAttributeOther;
                        DocumentAttributeFilename (str "a.npvt")] |}.

Definition demo_message : Message :=
  {| msg_id := 11;
     msg_media := Some (MessageMediaDocument (Some demo_document)) |}.

(** The same document, posted again in another message. *)
Definition demo_repost : Message :=
  {| msg_id := 12;
     msg_media := Some (MessageMediaDocument (Some demo_document)) |}.

(** A document with the same id and the same size, dated a minute
    later. *)
Definition demo_later_document : Document :=
  {| doc_id := 7; doc_size := 3; doc_date := 1700000060;
     doc_attributes := [DocumentAttributeFilename (str "a.npvt")] |}.

Definition demo_later_message : Message :=
  {| msg_id := 13;
     msg_media := Some (MessageMediaDocument (Some demo_later_document)) |}.

Definition demo_channel : Channel :=
  {| ch_id := 5; ch_username := Some (str "source") |}.

Definition demo_path : pystr := str "/tmp/tg_a.npvt".

Definition demo_data : list Byte.byte := [Byte.x01; Byte.x02; Byte.x03].

(** A transport that downloads [demo_data] and answers the publish calls
    by [answers]. *)
Definition demo_transport (answers : nat -> SendOutcome) : Transport :=
  {| download_media := fun _ => Downloaded demo_path demo_data;
     publish_outcome := answers;
     get_entity := fun _ => EntityFound demo_channel;
     get_messages := fun _ => [demo_message] |}.

(** The machine after [initialize], with the downloaded file in place. *)
Definition demo_world : World :=
  {| processed_files := ∅;
     counters := {[DatabaseManager.file_counter := 0]};
     activity_log := [];
     clean_processed_files := ∅; sent_messages := ∅;
     files := {[demo_path := demo_data]};
     clock := 1000; publish_calls := 0; trace := [] |}.

(** Events of the transport and of the clock. *)
Definition is_publish (ev : Event) : bool :=
  match ev with
  | EvPublish _ | EvForward _ _ => true
  | _ => false
  end.

Definition is_sleep (ev : Event) : bool :=
  match ev with
  | EvSleep _ => true
  | _ => false
  end.

Definition is_seq_alloc (ev : Event) : bool :=
  match ev with
  | EvSeqAlloc _ => true
  | _ => false
  end.

Definition is_download (ev : Event) : bool :=
  match ev with
  | EvDownload _ => true
  | _ => false
  end.

Definition is_ledger_lookup (ev : Event) : bool :=
  match ev with
  | EvLedgerLookup _ | EvSentLookup _ _ => true
  | _ => false
  end.

End Scenario.

(** ** The specification's wording, for comparison with the code *)

Module Spec.

(** The characters that the specification lists as invalid in a file
    name; [chr 34] is the double quote. *)
Definition invalid_chars : list ascii :=
  ["<"; ">"; ":"; chr 34; "/"; "\"; "|"; "?"; "*"]%char.

Definition remove_invalid (s : pystr) : pystr :=
  filter (fun c => c ∉ invalid_chars) s.

(** The words of a string: its maximal runs of characters that are not
    whitespace. *)
Fixpoint words (s : pystr) : list pystr :=
  match s with
  | [] => []
  | c :: t =>
      if isspace c then words t
      else match t with
           | [] => [[c]]
           | c' :: _ =>
               if isspace c' then [c] :: words t
               else match words t with
                    | w :: ws => (c :: w) :: ws
                    | [] => [[c]]
                    end
           end
  end.

(** The words with one space between neighbours. *)
Fixpoint join_space (ws : list pystr) : pystr :=
  match ws with
  | [] => []
  | [w] => w
  | w :: rest => w ++ " "%char :: join_space rest
  end.

(** Whitespace runs collapsed to one space, and the ends trimmed. *)
Definition normalize_space (s : pystr) : pystr := join_space (words s).

(** Sanitization of a base name, in the order the specification gives. *)
Definition sanitize (name : pystr) : pystr :=
  take 50 (normalize_space (remove_invalid name)).

(** The capital letters among the code points below 256: A-Z and the
    letters from U+00C0 to U+00DE but the multiplication sign. *)
Definition capital_code (n : Z) : bool :=
  ((65 <=? n) && (n <=? 90)) || ((192 <=? n) && (n <=? 214))
  || ((216 <=? n) && (n <=? 222)).

(** A capital letter and a small form of it: below 256 the small letter
    is 32 code points further; the capital sigma has two small forms. *)
Inductive capital_small : Unicode.uchar -> Unicode.uchar -> Prop :=
| capital_small_latin (a b : ascii) :
    capital_code (code a) = true -> code b = code a + 32 ->
    capital_small (Unicode.Latin a) (Unicode.Latin b)
| capital_small_sigma :
    capital_small Unicode.CapitalSigma Unicode.SmallSigma
| capital_small_final_sigma :
    capital_small Unicode.CapitalSigma Unicode.FinalSigma.

(** The same character, or the two cases of one letter. *)
Definition same_letter (c c' : Unicode.uchar) : Prop :=
  c = c' \/ capital_small c c' \/ capital_small c' c.

(** Two strings that differ in letter case only. *)
Definition differ_in_case_only (a b : Unicode.ustr) : Prop :=
  Forall2 same_letter a b.

End Spec.

(** ** Notions that the properties use *)

(** The row that [main.py] stores for a relayed file. *)
Definition main_row (e : Config.Environ) (name : pystr) (size : Z)
    (chan : option pystr) (n : Z) : ProcessedFile :=
  {| original_filename := name;
     new_filename := generate_new_filename (FileNamer.init e None None) name n;
     sequence_number := n;
     channel_username := chan;
     file_size := size |}.

Definition file_sent_details (e : Config.Environ) (name : pystr) (n : Z)
    : pystr :=
  generate_new_filename (FileNamer.init e None None) name n
    ++ str " - #" ++ str_int n.

(** Events that are neither a publish call, nor a sleep, nor an allocation
    of a sequence number. *)
Definition quiet (ev : Event) : Prop :=
  Scenario.is_publish ev = false /\ Scenario.is_sleep ev = false
  /\ Scenario.is_seq_alloc ev = false.

(** [emits P m]: whatever the world, [m] extends the trace, and by events
    that satisfy [P] only. *)
Definition emits {A} (P : Event -> Prop) (m : M A) : Prop :=
  forall w, exists evs, trace (m w).2 = trace w ++ evs /\ Forall P evs.

(** Events of the sending stage: no ledger lookup and no download. *)
Definition after_download (ev : Event) : Prop :=
  Scenario.is_ledger_lookup ev = false /\ Scenario.is_download ev = false.

(** Events of a message that is filtered out: no ledger lookup, no
    download, no publish call. *)
Definition filtered_out (ev : Event) : Prop :=
  Scenario.is_ledger_lookup ev = false /\ Scenario.is_download ev = false
  /\ Scenario.is_publish ev = false.

(** The document of a message and its file name, as the pipelines find
    them. *)
Definition document_of (m : Message) : option Document :=
  match msg_media m with
  | Some (MessageMediaDocument (Some d)) => Some d
  | _ => None
  end.

Definition filename_of (m : Message) : option pystr :=
  match document_of m with
  | Some d => extract_filename (doc_attributes d)
  | None => None
  end.

(** The message has a document with a file name that is not empty and
    ends with the target extension. *)
Definition passes_extension_check (e : Config.Environ) (m : Message) : bool :=
  match filename_of m with
  | Some (c :: n) => Config.has_target_extension e (c :: n)
  | _ => false
  end.

(** [stable f m]: [m] leaves the part [f] of the world as it was,
    however it ends. *)
Definition stable {A B} (f : World -> B) (m : M A) : Prop :=
  forall w, f (m w).2 = f w.

(** [triple P m Q]: from a world in [P], [m] ends in an outcome and a world
    related by [Q]. *)
Definition triple {A} (P : World -> Prop) (m : M A)
    (Q : outcome A -> World -> Prop) : Prop :=
  forall w, P w -> Q (m w).1 (m w).2.

(** No two entries of the ledger of [main.py] carry the same sequence
    number. *)
Definition unique_sequence_numbers (L : gmap pystr ProcessedFile) : Prop :=
  forall h1 h2 r1 r2,
    L !! h1 = Some r1 -> L !! h2 = Some r2 ->
    sequence_number r1 = sequence_number r2 -> h1 = h2.

(** The ledger and the counter agree: the counter exists, no entry is
    numbered above it, and the numbers are unique. *)
Definition ledger_consistent (w : World) : Prop :=
  exists c,
    counters w !! DatabaseManager.file_counter = Some c
    /\ (forall h r, processed_files w !! h = Some r -> sequence_number r <= c)
    /\ unique_sequence_numbers (processed_files w).

(** The state between the allocation of [n] and the ledger write. *)
Definition number_reserved (n : Z) (w : World) : Prop :=
  counters w !! DatabaseManager.file_counter = Some n
  /\ (forall h r, processed_files w !! h = Some r -> sequence_number r < n)
  /\ unique_sequence_numbers (processed_files w).

(** [m] returns a value, whatever the world. *)
Definition always_returns {A} (m : M A) : Prop :=
  forall w, exists a, (m w).1 = Return a.

(** What a run of [main.py] on one message may do to a ledger [L]: a
    run that returns [True] has added exactly one entry, under a key that
    [L] lacked (the hash of the document, when the message has one); any
    other run has left [L] as it was; no run raises. *)
Definition main_relay_outcome (msg : Message) (name : pystr)
    (L : gmap pystr ProcessedFile) (o : outcome bool)
    (L' : gmap pystr ProcessedFile) : Prop :=
  match o with
  | Return true =>
      exists h row,
        L !! h = None /\ L' = <[h := row]> L
        /\ original_filename row = name
        /\ (forall d, msg_media msg = Some (MessageMediaDocument (Some d)) ->
            h = AdvancedTelegramMonitor.document_hash d)
  | Return false => L' = L
  | Raise _ => False
  | OutOfFuel => L' = L
  end.

(** The same for a whole [process_message] of [main.py]: the entry that a
    run returning [True] adds is keyed by the hash of the message's
    document and holds the file name of the message, which passed the
    extension check. *)
Definition main_process_outcome (e : Config.Environ) (m : Message)
    (L : gmap pystr ProcessedFile) (o : outcome bool)
    (L' : gmap pystr ProcessedFile) : Prop :=
  match o with
  | Return true =>
      exists d row,
        document_of m = Some d
        /\ passes_extension_check e m = true
        /\ L !! AdvancedTelegramMonitor.document_hash d = None
        /\ L' = <[AdvancedTelegramMonitor.document_hash d := row]> L
        /\ filename_of m = Some (original_filename row)
  | Return false => L' = L
  | Raise _ => False
  | OutOfFuel => L' = L
  end.

(** A property of the world that only looks at the counters and at the
    ledger of [main.py]. *)
Definition on_counters_and_ledger (P : World -> Prop) : Prop :=
  forall w w',
    counters w' = counters w -> processed_files w' = processed_files w ->
    P w -> P w'.

(** [m] keeps [I], however it ends. *)
Definition preserves {A} (I : World -> Prop) (m : M A) : Prop :=
  triple I m (fun _ w => I w).

(** What a [process_message] of [clean_monitor.py] may do to its ledger
    [L]: a run that returns [True] has added exactly one entry, for the
    message at hand, under the hash of its document, which [L] lacked; any
    other run has left [L] as it was; no run raises. *)
Definition clean_process_outcome (e : Config.Environ) (m : Message)
    (ch : Channel) (L : gmap pystr CleanRow) (o : outcome bool)
    (L' : gmap pystr CleanRow) : Prop :=
  match o with
  | Return true =>
      exists d name,
        document_of m = Some d
        /\ passes_extension_check e m = true
        /\ filename_of m = Some name
        /\ L !! CleanFileMonitor.get_file_hash d = None
        /\ L' = <[CleanFileMonitor.get_file_hash d :=
                    {| original_message_id := msg_id m;
                       channel_id := ch_id ch;
                       file_name := name |}]> L
  | Return false => L' = L
  | Raise _ => False
  | OutOfFuel => L' = L
  end.

(** What a run of [user_monitor.py] from [w0] keeps: the records of the
    forwarded messages stay, and the ledgers and the counters of the other
    two pipelines and the temporary files are as they were. *)
Definition user_records_kept (w0 w : World) : Prop :=
  sent_messages w0 ⊆ sent_messages w
  /\ processed_files w = processed_files w0
  /\ clean_processed_files w = clean_processed_files w0
  /\ counters w = counters w0
  /\ files w = files w0.

(** [m] never ends with an exception. *)
Definition never_raises {A} (m : M A) : Prop :=
  forall w err, (m w).1 <> Raise err.

(** The world after one accepted forward call of [user_monitor.py] that
    left no record: the call is on the trace and counted, and that is
    all. *)
Definition user_forwarded (m : Message) (ch : Channel) (w : World) : World :=
  set_publish_calls (S (publish_calls w))
    (set_trace (trace w ++ [EvForward (msg_id m) (ch_id ch)]) w).

(** * Properties *)

(** ** Strings *)

Lemma ascii_eqb_eq (a b : ascii) : ascii_eqb a b = true <-> a = b.
Proof. unfold ascii_eqb. apply Ascii.eqb_eq. Qed.

Lemma startswith_spec (s p : pystr) :
  startswith s p = true <-> exists r, s = p ++ r.
Proof.
  revert s. induction p as [|a p IH]; intros s; simpl.
  - split; [intros _; by exists s | done].
  - destruct s as [|b s].
    + split; [done | intros [r Hr]; discriminate].
    + rewrite andb_true_iff, ascii_eqb_eq, IH. split.
      * intros [-> [r ->]]. by exists r.
      * intros [r Hr]. injection Hr as -> ->. split; [done | by exists r].
Qed.

Lemma endswith_spec (s suf : pystr) :
  endswith s suf = true <-> exists q, s = q ++ suf.
Proof.
  unfold endswith. rewrite startswith_spec. split.
  - intros [r Hr]. exists (rev r).
    apply (f_equal (@rev ascii)) in Hr.
    rewrite rev_involutive, rev_app_distr, rev_involutive in Hr. done.
  - intros [q ->]. exists (rev q). by rewrite rev_app_distr.
Qed.

Lemma lower_char_idempotent (c : ascii) :
  lower_char (lower_char c) = lower_char c.
Proof. destruct c as [[] [] [] [] [] [] [] []]; reflexivity. Qed.

Lemma lower_idempotent (s : pystr) : lower (lower s) = lower s.
Proof.
  unfold lower. rewrite map_map. apply map_ext. apply lower_char_idempotent.
Qed.

Lemma lower_app (a b : pystr) : lower (a ++ b) = lower a ++ lower b.
Proof. apply map_app. Qed.

Lemma lower_length (s : pystr) : length (lower s) = length s.
Proof. apply length_map. Qed.

Lemma rsplit_dot_spec (s n e : pystr) :
  rsplit_dot s = Some (n, e) -> s = n ++ "."%char :: e /\ "."%char ∉ e.
Proof.
  revert n e. induction s as [|c t IH]; intros n e; simpl; [done |].
  destruct (rsplit_dot t) as [[n' e']|] eqn:Ht.
  - intros [= <- <-]. destruct (IH _ _ eq_refl) as [-> Hno]. done.
  - destruct (ascii_eqb c ".") eqn:Hc; [| done].
    intros [= <- <-]. apply ascii_eqb_eq in Hc as ->. split; [done |].
    clear IH. induction t as [|d t IHt]; [apply not_elem_of_nil |].
    simpl in Ht. destruct (rsplit_dot t) as [[? ?]|]; [done |].
    destruct (ascii_eqb d ".") eqn:Hd; [done |].
    apply not_elem_of_cons. split; [| by apply IHt].
    intros <-. by rewrite (proj2 (ascii_eqb_eq _ _) eq_refl) in Hd.
Qed.

Lemma rsplit_dot_None (s : pystr) :
  rsplit_dot s = None <-> "."%char ∉ s.
Proof.
  induction s as [|c t IH]; simpl.
  - split; [intros _; apply not_elem_of_nil | done].
  - destruct (rsplit_dot t) as [[n e]|].
    + split; [done |]. intros Hc. apply not_elem_of_cons in Hc as [_ Hc].
      by apply IH in Hc.
    + destruct (ascii_eqb c ".") eqn:Hc.
      * apply ascii_eqb_eq in Hc as ->. split; [done |].
        intros H. exfalso. apply H. left.
      * split; [| done]. intros _. apply not_elem_of_cons. split.
        -- intros <-. by rewrite (proj2 (ascii_eqb_eq _ _) eq_refl) in Hc.
        -- by apply IH.
Qed.

Lemma rsplit_dot_app (n e : pystr) :
  "."%char ∉ e -> rsplit_dot (n ++ "."%char :: e) = Some (n, e).
Proof.
  intros He. apply rsplit_dot_None in He.
  induction n as [|c n IH]; simpl.
  - by rewrite He.
  - by rewrite IH.
Qed.

Lemma split_ext_spec (f : pystr) :
  match rsplit_dot f with
  | Some (n, e) => split_ext f = (n, e) /\ f = n ++ "."%char :: e
                   /\ "."%char ∉ e
  | None => split_ext f = (f, []) /\ "."%char ∉ f
  end.
Proof.
  unfold split_ext. destruct (rsplit_dot f) as [[n e]|] eqn:H.
  - apply rsplit_dot_spec in H as [? ?]. done.
  - by apply rsplit_dot_None in H.
Qed.

(** *** Characters that sanitization can leave *)

Lemma elem_of_collapse_ws (c : ascii) (s : pystr) :
  c ∈ collapse_ws s -> c ∈ s \/ c = " "%char.
Proof.
  induction s as [|a t IH]; simpl; [by left |].
  destruct (isspace a).
  - destruct t as [|b t'].
    + intros H. apply list_elem_of_singleton in H. by right.
    + destruct (isspace b).
      * intros H. destruct (IH H) as [?|?]; [left; by right | by right].
      * intros H. apply elem_of_cons in H as [->|H]; [by right |].
        destruct (IH H) as [?|?]; [left; by right | by right].
  - intros H. apply elem_of_cons in H as [->|H]; [left; left |].
    destruct (IH H) as [?|?]; [left; by right | by right].
Qed.

Lemma elem_of_lstrip (c : ascii) (s : pystr) : c ∈ lstrip s -> c ∈ s.
Proof.
  induction s as [|a t IH]; simpl; [done |].
  destruct (isspace a); [| done]. intros H. right. by apply IH.
Qed.

Lemma elem_of_rstrip (c : ascii) (s : pystr) : c ∈ rstrip s -> c ∈ s.
Proof.
  induction s as [|a t IH]; simpl; [done |].
  destruct (rstrip t) as [|b r].
  - destruct (isspace a); [by intros H%elem_of_nil |].
    intros H%list_elem_of_singleton. subst. left.
  - intros H. apply elem_of_cons in H as [->|H]; [left | right; by apply IH].
Qed.

Lemma elem_of_strip (c : ascii) (s : pystr) : c ∈ strip s -> c ∈ s.
Proof. intros H. by apply elem_of_rstrip, elem_of_lstrip. Qed.

Lemma elem_of_clean_base (c : ascii) (name : pystr) :
  c ∈ clean_base name ->
  invalid_char c = false /\ (c ∈ name \/ c = " "%char).
Proof.
  unfold clean_base. intros H.
  assert (c ∈ strip (collapse_ws (filter (fun c => invalid_char c = false) name)))
    as H'.
  { destruct (_ <? _)%nat; [| done].
    by apply (subseteq_take 50). }
  apply elem_of_strip, elem_of_collapse_ws in H'. destruct H' as [H'| ->].
  - apply list_elem_of_filter in H' as [? ?]. split; [done | by left].
  - split; [reflexivity | by right].
Qed.

(** *** Whitespace normalization *)

Lemma rstrip_cons_nonspace (c : ascii) (u : pystr) :
  isspace c = false -> rstrip (c :: u) = c :: rstrip u.
Proof. intros Hc. simpl. rewrite Hc. by destruct (rstrip u). Qed.

Lemma words_head (s : pystr) (w : pystr) (ws : list pystr) :
  Spec.words s = w :: ws ->
  exists c w', w = c :: w' /\ isspace c = false.
Proof.
  revert w ws. induction s as [|c t IH]; intros w ws; simpl; [done |].
  destruct (isspace c) eqn:Hc; [apply IH |].
  destruct t as [|c' t']; [intros [= <- <-]; eauto |].
  destruct (isspace c'); [intros [= <- <-]; eauto |].
  destruct (Spec.words (c' :: t')) as [|w0 ws0]; intros [= <- <-]; eauto.
Qed.

Lemma words_nonspace_head (c : ascii) (t : pystr) :
  isspace c = false -> Spec.words (c :: t) <> [].
Proof.
  intros Hc. simpl. rewrite Hc. destruct t as [|c' t']; [done |].
  destruct (isspace c'); [done |]. by destruct (Spec.words (c' :: t')).
Qed.

Lemma join_space_cons_char (c : ascii) (w : pystr) (ws : list pystr) :
  Spec.join_space ((c :: w) :: ws) = c :: Spec.join_space (w :: ws).
Proof. by destruct ws. Qed.

Lemma lstrip_join_words (s : pystr) :
  lstrip (Spec.join_space (Spec.words s)) = Spec.join_space (Spec.words s).
Proof.
  destruct (Spec.words s) as [|w ws] eqn:Hw; [done |].
  destruct (words_head _ _ _ Hw) as (c & w' & -> & Hc).
  rewrite join_space_cons_char. simpl. by rewrite Hc.
Qed.

(** Trailing whitespace of the collapsed string: what is left is the words
    joined by single spaces, after one space if the string began with
    whitespace. *)
Lemma rstrip_collapse_ws (s : pystr) :
  rstrip (collapse_ws s)
  = match Spec.words s with
    | [] => []
    | ws => if starts_with_space s then " "%char :: Spec.join_space ws
            else Spec.join_space ws
    end.
Proof.
  induction s as [|c t IH]; [done |].
  destruct (isspace c) eqn:Hc.
  - (* a whitespace character *)
    cbn [collapse_ws starts_with_space Spec.words]. rewrite Hc.
    destruct t as [|c' t']; [done |].
    destruct (isspace c') eqn:Hc'.
    + rewrite IH. cbn [starts_with_space]. by rewrite Hc'.
    + cbn [rstrip]. rewrite IH. cbn [starts_with_space]. rewrite Hc'.
      pose proof (words_nonspace_head c' t' Hc') as Hne.
      destruct (Spec.words (c' :: t')) as [|w ws] eqn:Hw; [done |].
      destruct (words_head _ _ _ Hw) as (d & w' & -> & Hd).
      by rewrite join_space_cons_char.
  - (* the first character of a word *)
    cbn [collapse_ws starts_with_space]. rewrite Hc.
    rewrite rstrip_cons_nonspace by done. rewrite IH.
    cbn [Spec.words]. rewrite Hc.
    destruct t as [|c' t']; [done |].
    cbn [starts_with_space].
    destruct (isspace c') eqn:Hc'.
    + destruct (Spec.words (c' :: t')) as [|w ws]; [done |]. done.
    + pose proof (words_nonspace_head c' t' Hc') as Hne.
      destruct (Spec.words (c' :: t')) as [|w ws]; [done |].
      by rewrite join_space_cons_char.
Qed.

Lemma strip_collapse_ws (s : pystr) :
  strip (collapse_ws s) = Spec.normalize_space s.
Proof.
  unfold strip, Spec.normalize_space. rewrite rstrip_collapse_ws.
  pose proof (lstrip_join_words s) as Hl.
  destruct (Spec.words s) as [|w ws] eqn:Hw; [done |].
  destruct (starts_with_space s); [| done].
  change (lstrip (" "%char :: ?x)) with (lstrip x). exact Hl.
Qed.

(** The words hold the characters that are not whitespace, in order, and
    no word is empty. *)
Lemma words_content (s : pystr) :
  concat (Spec.words s) = filter (fun c => isspace c = false) s
  /\ Forall (fun w => w <> [] /\ Forall (fun c => isspace c = false) w)
       (Spec.words s).
Proof.
  induction s as [|c t [IHc IHf]]; [split; [done | constructor] |].
  cbn [Spec.words]. rewrite filter_cons.
  destruct (isspace c) eqn:Hc.
  - rewrite decide_False by done. done.
  - rewrite decide_True by done.
    destruct t as [|c' t'].
    { split; [done |]. repeat constructor; done. }
    destruct (isspace c') eqn:Hc'.
    { split; [simpl; by rewrite <- IHc |].
      constructor; [| done]. split; [done |]. by repeat constructor. }
    pose proof (words_nonspace_head c' t' Hc') as Hne.
    destruct (Spec.words (c' :: t')) as [|w ws]; [done |].
    split; [simpl in *; by rewrite <- IHc |].
    apply Forall_cons in IHf as [[? ?] ?].
    constructor; [| done]. split; [done |]. by constructor.
Qed.

Lemma collapse_ws_word (w : pystr) (rest : pystr) :
  Forall (fun c => isspace c = false) w ->
  collapse_ws (w ++ rest) = w ++ collapse_ws rest.
Proof.
  intros H. induction H as [|c w Hc _ IH]; [done |].
  simpl. by rewrite Hc, IH.
Qed.

Lemma collapse_ws_join_space (ws : list pystr) :
  Forall (fun w => w <> [] /\ Forall (fun c => isspace c = false) w) ws ->
  collapse_ws (Spec.join_space ws) = Spec.join_space ws.
Proof.
  intros H. induction H as [|w ws [Hne Hw] Hws IH]; [done |].
  destruct ws as [|w2 ws'].
  - simpl. rewrite <- (app_nil_r w) at 1.
    rewrite collapse_ws_word by done. by rewrite app_nil_r.
  - change (Spec.join_space (w :: w2 :: ws'))
      with (w ++ " "%char :: Spec.join_space (w2 :: ws')).
    rewrite collapse_ws_word by done. f_equal.
    apply Forall_cons in Hws as [[Hne2 Hw2] _].
    destruct w2 as [|c2 w2']; [done |].
    apply Forall_cons in Hw2 as [Hc2 _].
    rewrite join_space_cons_char in *.
    change (collapse_ws (" "%char :: c2 :: ?x))
      with (if isspace c2 then collapse_ws (c2 :: x)
            else " "%char :: collapse_ws (c2 :: x)).
    rewrite Hc2. by rewrite IH.
Qed.

Lemma collapse_ws_normalize_space (s : pystr) :
  collapse_ws (Spec.normalize_space s) = Spec.normalize_space s.
Proof. apply collapse_ws_join_space, words_content. Qed.

Lemma rstrip_app_word (a : pystr) (c : ascii) :
  isspace c = false -> rstrip (a ++ [c]) = a ++ [c].
Proof.
  intros Hc. induction a as [|x a IH]; simpl; [by rewrite Hc |].
  rewrite IH. by destruct a.
Qed.

Lemma rstrip_join_space (ws : list pystr) :
  Forall (fun w => w <> [] /\ Forall (fun c => isspace c = false) w) ws ->
  rstrip (Spec.join_space ws) = Spec.join_space ws.
Proof.
  intros H.
  assert (Spec.join_space ws = []
          \/ exists a c, Spec.join_space ws = a ++ [c] /\ isspace c = false)
    as [-> | (a & c & -> & Hc)]; [| done | by apply rstrip_app_word].
  induction H as [|w ws [Hne Hw] Hws IH]; [by left |]. right.
  destruct ws as [|w2 ws'].
  - simpl. destruct (exists_last Hne) as (a & c & ->).
    exists a, c. split; [done |].
    apply Forall_app in Hw as [_ Hc]. by apply Forall_cons in Hc as [Hc _].
  - change (Spec.join_space (w :: w2 :: ws'))
      with (w ++ " "%char :: Spec.join_space (w2 :: ws')).
    destruct IH as [IH | (a & c & IH & Hc)].
    + apply Forall_cons in Hws as [[Hne2 _] _].
      destruct w2; [done |]. by destruct ws'.
    + exists (w ++ " "%char :: a), c. split; [| done].
      rewrite IH. by rewrite <- app_assoc.
Qed.

Lemma strip_normalize_space (s : pystr) :
  strip (Spec.normalize_space s) = Spec.normalize_space s.
Proof.
  unfold strip, Spec.normalize_space.
  rewrite rstrip_join_space by apply words_content.
  apply lstrip_join_words.
Qed.

Lemma invalid_char_spec (c : ascii) :
  invalid_char c = false <-> c ∉ Spec.invalid_chars.
Proof.
  assert (invalid_char c = bool_decide (c ∈ Spec.invalid_chars)) as ->.
  { destruct c as [[] [] [] [] [] [] [] []]; vm_compute; reflexivity. }
  rewrite bool_decide_eq_false. done.
Qed.

Lemma clean_base_sanitize (name : pystr) :
  clean_base name = Spec.sanitize name.
Proof.
  unfold clean_base, Spec.sanitize, Spec.remove_invalid.
  rewrite strip_collapse_ws.
  rewrite (list_filter_iff _ (fun c => c ∉ Spec.invalid_chars))
    by apply invalid_char_spec.
  destruct (_ <? _)%nat eqn:Hlen; [done |].
  apply Nat.ltb_ge in Hlen. by rewrite take_ge.
Qed.

(** ** The file name generator *)

Lemma clean_filename_split (f : pystr) :
  clean_filename f
  = clean_base (split_ext f).1 ++ ext_suffix (split_ext f).2.
Proof.
  unfold clean_filename. destruct (split_ext f) as [name ext]. simpl.
  destruct ext; [by rewrite app_nil_r | done].
Qed.

(** C7: the worked example of the specification.  With prefix [Rel_],
    destination [archive] and the sequence number shown, the original name
    [My:Report*.npvt] at sequence number 7 has the sanitized base name
    [MyReport] and the new name [Rel_0007_archive_MyReport.npvt]. *)
Theorem generate_new_filename_example :
  let namer := {| prefix := str "Rel_"; show_sequence := true;
                  destination_id := str "archive" |} in
  FileNamer.init
    {| Config.env_TARGET_EXTENSION := None;
       Config.env_DESTINATION_CHANNEL := Some (str "@archive");
       Config.env_FILE_PREFIX := None;
       Config.env_SHOW_SEQUENCE_NUMBER := None |}
    (Some (str "Rel_")) (Some true) = namer
  /\ clean_base (split_ext (str "My:Report*.npvt")).1 = str "MyReport"
  /\ clean_filename (str "My:Report*.npvt") = str "MyReport.npvt"
  /\ generate_new_filename namer (str "My:Report*.npvt") 7
     = str "Rel_0007_archive_MyReport.npvt".
Proof. vm_compute. done. Qed.

(** C8: sanitization of a base name.  For every base name, what
    [clean_filename] computes is the name without the nine invalid
    characters, with every run of whitespace collapsed to one space and the
    ends trimmed, cut to its first 50 characters when it is longer; the
    result holds none of the nine characters and has exactly 50 characters
    when the trimmed name was longer.  The extension is appended after
    that.  Collapsing and trimming keep the words of the name: the
    characters that are not whitespace, in order, each word whole. *)
Theorem clean_base_sanitizes (name : pystr) :
  let kept := Spec.remove_invalid name in
  clean_base name = take 50 (Spec.normalize_space kept)
  /\ Forall (fun c => c ∉ Spec.invalid_chars) (clean_base name)
  /\ length (clean_base name)
     = Nat.min 50 (length (Spec.normalize_space kept))
  /\ strip (Spec.normalize_space kept) = Spec.normalize_space kept
  /\ collapse_ws (Spec.normalize_space kept) = Spec.normalize_space kept
  /\ concat (Spec.words kept) = filter (fun c => isspace c = false) kept
  /\ clean_filename name
     = clean_base (split_ext name).1 ++ ext_suffix (split_ext name).2.
Proof.
  intros kept.
  split; [apply clean_base_sanitize |].
  split.
  { apply Forall_forall. intros c Hc.
    apply elem_of_clean_base in Hc as [Hc _]. by apply invalid_char_spec. }
  split.
  { rewrite clean_base_sanitize. unfold Spec.sanitize. apply length_take. }
  split; [apply strip_normalize_space |].
  split; [apply collapse_ws_normalize_space |].
  split; [apply words_content | apply clean_filename_split].
Qed.

(** *** The extension filter *)

Lemma code_inj (a b : ascii) : code a = code b -> a = b.
Proof.
  unfold code. intros H. apply N2Z.inj in H.
  rewrite <- (ascii_N_embedding a), <- (ascii_N_embedding b). by rewrite H.
Qed.

Lemma lower_char_code (a : ascii) :
  code (lower_char a)
  = if Spec.capital_code (code a) then code a + 32 else code a.
Proof. destruct a as [[] [] [] [] [] [] [] []]; reflexivity. Qed.

Lemma capital_code_small (n : Z) :
  Spec.capital_code n = true -> Spec.capital_code (n + 32) = false.
Proof.
  unfold Spec.capital_code. intros H.
  apply orb_true_iff in H as [H | H];
    [apply orb_true_iff in H as [H | H] |];
    apply andb_true_iff in H as [H1 H2];
    apply Z.leb_le in H1; apply Z.leb_le in H2;
    repeat (apply orb_false_iff; split); apply andb_false_iff;
    rewrite !Z.leb_gt; lia.
Qed.

(** Apart from the capital sigma, two characters are the same letter
    exactly when [str.lower] makes them equal. *)
Lemma same_letter_lower (c c' : Unicode.uchar) :
  c <> Unicode.CapitalSigma -> c' <> Unicode.CapitalSigma ->
  Spec.same_letter c c'
  <-> Unicode.lower_char [] [] c = Unicode.lower_char [] [] c'.
Proof.
  intros Hc Hc'. split.
  - intros [-> | [H | H]]; [done | |];
      inversion H as [a b Ha Hb| |]; subst; try done;
      simpl; f_equal; apply code_inj; rewrite !lower_char_code, Ha, Hb;
      by rewrite (capital_code_small _ Ha).
  - destruct c as [a| | |], c' as [b| | |]; try done; simpl; intros H;
      try discriminate; try (by left).
    injection H as H. apply (f_equal code) in H.
    rewrite !lower_char_code in H.
    destruct (Spec.capital_code (code a)) eqn:Ha,
             (Spec.capital_code (code b)) eqn:Hb.
    + left. f_equal. apply code_inj. lia.
    + right. left. constructor; [done | lia].
    + right. right. constructor; [done | lia].
    + left. f_equal. by apply code_inj.
Qed.

Lemma lower_from_no_sigma (before s : Unicode.ustr) :
  Unicode.CapitalSigma ∉ s ->
  Unicode.lower_from before s = map (Unicode.lower_char [] []) s.
Proof.
  revert before. induction s as [|c t IH]; intros before Hs; [done |].
  apply not_elem_of_cons in Hs as [Hc Ht]. simpl.
  rewrite IH by done. f_equal. by destruct c.
Qed.

Lemma no_sigma_of_pystr (s : pystr) :
  Unicode.CapitalSigma ∉ Unicode.of_pystr s.
Proof.
  intros H. apply list_elem_of_fmap in H as (a & Ha & _). discriminate.
Qed.

(** On code points below 256 [str.lower] is [PyStr.lower]. *)
Lemma lower_of_pystr (s : pystr) :
  Unicode.lower (Unicode.of_pystr s) = Unicode.of_pystr (lower s).
Proof.
  unfold Unicode.lower.
  rewrite lower_from_no_sigma by apply no_sigma_of_pystr.
  unfold Unicode.of_pystr, lower. by rewrite !map_map.
Qed.

Lemma of_pystr_inj (a b : pystr) :
  Unicode.of_pystr a = Unicode.of_pystr b -> a = b.
Proof.
  revert b. induction a as [|x a IH]; intros [|y b]; try done.
  simpl. intros [= -> H]. by rewrite (IH _ H).
Qed.

Lemma unicode_endswith_spec (s suf : Unicode.ustr) :
  Unicode.endswith s suf = true <-> exists q, s = q ++ suf.
Proof. unfold Unicode.endswith. by rewrite bool_decide_eq_true. Qed.

(** On code points below 256 the filter is the one of the pipelines. *)
Lemma has_target_extension_latin (e : Config.Environ) (f : pystr) :
  Unicode.has_target_extension
    (option_map Unicode.of_pystr (Config.env_TARGET_EXTENSION e))
    (Unicode.of_pystr f)
  = Config.has_target_extension e f.
Proof.
  apply eq_true_iff_eq.
  unfold Unicode.has_target_extension, Unicode.TARGET_EXTENSION,
    Config.has_target_extension, Config.TARGET_EXTENSION.
  assert (Unicode.configured_extension
            (option_map Unicode.of_pystr (Config.env_TARGET_EXTENSION e))
          = Unicode.of_pystr
              (Config.getenv (Config.env_TARGET_EXTENSION e) (str ".npvt")))
    as -> by (by destruct (Config.env_TARGET_EXTENSION e)).
  rewrite !lower_of_pystr, unicode_endswith_spec, endswith_spec.
  set (t := lower (Config.getenv _ _)). split.
  - intros [q Hq]. exists (take (length q) (lower f)).
    rewrite <- (take_drop (length q) (lower f)) at 1. f_equal.
    apply of_pystr_inj. unfold Unicode.of_pystr in *.
    by rewrite <- skipn_map, Hq, drop_app_length.
  - intros [q Hq]. exists (Unicode.of_pystr q).
    unfold Unicode.of_pystr. by rewrite Hq, map_app.
Qed.

Lemma differ_in_case_only_lower (a b : Unicode.ustr) :
  Unicode.CapitalSigma ∉ a -> Unicode.CapitalSigma ∉ b ->
  Spec.differ_in_case_only a b
  <-> map (Unicode.lower_char [] []) a = map (Unicode.lower_char [] []) b.
Proof.
  unfold Spec.differ_in_case_only. revert b.
  induction a as [|x a IH]; intros [|y b] Ha Hb; simpl.
  - split; [done | constructor].
  - split; [by inversion 1 | done].
  - split; [by inversion 1 | done].
  - apply not_elem_of_cons in Ha as [Hx Ha].
    apply not_elem_of_cons in Hb as [Hy Hb]. split.
    + inversion 1 as [|? ? ? ? Hxy Hab]; subst. f_equal.
      * by apply same_letter_lower.
      * by apply IH.
    + intros [= Hxy Hab]. constructor.
      * by apply same_letter_lower.
      * by apply IH.
Qed.

(** C9, as the code has it, over the code points below 256 and the Greek
    sigmas.  For a file name and a configured extension without the
    capital sigma, the filter [filename.lower().endswith(target)] is a
    case-insensitive suffix comparison: the name is accepted exactly when it
    ends with a suffix that differs from the configured extension in letter
    case only, and two names that differ in letter case only are accepted
    alike.  On the code points below 256 this filter is the one of the
    pipelines. *)
Theorem has_target_extension_spec (env : option Unicode.ustr)
    (filename : Unicode.ustr) :
  Unicode.CapitalSigma ∉ filename ->
  Unicode.CapitalSigma ∉ Unicode.configured_extension env ->
  (Unicode.has_target_extension env filename = true <->
     exists p s, filename = p ++ s
       /\ Spec.differ_in_case_only s (Unicode.configured_extension env))
  /\ (forall other,
        Unicode.CapitalSigma ∉ other ->
        Spec.differ_in_case_only filename other ->
        Unicode.has_target_extension env other
        = Unicode.has_target_extension env filename)
  /\ (forall (e : Config.Environ) (f : pystr),
        Unicode.has_target_extension
          (option_map Unicode.of_pystr (Config.env_TARGET_EXTENSION e))
          (Unicode.of_pystr f)
        = Config.has_target_extension e f).
Proof.
  intros Hf Ht. split; [| split].
  - unfold Unicode.has_target_extension, Unicode.TARGET_EXTENSION,
      Unicode.lower.
    rewrite unicode_endswith_spec, !lower_from_no_sigma by done. split.
    + intros [q Hq].
      exists (take (length q) filename), (drop (length q) filename).
      split; [by rewrite take_drop |].
      apply differ_in_case_only_lower; [| done |].
      * intros H. apply Hf. by apply (subseteq_drop (length q)).
      * by rewrite <- skipn_map, Hq, drop_app_length.
    + intros (p & s & -> & Hs).
      apply not_elem_of_app in Hf as [Hp Hs'].
      apply differ_in_case_only_lower in Hs; [| done | done].
      exists (map (Unicode.lower_char [] []) p). by rewrite map_app, Hs.
  - intros other Ho Hd.
    apply differ_in_case_only_lower in Hd; [| done | done].
    unfold Unicode.has_target_extension, Unicode.lower.
    by rewrite !lower_from_no_sigma, Hd by done.
  - apply has_target_extension_latin.
Qed.

Lemma has_target_extension_witness :
  Unicode.has_target_extension (Some (Unicode.of_pystr (str ".NPVT")))
    (Unicode.of_pystr (str "Server.Npvt")) = true.
Proof.
  apply (proj2 (proj1 (has_target_extension_spec
                         (Some (Unicode.of_pystr (str ".NPVT")))
                         (Unicode.of_pystr (str "Server.Npvt"))
                         (no_sigma_of_pystr (str "Server.Npvt"))
                         (no_sigma_of_pystr (str ".NPVT"))))).
  exists (Unicode.of_pystr (str "Server")), (Unicode.of_pystr (str ".Npvt")).
  split; [reflexivity |].
  unfold Spec.differ_in_case_only. simpl.
  constructor; [by left |].
  constructor; [by left |].
  constructor; [right; right; constructor; reflexivity |].
  constructor; [right; right; constructor; reflexivity |].
  constructor; [right; right; constructor; reflexivity |].
  constructor.
Defined.

(** C9 as the claim states it fails where [str.lower] looks at the
    context.  With the extension [.Σ] configured, which [config.py] lowers
    to [.σ], the name [AB.Σ] is lowered to [ab.ς], with a final sigma, and
    is refused, although it ends with the configured extension itself and
    differs in letter case only from [ab.σ], which is accepted. *)
Lemma capital_sigma_is_lowered_by_context :
  let env := Some [Unicode.Latin "."%char; Unicode.CapitalSigma] in
  let capitals := Unicode.of_pystr (str "AB.") ++ [Unicode.CapitalSigma] in
  let smalls := Unicode.of_pystr (str "ab.") ++ [Unicode.SmallSigma] in
  capitals
  = Unicode.of_pystr (str "AB") ++ Unicode.configured_extension env
  /\ Spec.differ_in_case_only capitals smalls
  /\ Unicode.TARGET_EXTENSION env
     = [Unicode.Latin "."%char; Unicode.SmallSigma]
  /\ Unicode.lower capitals
     = Unicode.of_pystr (str "ab.") ++ [Unicode.FinalSigma]
  /\ Unicode.has_target_extension env smalls = true
  /\ Unicode.has_target_extension env capitals = false.
Proof.
  split; [reflexivity |]. split.
  { unfold Spec.differ_in_case_only. simpl.
    constructor; [right; left; constructor; reflexivity |].
    constructor; [right; left; constructor; reflexivity |].
    constructor; [by left |].
    constructor; [right; left; constructor | constructor]. }
  repeat split; vm_compute; reflexivity.
Qed.

(** *** Reading a generated name back *)

Lemma strip_literal_app (p r : pystr) : strip_literal p (p ++ r) = Some r.
Proof.
  induction p as [|a p IH]; simpl; [done |].
  by rewrite (proj2 (ascii_eqb_eq a a) eq_refl).
Qed.

Lemma span_digits_app (ds : pystr) (c : ascii) (r : pystr) :
  Forall (fun d => isdigit d = true) ds -> isdigit c = false ->
  span_digits (ds ++ c :: r) = (ds, c :: r).
Proof.
  intros Hds Hc. induction Hds as [|d ds Hd _ IH]; simpl.
  - by rewrite Hc.
  - by rewrite Hd, IH.
Qed.

Lemma uint_chars_digits (d : Decimal.uint) :
  Forall (fun c => isdigit c = true) (uint_chars d).
Proof. induction d; simpl; constructor; done. Qed.

Lemma zfill_digits (width : nat) (ds : pystr) :
  Forall (fun c => isdigit c = true) ds ->
  Forall (fun c => isdigit c = true) (zfill width ds).
Proof.
  intros H. unfold zfill. apply Forall_app. split; [| done].
  apply Forall_replicate. reflexivity.
Qed.

Lemma zfill_length (width : nat) (ds : pystr) :
  (width <= length (zfill width ds))%nat.
Proof. unfold zfill. rewrite length_app, length_replicate. lia. Qed.

Lemma fmt_04d_digits (n : Z) :
  0 <= n ->
  Forall (fun c => isdigit c = true) (fmt_04d n) /\ fmt_04d n <> [].
Proof.
  intros Hn. unfold fmt_04d.
  assert (exists d, Z.to_int n = Pos d) as [d ->].
  { destruct n as [|p|p]; [by eexists | by eexists | lia]. }
  split; [apply zfill_digits, uint_chars_digits |].
  intros H. pose proof (zfill_length 4 (uint_chars d)) as Hl.
  rewrite H in Hl. simpl in Hl. lia.
Qed.

Lemma extract_original_name_shape (self : FileNamingSystem)
    (ds rest : pystr) :
  Forall (fun c => isdigit c = true) ds -> ds <> [] ->
  extract_original_name self
    (prefix self ++ ds ++ "_"%char :: destination_id self
       ++ "_"%char :: rest)
  = Some rest.
Proof.
  intros Hds Hne. unfold extract_original_name.
  rewrite strip_literal_app, span_digits_app by done.
  destruct ds as [|d ds']; [done |].
  change ("_"%char :: destination_id self ++ "_"%char :: rest)
    with (("_"%char :: destination_id self) ++ "_"%char :: rest).
  rewrite (app_assoc _ ["_"%char] rest : _ ++ "_"%char :: rest = _).
  apply strip_literal_app.
Qed.

Lemma generate_new_filename_shape (self : FileNamingSystem)
    (f name_part ext : pystr) (seq : Z) :
  show_sequence self = true ->
  split_ext (clean_filename f) = (name_part, ext) ->
  name_part <> [] ->
  generate_new_filename self f seq
  = prefix self ++ fmt_04d seq ++ "_"%char :: destination_id self
      ++ "_"%char :: take 20 name_part ++ ext_suffix ext.
Proof.
  intros Hshow Hsplit Hne. unfold generate_new_filename.
  rewrite Hsplit, Hshow.
  destruct name_part as [|c np]; [done |].
  change (0 <? length (c :: np))%nat with true. cbv iota.
  destruct ext as [|x ext']; simpl ext_suffix.
  - rewrite app_nil_r. by rewrite <- !app_assoc.
  - by rewrite <- !app_assoc.
Qed.

Lemma split_ext_clean_filename (f : pystr) :
  (split_ext f).2 <> [] \/ "."%char ∉ clean_base (split_ext f).1 ->
  split_ext (clean_filename f) = (clean_base (split_ext f).1, (split_ext f).2).
Proof.
  intros Hf. rewrite clean_filename_split.
  pose proof (split_ext_spec f) as Hs.
  assert ("."%char ∉ (split_ext f).2) as Hno.
  { destruct (rsplit_dot f) as [[n e]|].
    - by destruct Hs as (-> & _ & Hno).
    - destruct Hs as (-> & _). apply not_elem_of_nil. }
  destruct (split_ext f) as [n e]. simpl in *.
  destruct e as [|x e'].
  - destruct Hf as [Hf | Hf]; [done |]. simpl. rewrite app_nil_r.
    unfold split_ext. by apply rsplit_dot_None in Hf as ->.
  - simpl ext_suffix. unfold split_ext. by rewrite rsplit_dot_app.
Qed.

(** X20 (file_namer.py, [generate_new_filename] and
    [extract_original_name]): reading back a generated name.  For an
    original name that has an extension, or whose sanitized base name has
    no dot, and whose sanitized base name is not empty, for every sequence
    number from 0 on and a namer that shows the sequence number,
    [extract_original_name] applied to the generated name returns the first
    20 characters of the sanitized base name followed by the original
    extension when there is one. *)
Theorem extract_original_name_of_generated (self : FileNamingSystem)
    (f : pystr) (seq : Z) :
  show_sequence self = true ->
  0 <= seq ->
  (split_ext f).2 <> [] \/ "."%char ∉ clean_base (split_ext f).1 ->
  clean_base (split_ext f).1 <> [] ->
  extract_original_name self (generate_new_filename self f seq)
  = Some (take 20 (clean_base (split_ext f).1) ++ ext_suffix (split_ext f).2).
Proof.
  intros Hshow Hseq Hf Hne.
  rewrite (generate_new_filename_shape self f _ _ seq Hshow
             (split_ext_clean_filename f Hf) Hne).
  destruct (fmt_04d_digits seq Hseq) as [Hd Hn].
  by apply extract_original_name_shape.
Qed.

Lemma extract_original_name_of_generated_witness :
  let namer := {| prefix := str "Rel_"; show_sequence := true;
                  destination_id := str "archive" |} in
  extract_original_name namer
    (generate_new_filename namer (str "My:Report*.npvt") 7)
  = Some (str "MyReport.npvt").
Proof.
  exact (extract_original_name_of_generated
           {| prefix := str "Rel_"; show_sequence := true;
              destination_id := str "archive" |}
           (str "My:Report*.npvt") 7 eq_refl
           ltac:(lia) ltac:(left; vm_compute; discriminate)
           ltac:(vm_compute; discriminate)).
Defined.

(** C10 fails on the original name [.b.] at sequence number 7.  The name
    has no extension and the sanitized base name [.b], which is not empty,
    so that [.b] should be read back.  [clean_filename] returns [.b], which
    [generate_new_filename] splits once more, now into an empty name and
    the extension [b]: the generated name is [Rel_0007_archive.b], without
    the underscore that [extract_original_name] looks for, and [None] is
    returned. *)
Lemma extract_original_name_trailing_dot :
  let namer := {| prefix := str "Rel_"; show_sequence := true;
                  destination_id := str "archive" |} in
  split_ext (str ".b.") = (str ".b", [])
  /\ clean_base (split_ext (str ".b.")).1 = str ".b"
  /\ clean_filename (str ".b.") = str ".b"
  /\ split_ext (clean_filename (str ".b.")) = ([], str "b")
  /\ generate_new_filename namer (str ".b.") 7 = str "Rel_0007_archive.b"
  /\ extract_original_name namer (generate_new_filename namer (str ".b.") 7)
     = None.
Proof. vm_compute. done. Qed.

(** ** Running the effect monad *)

Lemma bind_return {A B} (m : M A) (k : A -> M B) (w w' : World) (a : A) :
  m w = (Return a, w') -> (m ≫= k) w = k a w'.
Proof. intros H. unfold mbind, M_bind, bind. by rewrite H. Qed.

Lemma bind_raise {A B} (m : M A) (k : A -> M B) (w w' : World) (e : exn) :
  m w = (Raise e, w') -> (m ≫= k) w = (Raise e, w').
Proof. intros H. unfold mbind, M_bind, bind. by rewrite H. Qed.

Lemma bind_out_of_fuel {A B} (m : M A) (k : A -> M B) (w w' : World) :
  m w = (OutOfFuel, w') -> (m ≫= k) w = (OutOfFuel, w').
Proof. intros H. unfold mbind, M_bind, bind. by rewrite H. Qed.

Lemma try_return {A} (m : M A) (h : exn -> M A) (w w' : World) (a : A) :
  m w = (Return a, w') -> try_except m h w = (Return a, w').
Proof. intros H. unfold try_except. by rewrite H. Qed.

Lemma try_raise {A} (m : M A) (h : exn -> M A) (w w' : World) (e : exn) :
  m w = (Raise e, w') -> try_except m h w = h e w'.
Proof. intros H. unfold try_except. by rewrite H. Qed.

Lemma try_out_of_fuel {A} (m : M A) (h : exn -> M A) (w w' : World) :
  m w = (OutOfFuel, w') -> try_except m h w = (OutOfFuel, w').
Proof. intros H. unfold try_except. by rewrite H. Qed.

(** ** The sequence counter *)

Ltac run_m :=
  repeat progress
    (unfold mbind, M_bind, bind, mret, M_ret, ret, gets, emit, modify, raise,
       try_except, out_of_fuel, now; cbn beta iota).

Lemma get_next_sequence_number_run (name : pystr) (w : World) (c : Z) :
  counters w !! name = Some c ->
  DatabaseManager.get_next_sequence_number name w
  = (Return (c + 1),
     set_trace (trace w ++ [EvSeqAlloc (c + 1)])
       (set_counters (<[name := c + 1]> (counters w)) w)).
Proof.
  intros H. unfold DatabaseManager.get_next_sequence_number. run_m.
  by rewrite H.
Qed.

Lemma get_next_sequence_number_missing (name : pystr) (w : World) :
  counters w !! name = None ->
  DatabaseManager.get_next_sequence_number name w
  = (Return 1, set_trace (trace w ++ [EvSeqAlloc 1]) w).
Proof.
  intros H. unfold DatabaseManager.get_next_sequence_number. run_m.
  by rewrite H.
Qed.

Lemma next_calls_run (name : pystr) (k : nat) (w : World) (c : Z) :
  counters w !! name = Some c ->
  exists w',
    Scenario.next_calls name k w
    = (Return (map (fun i => c + Z.of_nat i) (seq 1 k)), w')
    /\ counters w' !! name = Some (c + Z.of_nat k)
    /\ DatabaseManager.get_current_sequence_number name w'
       = (Return (c + Z.of_nat k), w').
Proof.
  revert w c. induction k as [|k IH]; intros w c Hc.
  - exists w. split; [done |]. rewrite Z.add_0_r. split; [done |].
    unfold DatabaseManager.get_current_sequence_number. run_m. by rewrite Hc.
  - destruct (IH (set_trace (trace w ++ [EvSeqAlloc (c + 1)])
                   (set_counters (<[name := c + 1]> (counters w)) w))
                (c + 1)) as (w' & Hrun & Hctr & Hcur).
    { simpl. apply lookup_insert_eq. }
    exists w'. split; [| split].
    + cbn [Scenario.next_calls]. unfold mbind, M_bind, bind at 1.
      rewrite (get_next_sequence_number_run _ _ _ Hc).
      unfold bind at 1. rewrite Hrun. unfold mret, M_ret, ret.
      f_equal. f_equal. cbn [seq map]. f_equal.
      rewrite <- (seq_shift k 1), map_map. apply map_ext. intros i. lia.
    + rewrite Hctr. f_equal. lia.
    + rewrite Hcur. do 2 f_equal. lia.
Qed.

(** C5, as the code has it: for every counter name that [init_counter]
    created, the calls of [get_next_sequence_number] return 1, 2, 3, ... in
    this order, without gap or repetition, and each value is stored so that
    [get_current_sequence_number] reads it afterwards.  From a stored value
    [c] the calls go on with [c + 1], [c + 2], ... *)
Theorem sequence_numbers_of_initialized_counter
    (name : pystr) (k : nat) (w : World) :
  (counters w !! name = None ->
   exists w0 w',
     DatabaseManager.init_counter name w = (Return tt, w0)
     /\ DatabaseManager.get_current_sequence_number name w0 = (Return 0, w0)
     /\ Scenario.next_calls name k w0
        = (Return (map Z.of_nat (seq 1 k)), w')
     /\ DatabaseManager.get_current_sequence_number name w'
        = (Return (Z.of_nat k), w'))
  /\ (forall c, counters w !! name = Some c ->
      exists w0 w',
        DatabaseManager.init_counter name w = (Return tt, w0)
        /\ Scenario.next_calls name k w0
           = (Return (map (fun i => c + Z.of_nat i) (seq 1 k)), w')
        /\ DatabaseManager.get_current_sequence_number name w'
           = (Return (c + Z.of_nat k), w')).
Proof.
  split.
  - intros Hnone.
    set (w0 := set_counters (<[name := 0]> (counters w)) w).
    assert (counters w0 !! name = Some 0) as H0 by apply lookup_insert_eq.
    destruct (next_calls_run name k w0 0 H0) as (w' & Hrun & _ & Hcur).
    exists w0, w'. split; [| split; [| split]].
    + unfold DatabaseManager.init_counter. run_m. by rewrite Hnone.
    + unfold DatabaseManager.get_current_sequence_number. run_m.
      by rewrite H0.
    + rewrite Hrun. do 2 f_equal.
    + rewrite Hcur. do 2 f_equal.
  - intros c Hc.
    destruct (next_calls_run name k w c Hc) as (w' & Hrun & _ & Hcur).
    exists w, w'. split; [| done].
    unfold DatabaseManager.init_counter. run_m. by rewrite Hc.
Qed.

Lemma sequence_numbers_of_initialized_counter_witness :
  exists w0 w',
    DatabaseManager.init_counter DatabaseManager.file_counter
      Scenario.empty_world = (Return tt, w0)
    /\ DatabaseManager.get_current_sequence_number
         DatabaseManager.file_counter w0 = (Return 0, w0)
    /\ Scenario.next_calls DatabaseManager.file_counter 3 w0
       = (Return [1; 2; 3], w')
    /\ DatabaseManager.get_current_sequence_number
         DatabaseManager.file_counter w' = (Return 3, w').
Proof.
  exact (proj1 (sequence_numbers_of_initialized_counter
                  DatabaseManager.file_counter 3 Scenario.empty_world)
           eq_refl).
Defined.

(** C5 as the claim states it fails for a counter name that was never
    initialized: two calls both return 1, and the value read back is 0. *)
Lemma sequence_numbers_of_missing_counter :
  let other := str "other" in
  exists w',
    Scenario.next_calls other 2 Scenario.empty_world = (Return [1; 1], w')
    /\ DatabaseManager.get_current_sequence_number other w' = (Return 0, w').
Proof.
  eexists. split; reflexivity.
Qed.

(** ** The ledger *)

Lemma save_processed_file_fresh (F : pystr) (row : ProcessedFile) (w : World) :
  processed_files w !! F = None ->
  DatabaseManager.save_processed_file F row w
  = (Return tt,
     set_processed_files (<[F := row]> (processed_files w))
       (set_trace (trace w ++ [EvLedgerWrite F]) w)).
Proof.
  intros H. unfold DatabaseManager.save_processed_file. run_m. simpl.
  by rewrite H.
Qed.

Lemma save_processed_file_existing (F : pystr) (row r0 : ProcessedFile)
    (w : World) :
  processed_files w !! F = Some r0 ->
  DatabaseManager.save_processed_file F row w
  = (Raise IntegrityError, set_trace (trace w ++ [EvLedgerWrite F]) w).
Proof.
  intros H. unfold DatabaseManager.save_processed_file. run_m. simpl.
  by rewrite H.
Qed.

Lemma is_file_processed_run (F : pystr) (w : World) :
  DatabaseManager.is_file_processed F w
  = (Return (bool_decide (is_Some (processed_files w !! F))),
     set_trace (trace w ++ [EvLedgerLookup F]) w).
Proof.
  unfold DatabaseManager.is_file_processed. run_m. simpl.
  by destruct (processed_files w !! F).
Qed.

Lemma clean_is_file_processed_run (F : pystr) (w : World) :
  CleanFileMonitor.is_file_processed F w
  = (Return (bool_decide (is_Some (clean_processed_files w !! F))),
     set_trace (trace w ++ [EvLedgerLookup F]) w).
Proof.
  unfold CleanFileMonitor.is_file_processed. run_m. simpl.
  by destruct (clean_processed_files w !! F).
Qed.

Lemma save_each_keeps (F : pystr) (rows : list ProcessedFile) (w : World)
    (r0 : ProcessedFile) :
  processed_files w !! F = Some r0 ->
  exists oks w',
    Scenario.save_each F rows w = (Return oks, w')
    /\ processed_files w' !! F = Some r0.
Proof.
  revert w. induction rows as [|row rest IH]; intros w H.
  - by exists [], w.
  - destruct (IH (set_trace (trace w ++ [EvLedgerWrite F]) w) H)
      as (oks & w' & Hrun & Hkeep).
    exists (false :: oks), w'. split; [| done].
    cbn [Scenario.save_each].
    erewrite bind_return; cycle 1.
    { erewrite try_raise; [reflexivity |].
      erewrite bind_raise; [reflexivity |].
      by eapply save_processed_file_existing. }
    by erewrite bind_return.
Qed.

Lemma mark_file_as_processed_run (F : pystr) (row : CleanRow) (w : World) :
  CleanFileMonitor.mark_file_as_processed F (original_message_id row)
    (channel_id row) (file_name row) w
  = (Return tt,
     set_clean_processed_files (<[F := row]> (clean_processed_files w))
       (set_trace (trace w ++ [EvLedgerWrite F]) w)).
Proof.
  unfold CleanFileMonitor.mark_file_as_processed. run_m. by destruct row.
Qed.

Lemma mark_each_last (F : pystr) (rows : list CleanRow) (w : World) :
  exists w',
    Scenario.mark_each F rows w = (Return tt, w')
    /\ clean_processed_files w' !! F
       = match last rows with
         | Some r => Some r
         | None => clean_processed_files w !! F
         end.
Proof.
  revert w. induction rows as [|row rest IH]; intros w.
  - by exists w.
  - cbn [Scenario.mark_each].
    destruct (IH (set_clean_processed_files
                    (<[F := row]> (clean_processed_files w))
                    (set_trace (trace w ++ [EvLedgerWrite F]) w)))
      as (w' & Hrun & Hlast).
    exists w'. split.
    { erewrite bind_return; [exact Hrun | apply mark_file_as_processed_run]. }
    rewrite Hlast.
    destruct rest as [|r2 rest']; simpl.
    + by rewrite lookup_insert_eq.
    + destruct (last (r2 :: rest')) eqn:Hl; [done |].
      by apply last_None in Hl.
Qed.

(** C2, as the code has it: after one or many recordings under a
    fingerprint [F], the ledger has [F].  In [database.py] the first
    recording of a fingerprint that the ledger lacks returns without error
    and the stored entry stays the first recording; in [clean_monitor.py] no
    recording raises and the stored entry is the last recording. *)
Theorem recordings_under_one_fingerprint (F : pystr)
    (row : ProcessedFile) (rest : list ProcessedFile)
    (crow : CleanRow) (crest : list CleanRow) (w : World) :
  (processed_files w !! F = None ->
   exists oks w' w'',
     Scenario.save_each F (row :: rest) w = (Return (true :: oks), w')
     /\ processed_files w' !! F = Some row
     /\ DatabaseManager.is_file_processed F w' = (Return true, w''))
  /\ (exists w' w'',
        Scenario.mark_each F (crow :: crest) w = (Return tt, w')
        /\ clean_processed_files w' !! F = last (crow :: crest)
        /\ CleanFileMonitor.is_file_processed F w' = (Return true, w'')).
Proof.
  split.
  - intros Hnone.
    set (w1 := set_processed_files (<[F := row]> (processed_files w))
                 (set_trace (trace w ++ [EvLedgerWrite F]) w)).
    assert (processed_files w1 !! F = Some row) as H1
      by apply lookup_insert_eq.
    destruct (save_each_keeps F rest w1 row H1) as (oks & w' & Hrun & Hkeep).
    exists oks, w'. eexists. split; [| split; [done |]].
    + cbn [Scenario.save_each].
      erewrite bind_return; cycle 1.
      { erewrite try_return; [reflexivity |].
        erewrite bind_return; [reflexivity |].
        by apply save_processed_file_fresh. }
      by erewrite bind_return.
    + rewrite is_file_processed_run. f_equal. f_equal.
      apply bool_decide_eq_true. by rewrite Hkeep.
  - destruct (mark_each_last F (crow :: crest) w) as (w' & Hrun & Hlast).
    exists w'. eexists. split; [done |].
    destruct (last (crow :: crest)) as [r|] eqn:Hl.
    + split; [done |]. rewrite clean_is_file_processed_run. f_equal. f_equal.
      apply bool_decide_eq_true. by rewrite Hlast.
    + by apply last_None in Hl.
Qed.

Lemma recordings_under_one_fingerprint_witness :
  let F := str "7_100_1700000000.0" in
  let row := {| original_filename := str "a.npvt";
                new_filename := str "Hamipn_0001_dest_a.npvt";
                sequence_number := 1; channel_username := None;
                file_size := 100 |} in
  exists oks w' w'',
    Scenario.save_each F [row; row] Scenario.empty_world
    = (Return (true :: oks), w')
    /\ processed_files w' !! F = Some row
    /\ DatabaseManager.is_file_processed F w' = (Return true, w'').
Proof.
  exact (proj1 (recordings_under_one_fingerprint
                  (str "7_100_1700000000.0")
                  {| original_filename := str "a.npvt";
                     new_filename := str "Hamipn_0001_dest_a.npvt";
                     sequence_number := 1; channel_username := None;
                     file_size := 100 |}
                  [{| original_filename := str "a.npvt";
                      new_filename := str "Hamipn_0001_dest_a.npvt";
                      sequence_number := 1; channel_username := None;
                      file_size := 100 |}]
                  {| original_message_id := 0; channel_id := 0;
                     file_name := [] |} [] Scenario.empty_world)
           eq_refl).
Defined.

(** C2 as the claim states it fails twice.  In [database.py] a second
    recording under the same fingerprint raises [IntegrityError] to its
    caller.  In [clean_monitor.py] a second recording replaces the entry, so
    the stored entry is not the first recording. *)
Lemma second_recording_counterexample :
  let F := str "7_100" in
  let r1 := {| original_filename := str "a.npvt";
               new_filename := str "Hamipn_0001_dest_a.npvt";
               sequence_number := 1; channel_username := None;
               file_size := 100 |} in
  let r2 := {| original_filename := str "b.npvt";
               new_filename := str "Hamipn_0002_dest_b.npvt";
               sequence_number := 2; channel_username := None;
               file_size := 100 |} in
  let c1 := {| original_message_id := 11; channel_id := 5;
               file_name := str "a.npvt" |} in
  let c2 := {| original_message_id := 12; channel_id := 5;
               file_name := str "b.npvt" |} in
  (exists w1 w2,
     DatabaseManager.save_processed_file F r1 Scenario.empty_world
     = (Return tt, w1)
     /\ DatabaseManager.save_processed_file F r2 w1
        = (Raise IntegrityError, w2))
  /\ (exists w',
        Scenario.mark_each F [c1; c2] Scenario.empty_world = (Return tt, w')
        /\ clean_processed_files w' !! F = Some c2
        /\ c2 <> c1).
Proof.
  split.
  - eexists. eexists. split.
    + apply save_processed_file_fresh. reflexivity.
    + eapply save_processed_file_existing. apply lookup_insert_eq.
  - destruct (mark_each_last (str "7_100")
                [{| original_message_id := 11; channel_id := 5;
                    file_name := str "a.npvt" |};
                 {| original_message_id := 12; channel_id := 5;
                    file_name := str "b.npvt" |}] Scenario.empty_world)
      as (w' & Hrun & Hlast).
    exists w'. split; [done |]. split; [done | discriminate].
Qed.

(** ** Publishing *)

Lemma read_file_run (path : pystr) (data : list Byte.byte) (w : World) :
  files w !! path = Some data -> read_file path w = (Return data, w).
Proof. intros H. unfold read_file. by rewrite H. Qed.

Lemma read_file_missing (path : pystr) (w : World) :
  files w !! path = None -> read_file path w = (Raise FileNotFoundError, w).
Proof. intros H. unfold read_file. by rewrite H. Qed.

Lemma now_run (w : World) : now w = (Return (clock w), w).
Proof. reflexivity. Qed.

Lemma publish_run (T : Transport) (ev : Event) (w : World) :
  publish T ev w
  = (publish_result (publish_outcome T (publish_calls w)),
     set_publish_calls (S (publish_calls w)) (set_trace (trace w ++ [ev]) w)).
Proof.
  reflexivity.
Qed.

Lemma log_activity_run (action details : pystr) (w : World) :
  DatabaseManager.log_activity action details w
  = (Return tt,
     set_activity_log (activity_log w ++ [(action, details)])
       (set_trace (trace w ++ [EvAudit action details]) w)).
Proof. reflexivity. Qed.

Lemma sleep_run (s : Z) (w : World) :
  sleep s w
  = (Return tt,
     set_clock (clock w + Z.max 0 s) (set_trace (trace w ++ [EvSleep s]) w)).
Proof. reflexivity. Qed.


Lemma main_attempt_flood_wait (e : Config.Environ) (T : Transport)
    (fuel : nat) (path name : pystr) (size : Z) (chan : option pystr)
    (msg : Message) (w : World) (c : Z) (data : list Byte.byte) (s : Z) :
  counters w !! DatabaseManager.file_counter = Some c ->
  files w !! path = Some data ->
  publish_outcome T (publish_calls w) = SendFloodWait s ->
  AdvancedTelegramMonitor.send_file_with_new_name e T (S fuel) path name size
    chan msg w
  = AdvancedTelegramMonitor.send_file_with_new_name e T fuel path name size
      chan msg
      (Scenario.after_flood_wait w c
         (Scenario.main_publish e name size data (c + 1) (clock w)) s).
Proof.
  intros Hc Hf Hout.
  cbn [AdvancedTelegramMonitor.send_file_with_new_name].
  erewrite try_raise; cycle 1.
  { erewrite bind_return; [| by apply get_next_sequence_number_run].
    cbv zeta.
    erewrite bind_return; [| by apply read_file_run].
    erewrite bind_return; [| apply now_run].
    erewrite bind_raise; [reflexivity |].
    rewrite publish_run. simpl. rewrite Hout. reflexivity. }
  cbv beta iota.
  erewrite bind_return; [| apply sleep_run].
  f_equal. unfold Scenario.after_flood_wait, set_clock, set_trace,
    set_publish_calls, set_counters. simpl. f_equal.
  by rewrite <- !app_assoc.
Qed.

Lemma main_send_after_waits (e : Config.Environ) (T : Transport)
    (path name : pystr) (size : Z) (chan : option pystr) (msg : Message)
    (data : list Byte.byte) (waits : list Z) :
  forall (fuel : nat) (w : World) (c : Z),
  counters w !! DatabaseManager.file_counter = Some c ->
  files w !! path = Some data ->
  (forall i s, waits !! i = Some s ->
     publish_outcome T (publish_calls w + i)%nat = SendFloodWait s) ->
  AdvancedTelegramMonitor.send_file_with_new_name e T (length waits + fuel)
    path name size chan msg w
  = AdvancedTelegramMonitor.send_file_with_new_name e T fuel path name size
      chan msg (Scenario.after_waits e name size data w c waits).
Proof.
  induction waits as [|s rest IH]; intros fuel w c Hc Hf Hw; [done |].
  cbn [length Nat.add Scenario.after_waits].
  rewrite (main_attempt_flood_wait e T _ path name size chan msg w c data s)
    by (try done; rewrite <- (Hw 0%nat s eq_refl); f_equal; lia).
  apply IH.
  - simpl. apply lookup_insert_eq.
  - done.
  - intros i s' Hi. simpl. rewrite <- (Hw (S i) s' Hi). f_equal. lia.
Qed.

Lemma after_waits_spec (e : Config.Environ) (name : pystr) (size : Z)
    (data : list Byte.byte) (waits : list Z) :
  forall (w : World) (c : Z),
  counters w !! DatabaseManager.file_counter = Some c ->
  let wk := Scenario.after_waits e name size data w c waits in
  trace wk
  = trace w ++ Scenario.rate_limited_attempts e name size data c (clock w)
                 waits
  /\ counters wk !! DatabaseManager.file_counter
     = Some (c + Z.of_nat (length waits))
  /\ clock wk = clock w + Scenario.total_sleep waits
  /\ publish_calls wk = (publish_calls w + length waits)%nat
  /\ processed_files wk = processed_files w
  /\ activity_log wk = activity_log w
  /\ files wk = files w.
Proof.
  induction waits as [|s rest IH]; intros w c Hc.
  - simpl. rewrite app_nil_r, Hc, !Z.add_0_r, Nat.add_0_r. done.
  - cbn [Scenario.after_waits Scenario.rate_limited_attempts
         Scenario.total_sleep length].
    destruct (IH (Scenario.after_flood_wait w c
                    (Scenario.main_publish e name size data (c + 1) (clock w))
                    s) (c + 1)) as (Ht & Hctr & Hclk & Hpub & Hpf & Hal & Hfs).
    { simpl. apply lookup_insert_eq. }
    cbv zeta in *. rewrite Ht, Hctr, Hclk, Hpub, Hpf, Hal, Hfs. simpl.
    rewrite <- app_assoc. split; [done |].
    split; [f_equal; lia |]. split; [lia |]. split; [lia | done].
Qed.

Lemma main_attempt_ok (e : Config.Environ) (T : Transport)
    (fuel : nat) (path name : pystr) (size : Z) (chan : option pystr)
    (msg : Message) (d : Document) (w : World) (c : Z)
    (data : list Byte.byte) :
  counters w !! DatabaseManager.file_counter = Some c ->
  files w !! path = Some data ->
  publish_outcome T (publish_calls w) = SendOk ->
  msg_media msg = Some (MessageMediaDocument (Some d)) ->
  processed_files w !! AdvancedTelegramMonitor.document_hash d = None ->
  exists w',
    AdvancedTelegramMonitor.send_file_with_new_name e T (S fuel) path name
      size chan msg w = (Return true, w')
    /\ trace w'
       = trace w ++
         [EvSeqAlloc (c + 1);
          EvPublish (Scenario.main_publish e name size data (c + 1) (clock w));
          EvLedgerWrite (AdvancedTelegramMonitor.document_hash d);
          EvAudit (str "FILE_SENT") (file_sent_details e name (c + 1))]
    /\ counters w' = <[DatabaseManager.file_counter := c + 1]> (counters w)
    /\ processed_files w'
       = <[AdvancedTelegramMonitor.document_hash d :=
             main_row e name size chan (c + 1)]> (processed_files w)
    /\ activity_log w'
       = activity_log w
         ++ [(str "FILE_SENT", file_sent_details e name (c + 1))]
    /\ files w' = files w
    /\ clock w' = clock w
    /\ publish_calls w' = S (publish_calls w).
Proof.
  intros Hc Hf Hout Hm Hfresh. eexists. split.
  - cbn [AdvancedTelegramMonitor.send_file_with_new_name].
    erewrite try_return; [reflexivity |].
    erewrite bind_return; [| by apply get_next_sequence_number_run].
    cbv zeta.
    erewrite bind_return; [| by apply read_file_run].
    erewrite bind_return; [| apply now_run].
    erewrite bind_return; [| rewrite publish_run; simpl; by rewrite Hout].
    rewrite Hm.
    erewrite bind_return; [| reflexivity].
    erewrite bind_return; [| by apply save_processed_file_fresh].
    erewrite bind_return; [| apply log_activity_run].
    reflexivity.
  - simpl. rewrite <- !app_assoc. done.
Qed.

Lemma main_attempt_error (e : Config.Environ) (T : Transport)
    (fuel : nat) (path name : pystr) (size : Z) (chan : option pystr)
    (msg : Message) (w : World) (c : Z) (data : list Byte.byte)
    (err : exn) :
  counters w !! DatabaseManager.file_counter = Some c ->
  files w !! path = Some data ->
  publish_result (publish_outcome T (publish_calls w)) = Raise err ->
  (forall s, err <> FloodWaitError s) ->
  exists w',
    AdvancedTelegramMonitor.send_file_with_new_name e T (S fuel) path name
      size chan msg w = (Return false, w')
    /\ trace w'
       = trace w ++
         [EvSeqAlloc (c + 1);
          EvPublish (Scenario.main_publish e name size data (c + 1) (clock w));
          EvAudit (str "SEND_ERROR") (exn_str err)]
    /\ counters w' = <[DatabaseManager.file_counter := c + 1]> (counters w)
    /\ processed_files w' = processed_files w
    /\ files w' = files w
    /\ clock w' = clock w
    /\ publish_calls w' = S (publish_calls w).
Proof.
  intros Hc Hf Hout Herr. eexists. split.
  - cbn [AdvancedTelegramMonitor.send_file_with_new_name].
    erewrite try_raise; cycle 1.
    { erewrite bind_return; [| by apply get_next_sequence_number_run].
      cbv zeta.
      erewrite bind_return; [| by apply read_file_run].
      erewrite bind_return; [| apply now_run].
      erewrite bind_raise; [reflexivity |].
      rewrite publish_run. simpl. rewrite Hout. reflexivity. }
    destruct err; try (erewrite bind_return; [| apply log_activity_run];
                       reflexivity).
    by destruct (Herr seconds).
  - simpl. rewrite <- !app_assoc. done.
Qed.

Lemma main_attempt_final (e : Config.Environ) (T : Transport)
    (fuel : nat) (path name : pystr) (size : Z) (chan : option pystr)
    (msg : Message) (w : World) (c : Z) (data : list Byte.byte) :
  counters w !! DatabaseManager.file_counter = Some c ->
  files w !! path = Some data ->
  (forall s, publish_outcome T (publish_calls w) <> SendFloodWait s) ->
  exists r w' tail,
    AdvancedTelegramMonitor.send_file_with_new_name e T (S fuel) path name
      size chan msg w = (Return r, w')
    /\ trace w'
       = trace w ++
         [EvSeqAlloc (c + 1);
          EvPublish (Scenario.main_publish e name size data (c + 1) (clock w))]
         ++ tail
    /\ Forall quiet tail.
Proof.
  intros Hc Hf Hout.
  destruct (publish_outcome T (publish_calls w)) as [|s| |] eqn:Ho.
  - (* the publish call returns: the ledger write decides *)
    assert (exists h,
      forall w2 : World,
        (match msg_media msg with
         | Some (MessageMediaDocument document) =>
             AdvancedTelegramMonitor.get_file_hash document
         | _ => t ← now;
                mret (AdvancedTelegramMonitor.timestamp_str t
                        ++ "_"%char :: name)
         end) w2 = (Return (h w2), w2)) as [h Hh].
    { destruct (msg_media msg) as [[[d|]|]|]; eexists (fun w2 => _);
        intros w2; reflexivity. }
    set (w2 := set_publish_calls (S (publish_calls w))
                 (set_trace
                    (trace (set_trace (trace w ++ [EvSeqAlloc (c + 1)])
                              (set_counters
                                 (<[DatabaseManager.file_counter := c + 1]>
                                    (counters w)) w))
                     ++ [EvPublish (Scenario.main_publish e name size data
                                      (c + 1) (clock w))])
                    (set_trace (trace w ++ [EvSeqAlloc (c + 1)])
                       (set_counters
                          (<[DatabaseManager.file_counter := c + 1]>
                             (counters w)) w)))).
    destruct (processed_files w2 !! h w2) as [r0|] eqn:Hl.
    + exists false. eexists. eexists. split; [| split].
      * cbn [AdvancedTelegramMonitor.send_file_with_new_name].
        erewrite try_raise; cycle 1.
        { erewrite bind_return; [| by apply get_next_sequence_number_run].
          cbv zeta.
          erewrite bind_return; [| by apply read_file_run].
          erewrite bind_return; [| apply now_run].
          erewrite bind_return; [| rewrite publish_run; simpl; by rewrite Ho].
          erewrite bind_return; [| apply (Hh w2)].
          erewrite bind_raise; [reflexivity |].
          by eapply save_processed_file_existing. }
        cbv beta iota.
        erewrite bind_return; [| apply log_activity_run]. reflexivity.
      * simpl. rewrite <- !app_assoc. simpl. reflexivity.
      * repeat constructor.
    + exists true. eexists. eexists. split; [| split].
      * cbn [AdvancedTelegramMonitor.send_file_with_new_name].
        erewrite try_return; [reflexivity |].
        erewrite bind_return; [| by apply get_next_sequence_number_run].
        cbv zeta.
        erewrite bind_return; [| by apply read_file_run].
        erewrite bind_return; [| apply now_run].
        erewrite bind_return; [| rewrite publish_run; simpl; by rewrite Ho].
        erewrite bind_return; [| apply (Hh w2)].
        erewrite bind_return; [| by apply save_processed_file_fresh].
        erewrite bind_return; [| apply log_activity_run].
        reflexivity.
      * simpl. rewrite <- !app_assoc. simpl. reflexivity.
      * repeat constructor.
  - by destruct (Hout s).
  - destruct (main_attempt_error e T fuel path name size chan msg w c data
                ChatAdminRequiredError Hc Hf) as (w' & Hrun & Ht & _).
    { by rewrite Ho. } { done. }
    exists false, w'. eexists. split; [done |]. split.
    + rewrite Ht. reflexivity.
    + repeat constructor.
  - destruct (main_attempt_error e T fuel path name size chan msg w c data
                TransportError Hc Hf) as (w' & Hrun & Ht & _).
    { by rewrite Ho. } { done. }
    exists false, w'. eexists. split; [done |]. split.
    + rewrite Ht. reflexivity.
    + repeat constructor.
Qed.

(** C3, as the code has it: [send_file_with_new_name] allocates the
    sequence number before the publish call, once per attempt.  After [k]
    rate-limited attempts, the attempt that the transport accepts runs in
    the order: allocate the number [c + k + 1], publish under the name
    built from it, persist the ledger entry with that number, emit the
    audit record; an attempt that the transport refuses has consumed its
    number and writes no ledger entry.  With no rate limit ([k = 0]) a
    successful relay moves the counter by exactly one. *)
Theorem sequence_number_allocated_per_attempt
    (e : Config.Environ) (T : Transport) (fuel : nat) (path name : pystr)
    (size : Z) (chan : option pystr) (msg : Message) (d : Document)
    (w : World) (c : Z) (data : list Byte.byte) (waits : list Z) :
  counters w !! DatabaseManager.file_counter = Some c ->
  files w !! path = Some data ->
  msg_media msg = Some (MessageMediaDocument (Some d)) ->
  processed_files w !! AdvancedTelegramMonitor.document_hash d = None ->
  (forall i s, waits !! i = Some s ->
     publish_outcome T (publish_calls w + i)%nat = SendFloodWait s) ->
  (length waits < fuel)%nat ->
  let n := c + Z.of_nat (length waits) + 1 in
  let t := clock w + Scenario.total_sleep waits in
  let attempts :=
    Scenario.rate_limited_attempts e name size data c (clock w) waits in
  let h := AdvancedTelegramMonitor.document_hash d in
  (publish_outcome T (publish_calls w + length waits)%nat = SendOk ->
   exists w',
     AdvancedTelegramMonitor.send_file_with_new_name e T fuel path name size
       chan msg w = (Return true, w')
     /\ trace w'
        = trace w ++ attempts ++
          [EvSeqAlloc n;
           EvPublish (Scenario.main_publish e name size data n t);
           EvLedgerWrite h;
           EvAudit (str "FILE_SENT") (file_sent_details e name n)]
     /\ counters w' !! DatabaseManager.file_counter = Some n
     /\ processed_files w' !! h = Some (main_row e name size chan n))
  /\ (publish_outcome T (publish_calls w + length waits)%nat = SendFails ->
      exists w',
        AdvancedTelegramMonitor.send_file_with_new_name e T fuel path name
          size chan msg w = (Return false, w')
        /\ trace w'
           = trace w ++ attempts ++
             [EvSeqAlloc n;
              EvPublish (Scenario.main_publish e name size data n t);
              EvAudit (str "SEND_ERROR") (exn_str TransportError)]
        /\ counters w' !! DatabaseManager.file_counter = Some n
        /\ processed_files w' = processed_files w).
Proof.
  intros Hc Hf Hm Hfresh Hw Hfuel n t attempts h.
  destruct (after_waits_spec e name size data waits w c Hc)
    as (Ht & Hctr & Hclk & Hpub & Hpf & Hal & Hfs).
  set (wk := Scenario.after_waits e name size data w c waits) in *.
  assert (exists f, fuel = (length waits + S f)%nat) as [f ->].
  { exists (fuel - length waits - 1)%nat. lia. }
  rewrite (main_send_after_waits e T path name size chan msg data waits
             (S f) w c Hc Hf Hw). fold wk.
  split; intros Hout.
  - destruct (main_attempt_ok e T f path name size chan msg d wk
                (c + Z.of_nat (length waits)) data)
      as (w' & Hrun & Ht' & Hc' & Hp' & _); try done.
    { by rewrite Hfs. } { by rewrite Hpub. } { by rewrite Hpf. }
    exists w'. split; [done |]. rewrite Ht', Hc', Hp', Ht, Hclk.
    split; [by rewrite <- app_assoc |].
    split; apply lookup_insert_eq.
  - destruct (main_attempt_error e T f path name size chan msg wk
                (c + Z.of_nat (length waits)) data TransportError)
      as (w' & Hrun & Ht' & Hc' & Hp' & _); try done.
    { by rewrite Hfs. } { by rewrite Hpub, Hout. }
    exists w'. split; [done |]. rewrite Ht', Hc', Hp', Ht, Hclk, Hpf.
    split; [by rewrite <- app_assoc |].
    split; [apply lookup_insert_eq | done].
Qed.

Lemma sequence_number_allocated_per_attempt_witness :
  let T := Scenario.demo_transport
             (fun i => match i with O => SendFloodWait 5 | _ => SendOk end) in
  exists w',
    AdvancedTelegramMonitor.send_file_with_new_name Scenario.demo_env T 2
      Scenario.demo_path (str "a.npvt") 3 (Some (str "source"))
      Scenario.demo_message Scenario.demo_world = (Return true, w')
    /\ trace w'
       = [EvSeqAlloc 1;
          EvPublish (Scenario.main_publish Scenario.demo_env (str "a.npvt") 3
                       Scenario.demo_data 1 1000);
          EvSleep 5;
          EvSeqAlloc 2;
          EvPublish (Scenario.main_publish Scenario.demo_env (str "a.npvt") 3
                       Scenario.demo_data 2 1005);
          EvLedgerWrite (str "7_3_1700000000.0");
          EvAudit (str "FILE_SENT") (str "Hamipn_0002_dest_a.npvt - #2")]
    /\ counters w' !! DatabaseManager.file_counter = Some 2
    /\ processed_files w' !! str "7_3_1700000000.0"
       = Some (main_row Scenario.demo_env (str "a.npvt") 3
                 (Some (str "source")) 2).
Proof.
  refine (proj1 (sequence_number_allocated_per_attempt
                   Scenario.demo_env
                   (Scenario.demo_transport
                      (fun i => match i with
                                | O => SendFloodWait 5
                                | _ => SendOk
                                end))
                   2 Scenario.demo_path (str "a.npvt") 3
                   (Some (str "source")) Scenario.demo_message
                   Scenario.demo_document Scenario.demo_world 0
                   Scenario.demo_data [5] _ _ _ _ _ _) _).
  - reflexivity.
  - reflexivity.
  - reflexivity.
  - reflexivity.
  - intros [|i] s Hi; [by injection Hi as <- | done].
  - simpl. lia.
  - reflexivity.
Defined.

(** C3 as the claim states it fails: a publish call that the transport
    refuses has consumed a sequence number, which was allocated before the
    call. *)
Lemma failed_publish_consumes_sequence_number :
  let T := Scenario.demo_transport (fun _ => SendFails) in
  exists w',
    AdvancedTelegramMonitor.send_file_with_new_name Scenario.demo_env T 1
      Scenario.demo_path (str "a.npvt") 3 (Some (str "source"))
      Scenario.demo_message Scenario.demo_world = (Return false, w')
    /\ counters Scenario.demo_world !! DatabaseManager.file_counter = Some 0
    /\ counters w' !! DatabaseManager.file_counter = Some 1
    /\ trace w'
       = [EvSeqAlloc 1;
          EvPublish (Scenario.main_publish Scenario.demo_env (str "a.npvt") 3
                       Scenario.demo_data 1 1000);
          EvAudit (str "SEND_ERROR") (str "TransportError")]
    /\ processed_files w' = ∅.
Proof.
  destruct (main_attempt_error Scenario.demo_env
              (Scenario.demo_transport (fun _ => SendFails)) 0
              Scenario.demo_path (str "a.npvt") 3 (Some (str "source"))
              Scenario.demo_message Scenario.demo_world 0 Scenario.demo_data
              TransportError eq_refl eq_refl eq_refl)
    as (w' & Hrun & Ht & Hc & Hp & _); [done |].
  exists w'. split; [done |]. split; [reflexivity |].
  rewrite Hc, Ht, Hp. split; [apply lookup_insert_eq | done].
Qed.

(** *** clean_monitor.py *)

Lemma clean_attempt_flood_wait (e : Config.Environ) (T : Transport)
    (fuel : nat) (path name : pystr) (chan : option pystr) (w : World)
    (data : list Byte.byte) (s : Z) :
  files w !! path = Some data ->
  publish_outcome T (publish_calls w) = SendFloodWait s ->
  CleanFileMonitor.send_clean_file e T (S fuel) path name chan w
  = CleanFileMonitor.send_clean_file e T fuel path name chan
      (Scenario.clean_after_flood_wait w
         (CleanFileMonitor.send_file_args e name data (clock w)) s).
Proof.
  intros Hf Hout. cbn [CleanFileMonitor.send_clean_file].
  erewrite try_raise; cycle 1.
  { erewrite bind_return; [| by apply read_file_run].
    erewrite bind_return; [| apply now_run].
    erewrite bind_raise; [reflexivity |].
    rewrite publish_run. simpl. rewrite Hout. reflexivity. }
  cbv beta iota.
  erewrite bind_return; [| apply sleep_run].
  f_equal. unfold Scenario.clean_after_flood_wait, set_clock, set_trace,
    set_publish_calls. simpl. f_equal.
  by rewrite <- !app_assoc.
Qed.

Lemma clean_attempt_final (e : Config.Environ) (T : Transport)
    (fuel : nat) (path name : pystr) (chan : option pystr) (w : World)
    (data : list Byte.byte) :
  files w !! path = Some data ->
  (forall s, publish_outcome T (publish_calls w) <> SendFloodWait s) ->
  exists w',
    CleanFileMonitor.send_clean_file e T (S fuel) path name chan w
    = (Return (is_send_ok (publish_outcome T (publish_calls w))), w')
    /\ trace w'
       = trace w
         ++ [EvPublish (CleanFileMonitor.send_file_args e name data (clock w))]
    /\ clean_processed_files w' = clean_processed_files w
    /\ files w' = files w
    /\ clock w' = clock w
    /\ publish_calls w' = S (publish_calls w).
Proof.
  intros Hf Hout. eexists. split.
  - cbn [CleanFileMonitor.send_clean_file].
    destruct (publish_outcome T (publish_calls w)) as [|s| |] eqn:Ho.
    + erewrite try_return; [reflexivity |].
      erewrite bind_return; [| by apply read_file_run].
      erewrite bind_return; [| apply now_run].
      erewrite bind_return; [| rewrite publish_run; simpl; by rewrite Ho].
      reflexivity.
    + by destruct (Hout s).
    + erewrite try_raise; cycle 1.
      { erewrite bind_return; [| by apply read_file_run].
        erewrite bind_return; [| apply now_run].
        erewrite bind_raise; [reflexivity |].
        rewrite publish_run. simpl. rewrite Ho. reflexivity. }
      reflexivity.
    + erewrite try_raise; cycle 1.
      { erewrite bind_return; [| by apply read_file_run].
        erewrite bind_return; [| apply now_run].
        erewrite bind_raise; [reflexivity |].
        rewrite publish_run. simpl. rewrite Ho. reflexivity. }
      reflexivity.
  - done.
Qed.

Lemma clean_send_after_waits (e : Config.Environ) (T : Transport)
    (path name : pystr) (chan : option pystr) (data : list Byte.byte)
    (waits : list Z) :
  forall (fuel : nat) (w : World),
  files w !! path = Some data ->
  (forall i s, waits !! i = Some s ->
     publish_outcome T (publish_calls w + i)%nat = SendFloodWait s) ->
  CleanFileMonitor.send_clean_file e T (length waits + fuel) path name chan w
  = CleanFileMonitor.send_clean_file e T fuel path name chan
      (Scenario.clean_after_waits e name data w waits).
Proof.
  induction waits as [|s rest IH]; intros fuel w Hf Hw; [done |].
  cbn [length Nat.add Scenario.clean_after_waits].
  rewrite (clean_attempt_flood_wait e T _ path name chan w data s)
    by (try done; rewrite <- (Hw 0%nat s eq_refl); f_equal; lia).
  apply IH; [done |].
  intros i s' Hi. simpl. rewrite <- (Hw (S i) s' Hi). f_equal. lia.
Qed.

Lemma clean_after_waits_spec (e : Config.Environ) (name : pystr)
    (data : list Byte.byte) (waits : list Z) :
  forall (w : World),
  let wk := Scenario.clean_after_waits e name data w waits in
  trace wk
  = trace w ++ Scenario.clean_rate_limited_attempts e name data (clock w)
                 waits
  /\ clock wk = clock w + Scenario.total_sleep waits
  /\ publish_calls wk = (publish_calls w + length waits)%nat
  /\ clean_processed_files wk = clean_processed_files w
  /\ files wk = files w.
Proof.
  induction waits as [|s rest IH]; intros w.
  - simpl. rewrite app_nil_r, !Z.add_0_r, Nat.add_0_r. done.
  - cbn [Scenario.clean_after_waits Scenario.clean_rate_limited_attempts
         Scenario.total_sleep length].
    destruct (IH (Scenario.clean_after_flood_wait w
                    (CleanFileMonitor.send_file_args e name data (clock w))
                    s)) as (Ht & Hclk & Hpub & Hpf & Hfs).
    cbv zeta in *. rewrite Ht, Hclk, Hpub, Hpf, Hfs. simpl.
    rewrite <- app_assoc. split; [done |].
    split; [lia |]. split; [lia | done].
Qed.

(** C4, as the code has it: a publish attempt that is answered by a flood
    wait of [N] seconds is followed by one sleep of exactly [N] seconds and
    then by exactly one more publish call, for the same destination and
    with the same bytes.  [clean_monitor.py] repeats the call under the
    same file name, with the caption rebuilt at the later time.  [main.py]
    runs the whole send operation again: the retry takes the next sequence
    number, and its file name and caption are built from that number. *)
Theorem flood_wait_sleeps_and_retries_once
    (e : Config.Environ) (T : Transport) (fuel : nat) (path name : pystr)
    (size : Z) (chan : option pystr) (msg : Message) (w : World)
    (data : list Byte.byte) (N : Z) :
  files w !! path = Some data ->
  publish_outcome T (publish_calls w) = SendFloodWait N ->
  (forall s, publish_outcome T (S (publish_calls w)) <> SendFloodWait s) ->
  (forall c, counters w !! DatabaseManager.file_counter = Some c ->
   let a1 := Scenario.main_publish e name size data (c + 1) (clock w) in
   let a2 := Scenario.main_publish e name size data (c + 2)
               (clock w + Z.max 0 N) in
   exists r w' tail,
     AdvancedTelegramMonitor.send_file_with_new_name e T (S (S fuel)) path
       name size chan msg w = (Return r, w')
     /\ trace w'
        = trace w ++
          [EvSeqAlloc (c + 1); EvPublish a1; EvSleep N;
           EvSeqAlloc (c + 2); EvPublish a2] ++ tail
     /\ Forall quiet tail
     /\ pa_entity a2 = pa_entity a1
     /\ pa_file a2 = pa_file a1
     /\ pa_file_name a2
        = generate_new_filename (FileNamer.init e None None) name (c + 2)
     /\ cap_sequence (pa_caption a2) = Some (c + 2)
     /\ cap_time (pa_caption a2) = cap_time (pa_caption a1) + Z.max 0 N)
  /\ (let b1 := CleanFileMonitor.send_file_args e name data (clock w) in
      let b2 := CleanFileMonitor.send_file_args e name data
                  (clock w + Z.max 0 N) in
      exists w',
        CleanFileMonitor.send_clean_file e T (S (S fuel)) path name chan w
        = (Return (is_send_ok (publish_outcome T (S (publish_calls w)))), w')
        /\ trace w' = trace w ++ [EvPublish b1; EvSleep N; EvPublish b2]
        /\ pa_entity b2 = pa_entity b1
        /\ pa_file b2 = pa_file b1
        /\ pa_file_name b2 = pa_file_name b1
        /\ cap_time (pa_caption b2) = cap_time (pa_caption b1) + Z.max 0 N).
Proof.
  intros Hf Hout Hnext. split.
  - intros c Hc a1 a2.
    rewrite (main_attempt_flood_wait e T (S fuel) path name size chan msg w c
               data N Hc Hf Hout).
    destruct (main_attempt_final e T fuel path name size chan msg
                (Scenario.after_flood_wait w c a1 N) (c + 1) data)
      as (r & w' & tail & Hrun & Ht & Hq).
    { simpl. apply lookup_insert_eq. } { done. } { done. }
    exists r, w', tail. split; [exact Hrun |]. split.
    { rewrite Ht. simpl. rewrite <- !app_assoc. simpl.
      replace (c + 1 + 1) with (c + 2) by lia. done. }
    done.
  - intros b1 b2.
    rewrite (clean_attempt_flood_wait e T (S fuel) path name chan w data N
               Hf Hout).
    destruct (clean_attempt_final e T fuel path name chan
                (Scenario.clean_after_flood_wait w b1 N) data)
      as (w' & Hrun & Ht & _); [done | done |].
    exists w'. split; [exact Hrun |]. split; [| done].
    rewrite Ht. simpl. by rewrite <- !app_assoc.
Qed.

Lemma flood_wait_sleeps_and_retries_once_witness :
  let T := Scenario.demo_transport
             (fun i => match i with O => SendFloodWait 5 | _ => SendOk end) in
  let b1 := CleanFileMonitor.send_file_args Scenario.demo_env (str "a.npvt")
              Scenario.demo_data 1000 in
  let b2 := CleanFileMonitor.send_file_args Scenario.demo_env (str "a.npvt")
              Scenario.demo_data 1005 in
  exists w',
    CleanFileMonitor.send_clean_file Scenario.demo_env T 2 Scenario.demo_path
      (str "a.npvt") (Some (str "source")) Scenario.demo_world
    = (Return true, w')
    /\ trace w' = [EvPublish b1; EvSleep 5; EvPublish b2]
    /\ pa_entity b2 = pa_entity b1
    /\ pa_file b2 = pa_file b1
    /\ pa_file_name b2 = pa_file_name b1
    /\ cap_time (pa_caption b2) = cap_time (pa_caption b1) + 5.
Proof.
  exact (proj2 (flood_wait_sleeps_and_retries_once
                  Scenario.demo_env
                  (Scenario.demo_transport
                     (fun i => match i with
                               | O => SendFloodWait 5
                               | _ => SendOk
                               end))
                  0 Scenario.demo_path (str "a.npvt") 3
                  (Some (str "source")) Scenario.demo_message
                  Scenario.demo_world Scenario.demo_data 5
                  eq_refl eq_refl
                  (fun s (H : SendOk = SendFloodWait s) =>
                     eq_ind SendOk
                       (fun o => match o with SendOk => True | _ => False end)
                       I _ H))).
Defined.

(** C4 as the claim states it fails in [main.py]: after a flood wait the
    retry is not the same publish call.  It carries the next sequence
    number, hence another file name and another caption. *)
Lemma retry_changes_publish_arguments :
  let T := Scenario.demo_transport
             (fun i => match i with O => SendFloodWait 5 | _ => SendOk end) in
  exists w' a1 a2 tail,
    AdvancedTelegramMonitor.send_file_with_new_name Scenario.demo_env T 2
      Scenario.demo_path (str "a.npvt") 3 (Some (str "source"))
      Scenario.demo_message Scenario.demo_world = (Return true, w')
    /\ trace w'
       = [EvSeqAlloc 1; EvPublish a1; EvSleep 5; EvSeqAlloc 2; EvPublish a2]
         ++ tail
    /\ pa_file_name a1 = str "Hamipn_0001_dest_a.npvt"
    /\ pa_file_name a2 = str "Hamipn_0002_dest_a.npvt"
    /\ cap_sequence (pa_caption a1) = Some 1
    /\ cap_sequence (pa_caption a2) = Some 2
    /\ a1 <> a2.
Proof.
  intros T.
  pose proof (main_attempt_flood_wait Scenario.demo_env T 1
                Scenario.demo_path (str "a.npvt") 3 (Some (str "source"))
                Scenario.demo_message Scenario.demo_world 0
                Scenario.demo_data 5 eq_refl eq_refl eq_refl) as Hstep.
  destruct (main_attempt_ok Scenario.demo_env T 0
              Scenario.demo_path (str "a.npvt") 3 (Some (str "source"))
              Scenario.demo_message Scenario.demo_document
              (Scenario.after_flood_wait Scenario.demo_world 0
                 (Scenario.main_publish Scenario.demo_env (str "a.npvt") 3
                    Scenario.demo_data (0 + 1) (clock Scenario.demo_world)) 5)
              (0 + 1) Scenario.demo_data)
    as (w' & Hrun & Ht & _); try reflexivity.
  exists w'. do 3 eexists. split; [by rewrite Hstep |].
  split; [rewrite Ht; reflexivity |].
  repeat split. discriminate.
Qed.

(** ** What a computation may add to the trace *)

Lemma emits_silent {A} (P : Event -> Prop) (m : M A) :
  (forall w, trace (m w).2 = trace w) -> emits P m.
Proof. intros H w. exists []. by rewrite app_nil_r, H. Qed.

Lemma emits_ret {A} (P : Event -> Prop) (a : A) : emits P (mret a).
Proof. by apply emits_silent. Qed.

Lemma emits_raise {A} (P : Event -> Prop) (e : exn) : emits P (@raise A e).
Proof. by apply emits_silent. Qed.

Lemma emits_out_of_fuel {A} (P : Event -> Prop) : emits P (@out_of_fuel A).
Proof. by apply emits_silent. Qed.

Lemma emits_emit (P : Event -> Prop) (ev : Event) : P ev -> emits P (emit ev).
Proof. intros H w. exists [ev]. split; [done | by constructor]. Qed.

Lemma emits_bind {A B} (P : Event -> Prop) (m : M A) (k : A -> M B) :
  emits P m -> (forall a, emits P (k a)) -> emits P (m ≫= k).
Proof.
  intros Hm Hk w. destruct (Hm w) as (evs & Ht & Hp).
  unfold mbind, M_bind, bind. destruct (m w) as [[a|err|] w1]; simpl in *.
  - destruct (Hk a w1) as (evs' & Ht' & Hp').
    exists (evs ++ evs'). rewrite Ht', Ht, app_assoc.
    split; [done | by apply Forall_app].
  - by exists evs.
  - by exists evs.
Qed.

Lemma emits_try {A} (P : Event -> Prop) (m : M A) (h : exn -> M A) :
  emits P m -> (forall err, emits P (h err)) -> emits P (try_except m h).
Proof.
  intros Hm Hh w. destruct (Hm w) as (evs & Ht & Hp).
  unfold try_except. destruct (m w) as [[a|err|] w1]; simpl in *.
  - by exists evs.
  - destruct (Hh err w1) as (evs' & Ht' & Hp').
    exists (evs ++ evs'). rewrite Ht', Ht, app_assoc.
    split; [done | by apply Forall_app].
  - by exists evs.
Qed.

(** A computation that runs after a prefix of the trace was written. *)
Lemma emits_after {A} (P : Event -> Prop) (m : M A) (w w0 : World)
    (pre : list Event) :
  emits P m -> trace w = trace w0 ++ pre ->
  exists rest, trace (m w).2 = trace w0 ++ pre ++ rest /\ Forall P rest.
Proof.
  intros Hm Hw. destruct (Hm w) as (evs & Ht & Hp).
  exists evs. by rewrite Ht, Hw, app_assoc.
Qed.

Lemma try_bind_return {A B} (m : M A) (k : A -> M B) (h : exn -> M B)
    (w w' : World) (a : A) :
  m w = (Return a, w') ->
  try_except (m ≫= k) h w = try_except (k a) h w'.
Proof. intros H. unfold try_except. by erewrite bind_return. Qed.

Lemma emits_read_file (P : Event -> Prop) (path : pystr) :
  emits P (read_file path).
Proof.
  apply emits_silent. intros w. unfold read_file.
  by destruct (files w !! path).
Qed.

Lemma emits_publish (P : Event -> Prop) (T : Transport) (ev : Event) :
  P ev -> emits P (publish T ev).
Proof.
  intros H w. exists [ev]. rewrite publish_run. split; [done | by constructor].
Qed.

Lemma emits_sleep (P : Event -> Prop) (s : Z) :
  P (EvSleep s) -> emits P (sleep s).
Proof.
  intros H w. exists [EvSleep s]. split; [done | by constructor].
Qed.

Lemma emits_log_activity (P : Event -> Prop) (action details : pystr) :
  P (EvAudit action details) ->
  emits P (DatabaseManager.log_activity action details).
Proof.
  intros H w. exists [EvAudit action details]. split; [done | by constructor].
Qed.

Lemma emits_get_next_sequence_number (P : Event -> Prop) (name : pystr) :
  (forall n, P (EvSeqAlloc n)) ->
  emits P (DatabaseManager.get_next_sequence_number name).
Proof.
  intros H w. destruct (counters w !! name) as [c|] eqn:Hc.
  - rewrite (get_next_sequence_number_run _ _ _ Hc).
    eexists [_]. split; [done | by constructor].
  - rewrite (get_next_sequence_number_missing _ _ Hc).
    eexists [_]. split; [done | by constructor].
Qed.

Lemma emits_save_processed_file (P : Event -> Prop) (F : pystr)
    (row : ProcessedFile) :
  P (EvLedgerWrite F) -> emits P (DatabaseManager.save_processed_file F row).
Proof.
  intros H w. destruct (processed_files w !! F) as [r0|] eqn:Hl.
  - rewrite (save_processed_file_existing _ _ _ _ Hl).
    eexists [_]. split; [done | by constructor].
  - rewrite (save_processed_file_fresh _ _ _ Hl).
    eexists [_]. split; [done | by constructor].
Qed.

Lemma emits_get_file_hash (P : Event -> Prop) (document : option Document) :
  emits P (AdvancedTelegramMonitor.get_file_hash document).
Proof. destruct document; by apply emits_silent. Qed.

Lemma emits_main_send (e : Config.Environ) (T : Transport) (fuel : nat)
    (path name : pystr) (size : Z) (chan : option pystr) (msg : Message) :
  emits after_download
    (AdvancedTelegramMonitor.send_file_with_new_name e T fuel path name size
       chan msg).
Proof.
  induction fuel as [|fuel IH]; [apply emits_out_of_fuel |].
  cbn [AdvancedTelegramMonitor.send_file_with_new_name].
  apply emits_try.
  - apply emits_bind; [by apply emits_get_next_sequence_number | intros n].
    cbv zeta.
    apply emits_bind; [apply emits_read_file | intros data].
    apply emits_bind; [by apply emits_silent | intros t].
    apply emits_bind; [by apply emits_publish | intros _].
    apply emits_bind.
    { destruct (msg_media msg) as [[doc|]|];
        [apply emits_get_file_hash | by apply emits_silent
        | by apply emits_silent]. }
    intros h.
    apply emits_bind; [by apply emits_save_processed_file | intros _].
    apply emits_bind; [by apply emits_log_activity | intros _].
    apply emits_ret.
  - intros err. destruct err;
      try (apply emits_bind; [by apply emits_log_activity | intros _];
           apply emits_ret).
    apply emits_bind; [by apply emits_sleep | intros _]. apply IH.
Qed.

Lemma emits_clean_send (e : Config.Environ) (T : Transport) (fuel : nat)
    (path name : pystr) (chan : option pystr) :
  emits after_download
    (CleanFileMonitor.send_clean_file e T fuel path name chan).
Proof.
  induction fuel as [|fuel IH]; [apply emits_out_of_fuel |].
  cbn [CleanFileMonitor.send_clean_file].
  apply emits_try.
  - apply emits_bind; [apply emits_read_file | intros data].
    apply emits_bind; [by apply emits_silent | intros t].
    apply emits_bind; [by apply emits_publish | intros _].
    apply emits_ret.
  - intros err. destruct err; try apply emits_ret.
    apply emits_bind; [by apply emits_sleep | intros _]. apply IH.
Qed.

(** ** The order of the checks in [process_message] *)

Lemma passes_extension_check_inv (e : Config.Environ) (m : Message) :
  passes_extension_check e m = true ->
  exists d c n,
    msg_media m = Some (MessageMediaDocument (Some d))
    /\ extract_filename (doc_attributes d) = Some (c :: n)
    /\ Config.has_target_extension e (c :: n) = true.
Proof.
  unfold passes_extension_check, filename_of, document_of.
  destruct (msg_media m) as [[[d|]|]|]; try done.
  destruct (extract_filename (doc_attributes d)) as [[|c n]|] eqn:Hf;
    try done.
  intros H. by exists d, c, n.
Qed.

Lemma is_file_processed_fresh (F : pystr) (w : World) :
  processed_files w !! F = None ->
  DatabaseManager.is_file_processed F w
  = (Return false, set_trace (trace w ++ [EvLedgerLookup F]) w).
Proof. intros H. rewrite is_file_processed_run. by rewrite H. Qed.

Lemma is_file_processed_known (F : pystr) (w : World) :
  is_Some (processed_files w !! F) ->
  DatabaseManager.is_file_processed F w
  = (Return true, set_trace (trace w ++ [EvLedgerLookup F]) w).
Proof. intros [r H]. rewrite is_file_processed_run. by rewrite H. Qed.

Lemma main_filtered_out (e : Config.Environ) (T : Transport) (fuel : nat)
    (m : Message) (ch : Channel) (w : World) :
  passes_extension_check e m = false ->
  exists w' evs,
    AdvancedTelegramMonitor.process_message e T fuel m ch w
    = (Return false, w')
    /\ trace w' = trace w ++ evs
    /\ Forall filtered_out evs.
Proof.
  unfold passes_extension_check, filename_of, document_of.
  unfold AdvancedTelegramMonitor.process_message.
  destruct (msg_media m) as [[[d|]|]|]; intros Hp.
  - erewrite try_bind_return; [| reflexivity].
    destruct (extract_filename (doc_attributes d)) as [[|c n]|].
    + exists w, []. by rewrite app_nil_r.
    + rewrite Hp. exists w, []. by rewrite app_nil_r.
    + exists w, []. by rewrite app_nil_r.
  - eexists. eexists [_]. split; [reflexivity |]. split; [reflexivity |].
    by repeat constructor.
  - exists w, []. by rewrite app_nil_r.
  - exists w, []. by rewrite app_nil_r.
Qed.

Lemma main_duplicate (e : Config.Environ) (T : Transport) (fuel : nat)
    (m : Message) (ch : Channel) (w : World) (d : Document) :
  passes_extension_check e m = true ->
  document_of m = Some d ->
  is_Some (processed_files w !! AdvancedTelegramMonitor.document_hash d) ->
  AdvancedTelegramMonitor.process_message e T fuel m ch w
  = (Return false,
     set_trace
       (trace w ++ [EvLedgerLookup (AdvancedTelegramMonitor.document_hash d)])
       w).
Proof.
  intros Hp Hd Hl.
  destruct (passes_extension_check_inv e m Hp) as (d' & c & n & Hm & Hf & He).
  unfold document_of in Hd. rewrite Hm in Hd. injection Hd as ->.
  unfold AdvancedTelegramMonitor.process_message. rewrite Hm.
  erewrite try_bind_return; [| reflexivity].
  rewrite Hf, He. cbn [negb].
  erewrite try_bind_return; [| reflexivity].
  erewrite try_bind_return; [| by apply is_file_processed_known].
  reflexivity.
Qed.

Lemma main_download_file_run (T : Transport) (m : Message) (d : Document)
    (c : ascii) (n : pystr) (w : World) :
  msg_media m = Some (MessageMediaDocument (Some d)) ->
  extract_filename (doc_attributes d) = Some (c :: n) ->
  exists dr w',
    AdvancedTelegramMonitor.download_file T m w = (Return dr, w')
    /\ trace w' = trace w ++ [EvDownload m].
Proof.
  intros Hm Hf. unfold AdvancedTelegramMonitor.download_file.
  rewrite Hm. erewrite try_bind_return; [| reflexivity]. rewrite Hf.
  unfold download. run_m. simpl.
  destruct (download_media T m); eexists; eexists; split; reflexivity.
Qed.

Lemma main_relay_attempt (e : Config.Environ) (T : Transport) (fuel : nat)
    (m : Message) (ch : Channel) (w : World) (d : Document) :
  passes_extension_check e m = true ->
  document_of m = Some d ->
  processed_files w !! AdvancedTelegramMonitor.document_hash d = None ->
  exists rest,
    trace (AdvancedTelegramMonitor.process_message e T fuel m ch w).2
    = trace w
      ++ [EvLedgerLookup (AdvancedTelegramMonitor.document_hash d);
          EvDownload m] ++ rest
    /\ Forall after_download rest.
Proof.
  intros Hp Hd Hl.
  destruct (passes_extension_check_inv e m Hp) as (d' & c & n & Hm & Hf & He).
  unfold document_of in Hd. rewrite Hm in Hd. injection Hd as ->.
  unfold AdvancedTelegramMonitor.process_message. rewrite Hm.
  erewrite try_bind_return; [| reflexivity].
  rewrite Hf, He. cbn [negb].
  erewrite try_bind_return; [| reflexivity].
  erewrite try_bind_return; [| by apply is_file_processed_fresh].
  cbv iota.
  destruct (main_download_file_run T m d c n
              (set_trace
                 (trace w
                  ++ [EvLedgerLookup (AdvancedTelegramMonitor.document_hash d)])
                 w) Hm Hf) as (dr & w2 & Hdl & Ht2).
  erewrite try_bind_return; [| exact Hdl].
  apply emits_after.
  - apply emits_try.
    + destruct dr as [[[file_path original_name] file_size]|];
        [| apply emits_ret].
      apply emits_bind; [apply emits_main_send | intros success].
      apply emits_bind; [by apply emits_silent | intros _].
      apply emits_ret.
    + intros err.
      apply emits_bind; [by apply emits_log_activity | intros _].
      apply emits_ret.
  - rewrite Ht2. simpl. by rewrite <- app_assoc.
Qed.

Lemma clean_is_file_processed_fresh (F : pystr) (w : World) :
  clean_processed_files w !! F = None ->
  CleanFileMonitor.is_file_processed F w
  = (Return false, set_trace (trace w ++ [EvLedgerLookup F]) w).
Proof. intros H. rewrite clean_is_file_processed_run. by rewrite H. Qed.

Lemma clean_is_file_processed_known (F : pystr) (w : World) :
  is_Some (clean_processed_files w !! F) ->
  CleanFileMonitor.is_file_processed F w
  = (Return true, set_trace (trace w ++ [EvLedgerLookup F]) w).
Proof. intros [r H]. rewrite clean_is_file_processed_run. by rewrite H. Qed.

Lemma clean_filtered_out (e : Config.Environ) (T : Transport) (fuel : nat)
    (m : Message) (ch : Channel) (w : World) :
  passes_extension_check e m = false ->
  CleanFileMonitor.process_message e T fuel m ch w = (Return false, w).
Proof.
  unfold passes_extension_check, filename_of, document_of.
  unfold CleanFileMonitor.process_message.
  destruct (msg_media m) as [[[d|]|]|]; intros Hp; try reflexivity.
  erewrite try_bind_return; [| reflexivity].
  destruct (extract_filename (doc_attributes d)) as [[|c n]|];
    try reflexivity.
  by rewrite Hp.
Qed.

Lemma clean_duplicate (e : Config.Environ) (T : Transport) (fuel : nat)
    (m : Message) (ch : Channel) (w : World) (d : Document) :
  passes_extension_check e m = true ->
  document_of m = Some d ->
  is_Some (clean_processed_files w !! CleanFileMonitor.get_file_hash d) ->
  CleanFileMonitor.process_message e T fuel m ch w
  = (Return false,
     set_trace
       (trace w ++ [EvLedgerLookup (CleanFileMonitor.get_file_hash d)]) w).
Proof.
  intros Hp Hd Hl.
  destruct (passes_extension_check_inv e m Hp) as (d' & c & n & Hm & Hf & He).
  unfold document_of in Hd. rewrite Hm in Hd. injection Hd as ->.
  unfold CleanFileMonitor.process_message. rewrite Hm.
  erewrite try_bind_return; [| reflexivity].
  rewrite Hf, He. cbn [negb].
  erewrite try_bind_return; [| by apply clean_is_file_processed_known].
  reflexivity.
Qed.

Lemma clean_download_file_run (T : Transport) (m : Message) (name : pystr)
    (w : World) :
  exists dr w',
    CleanFileMonitor.download_file T m name w = (Return dr, w')
    /\ trace w' = trace w ++ [EvDownload m]
    /\ clean_processed_files w' = clean_processed_files w.
Proof.
  unfold CleanFileMonitor.download_file, download. run_m. simpl.
  destruct (download_media T m); eexists; eexists; split; try reflexivity;
    split; reflexivity.
Qed.

Lemma emits_mark_file_as_processed (P : Event -> Prop) (F : pystr)
    (message_id channel_id : Z) (filename : pystr) :
  P (EvLedgerWrite F) ->
  emits P (CleanFileMonitor.mark_file_as_processed F message_id channel_id
             filename).
Proof.
  intros H w. exists [EvLedgerWrite F]. split; [done | by constructor].
Qed.

Lemma clean_relay_attempt (e : Config.Environ) (T : Transport) (fuel : nat)
    (m : Message) (ch : Channel) (w : World) (d : Document) :
  passes_extension_check e m = true ->
  document_of m = Some d ->
  clean_processed_files w !! CleanFileMonitor.get_file_hash d = None ->
  exists rest,
    trace (CleanFileMonitor.process_message e T fuel m ch w).2
    = trace w
      ++ [EvLedgerLookup (CleanFileMonitor.get_file_hash d); EvDownload m]
      ++ rest
    /\ Forall after_download rest.
Proof.
  intros Hp Hd Hl.
  destruct (passes_extension_check_inv e m Hp) as (d' & c & n & Hm & Hf & He).
  unfold document_of in Hd. rewrite Hm in Hd. injection Hd as ->.
  unfold CleanFileMonitor.process_message. rewrite Hm.
  erewrite try_bind_return; [| reflexivity].
  rewrite Hf, He. cbn [negb].
  erewrite try_bind_return; [| by apply clean_is_file_processed_fresh].
  cbv iota.
  destruct (clean_download_file_run T m (c :: n)
              (set_trace
                 (trace w ++ [EvLedgerLookup (CleanFileMonitor.get_file_hash d)])
                 w)) as (dr & w2 & Hdl & Ht2 & _).
  erewrite try_bind_return; [| exact Hdl].
  apply emits_after.
  - apply emits_try; [| intros err; apply emits_ret].
    destruct dr as [path|]; [| apply emits_ret].
    apply emits_bind; [apply emits_clean_send | intros success].
    destruct success; [| apply emits_ret].
    apply emits_bind; [by apply emits_mark_file_as_processed | intros _].
    apply emits_ret.
  - rewrite Ht2. simpl. by rewrite <- app_assoc.
Qed.

(** *** user_monitor.py *)

Lemma emits_weaken {A} (P Q : Event -> Prop) (m : M A) :
  (forall ev, P ev -> Q ev) -> emits P m -> emits Q m.
Proof.
  intros HPQ Hm w. destruct (Hm w) as (evs & Ht & Hp).
  exists evs. split; [done |]. eapply Forall_impl; [exact Hp | exact HPQ].
Qed.

(** [init_database] connects nothing: the monitor keeps the [db_conn]
    that [__init__] gave it. *)
Lemma init_database_raises (self : TelegramChannelMonitor.Monitor)
    (w : World) :
  TelegramChannelMonitor.init_database self w = (Raise AttributeError, w).
Proof. reflexivity. Qed.

Lemma emits_user_log_activity (P : Event -> Prop)
    (self : TelegramChannelMonitor.Monitor) (action details : pystr) :
  P (EvAudit action details) ->
  emits P (TelegramChannelMonitor.log_activity self action details).
Proof.
  intros H. unfold TelegramChannelMonitor.log_activity.
  destruct (TelegramChannelMonitor.db_conn self);
    [by apply emits_log_activity | apply emits_ret].
Qed.

(** Events of [user_monitor.py] after its lookup: no download and no other
    lookup. *)
Lemma emits_mark_message_as_sent (self : TelegramChannelMonitor.Monitor)
    (m : Message) (ch : Channel) (filename : pystr) :
  emits after_download
    (TelegramChannelMonitor.mark_message_as_sent self m ch filename).
Proof.
  unfold TelegramChannelMonitor.mark_message_as_sent.
  destruct (TelegramChannelMonitor.db_conn self) eqn:Hc;
    [| apply emits_ret].
  apply emits_bind.
  { destruct (msg_media m) as [[[d|]|]|]; by apply emits_silent. }
  intros size.
  apply emits_bind; [by apply emits_emit | intros _].
  apply emits_bind.
  { apply emits_silent. intros w. unfold modify. simpl.
    by destruct (sent_messages w !! (msg_id m, ch_id ch)). }
  intros _. by apply emits_user_log_activity.
Qed.

Lemma emits_forward_message (self : TelegramChannelMonitor.Monitor)
    (T : Transport) (fuel : nat) (m : Message) (ch : Channel)
    (filename : pystr) :
  emits after_download
    (TelegramChannelMonitor.forward_message self T fuel m ch filename).
Proof.
  induction fuel as [|fuel IH]; [apply emits_out_of_fuel |].
  cbn [TelegramChannelMonitor.forward_message].
  apply emits_try.
  - apply emits_bind; [by apply emits_publish | intros _].
    apply emits_bind; [apply emits_mark_message_as_sent | intros _].
    by apply emits_user_log_activity.
  - intros err. destruct err; try apply emits_ret.
    apply emits_bind; [by apply emits_sleep | intros _]. apply IH.
Qed.

Lemma is_message_processed_run (self : TelegramChannelMonitor.Monitor)
    (message_id channel_id : Z) (w : World) :
  TelegramChannelMonitor.is_message_processed self message_id channel_id w
  = match TelegramChannelMonitor.db_conn self with
    | Some _ =>
        (Return (match sent_messages w !! (message_id, channel_id) with
                 | Some _ => true
                 | None => false
                 end),
         set_trace (trace w ++ [EvSentLookup message_id channel_id]) w)
    | None => (Return false, w)
    end.
Proof.
  unfold TelegramChannelMonitor.is_message_processed.
  by destruct (TelegramChannelMonitor.db_conn self).
Qed.

(** The events of one [process_message]: never a download, and no lookup
    either for a monitor without a connection. *)
Lemma user_process_message_events (self : TelegramChannelMonitor.Monitor)
    (e : Config.Environ) (T : Transport) (fuel : nat) (m : Message)
    (ch : Channel) :
  emits (fun ev =>
           Scenario.is_download ev = false
           /\ (TelegramChannelMonitor.db_conn self = None ->
               Scenario.is_ledger_lookup ev = false))
    (TelegramChannelMonitor.process_message self e T fuel m ch).
Proof.
  unfold TelegramChannelMonitor.process_message.
  apply emits_try; [| intros err; apply emits_ret].
  destruct (msg_media m) as [[doc|]|]; try apply emits_ret.
  apply emits_bind.
  { unfold TelegramChannelMonitor.is_message_processed.
    destruct (TelegramChannelMonitor.db_conn self) eqn:Hc;
      [| apply emits_ret].
    apply emits_bind; [by apply emits_emit | intros _].
    by apply emits_silent. }
  intros processed. destruct processed; [apply emits_ret |].
  apply emits_bind.
  { destruct doc; by apply emits_silent. }
  intros attrs.
  destruct (extract_filename attrs) as [[|c n]|]; try apply emits_ret.
  destruct (negb _); [apply emits_ret |].
  apply emits_bind; [| intros _; apply emits_ret].
  eapply emits_weaken; [| apply emits_forward_message].
  by intros ev [? ?].
Qed.

(** C1.  In [main.py] and [clean_monitor.py] the extension check comes
    before the fingerprint lookup, and the lookup before the download: a
    message that fails the extension check causes no lookup, no download
    and no publish call; a message whose fingerprint is in the ledger
    causes the lookup and nothing else; and when a download happens, it is
    the second event, right after the lookup.  [user_monitor.py] forwards
    and never downloads; its monitor has the [db_conn] that [__init__]
    gave it, [None], since [init_database] raises before it connects, and
    with it [is_message_processed] returns at its guard: no message causes a
    lookup, whether its extension matches or not. *)
Theorem checks_precede_download (e : Config.Environ) (T : Transport)
    (fuel : nat) (m : Message) (ch : Channel) (w : World) :
  (passes_extension_check e m = false ->
   (exists w' evs,
      AdvancedTelegramMonitor.process_message e T fuel m ch w
      = (Return false, w')
      /\ trace w' = trace w ++ evs /\ Forall filtered_out evs)
   /\ CleanFileMonitor.process_message e T fuel m ch w = (Return false, w))
  /\ (forall d,
      passes_extension_check e m = true -> document_of m = Some d ->
      let h := AdvancedTelegramMonitor.document_hash d in
      let h' := CleanFileMonitor.get_file_hash d in
      (is_Some (processed_files w !! h) ->
       AdvancedTelegramMonitor.process_message e T fuel m ch w
       = (Return false, set_trace (trace w ++ [EvLedgerLookup h]) w))
      /\ (is_Some (clean_processed_files w !! h') ->
          CleanFileMonitor.process_message e T fuel m ch w
          = (Return false, set_trace (trace w ++ [EvLedgerLookup h']) w))
      /\ (processed_files w !! h = None ->
          exists rest,
            trace (AdvancedTelegramMonitor.process_message e T fuel m ch w).2
            = trace w ++ [EvLedgerLookup h; EvDownload m] ++ rest
            /\ Forall after_download rest)
      /\ (clean_processed_files w !! h' = None ->
          exists rest,
            trace (CleanFileMonitor.process_message e T fuel m ch w).2
            = trace w ++ [EvLedgerLookup h'; EvDownload m] ++ rest
            /\ Forall after_download rest))
  /\ (forall self,
      exists evs,
        trace (TelegramChannelMonitor.process_message self e T fuel m ch w).2
        = trace w ++ evs
        /\ Forall (fun ev => Scenario.is_download ev = false) evs)
  /\ (exists evs,
        trace (TelegramChannelMonitor.process_message
                 TelegramChannelMonitor.init e T fuel m ch w).2
        = trace w ++ evs
        /\ Forall after_download evs)
  /\ (forall self,
        TelegramChannelMonitor.init_database self w
        = (Raise AttributeError, w)).
Proof.
  split; [| split; [| split; [| split]]].
  - intros Hp. split; [by apply main_filtered_out | by apply clean_filtered_out].
  - intros d Hp Hd h h'. split; [| split; [| split]].
    + by apply main_duplicate.
    + by apply clean_duplicate.
    + by apply main_relay_attempt.
    + by apply clean_relay_attempt.
  - intros self.
    destruct (user_process_message_events self e T fuel m ch w)
      as (evs & Ht & Hp).
    exists evs. split; [done |].
    eapply Forall_impl; [exact Hp |]. by intros ev [? _].
  - destruct (user_process_message_events TelegramChannelMonitor.init
                e T fuel m ch w) as (evs & Ht & Hp).
    exists evs. split; [done |].
    eapply Forall_impl; [exact Hp |]. intros ev [Hd Hl]. split; [| done].
    by apply Hl.
  - intros self. apply init_database_raises.
Qed.

Lemma checks_precede_download_witness :
  let T := Scenario.demo_transport (fun _ => SendOk) in
  let h := AdvancedTelegramMonitor.document_hash Scenario.demo_document in
  exists rest,
    trace (AdvancedTelegramMonitor.process_message Scenario.demo_env T 1
             Scenario.demo_message Scenario.demo_channel
             Scenario.demo_world).2
    = trace Scenario.demo_world
      ++ [EvLedgerLookup h; EvDownload Scenario.demo_message] ++ rest
    /\ Forall after_download rest.
Proof.
  exact (proj1 (proj2 (proj2
           (proj1 (proj2
              (checks_precede_download Scenario.demo_env
                 (Scenario.demo_transport (fun _ => SendOk)) 1
                 Scenario.demo_message Scenario.demo_channel
                 Scenario.demo_world))
              Scenario.demo_document eq_refl eq_refl))) eq_refl).
Defined.

(** ** Duplicates *)

Lemma bind_inv_return {A B} (m : M A) (k : A -> M B) (w w' : World) (b : B) :
  (m ≫= k) w = (Return b, w') ->
  exists a w1, m w = (Return a, w1) /\ k a w1 = (Return b, w').
Proof.
  unfold mbind, M_bind, bind. destruct (m w) as [[a|err|] w1]; try done.
  intros H. by exists a, w1.
Qed.

Lemma try_inv_return {A} (m : M A) (h : exn -> M A) (w w' : World) (a : A) :
  try_except m h w = (Return a, w') ->
  m w = (Return a, w')
  \/ exists err w1, m w = (Raise err, w1) /\ h err w1 = (Return a, w').
Proof.
  unfold try_except. destruct (m w) as [[a0|err|] w1]; try done.
  - intros H. by left.
  - intros H. right. by exists err, w1.
Qed.

Lemma save_processed_file_return_inv (F : pystr) (row : ProcessedFile)
    (w w' : World) :
  DatabaseManager.save_processed_file F row w = (Return tt, w') ->
  processed_files w' !! F = Some row.
Proof.
  destruct (processed_files w !! F) as [r0|] eqn:Hl.
  - by rewrite (save_processed_file_existing _ _ _ _ Hl).
  - rewrite (save_processed_file_fresh _ _ _ Hl). intros [= <-].
    simpl. apply lookup_insert_eq.
Qed.

Lemma main_send_true_records (e : Config.Environ) (T : Transport)
    (fuel : nat) (path name : pystr) (size : Z) (chan : option pystr)
    (msg : Message) (d : Document) (w w' : World) :
  msg_media msg = Some (MessageMediaDocument (Some d)) ->
  AdvancedTelegramMonitor.send_file_with_new_name e T fuel path name size
    chan msg w = (Return true, w') ->
  is_Some (processed_files w' !! AdvancedTelegramMonitor.document_hash d).
Proof.
  intros Hm. revert w. induction fuel as [|fuel IH]; intros w; [done |].
  cbn [AdvancedTelegramMonitor.send_file_with_new_name]. intros Hrun.
  apply try_inv_return in Hrun as [Hb | (err & w1 & _ & Hh)].
  - apply bind_inv_return in Hb as (n & w1 & _ & Hb). cbv zeta in Hb.
    apply bind_inv_return in Hb as (data & w2 & _ & Hb).
    apply bind_inv_return in Hb as (t & w3 & _ & Hb).
    apply bind_inv_return in Hb as ([] & w4 & _ & Hb).
    rewrite Hm in Hb.
    apply bind_inv_return in Hb as (h & w5 & Hh & Hb).
    injection Hh as <- <-.
    apply bind_inv_return in Hb as ([] & w6 & Hsave & Hb).
    apply save_processed_file_return_inv in Hsave.
    apply bind_inv_return in Hb as ([] & w7 & Hlog & Hb).
    rewrite log_activity_run in Hlog. injection Hlog as <-.
    injection Hb as <-. simpl. by rewrite Hsave.
  - destruct err;
      try (apply bind_inv_return in Hh as ([] & w2 & _ & Hh); discriminate).
    apply bind_inv_return in Hh as ([] & w2 & _ & Hh). by apply IH in Hh.
Qed.

Lemma main_process_true_records (e : Config.Environ) (T : Transport)
    (fuel : nat) (m : Message) (ch : Channel) (d : Document) (w w' : World) :
  document_of m = Some d ->
  AdvancedTelegramMonitor.process_message e T fuel m ch w = (Return true, w') ->
  is_Some (processed_files w' !! AdvancedTelegramMonitor.document_hash d).
Proof.
  intros Hd Hrun. unfold document_of in Hd.
  destruct (msg_media m) as [[[d'|]|]|] eqn:Hm; try done.
  injection Hd as ->.
  unfold AdvancedTelegramMonitor.process_message in Hrun. rewrite Hm in Hrun.
  apply try_inv_return in Hrun as [Hb | (err & w1 & _ & Hh)].
  2: { apply bind_inv_return in Hh as ([] & w2 & _ & Hh). discriminate. }
  apply bind_inv_return in Hb as (attrs & w1 & Ha & Hb).
  injection Ha as <- <-.
  destruct (extract_filename (doc_attributes d)) as [[|c n]|]; try done.
  destruct (negb _); [done |].
  apply bind_inv_return in Hb as (h & w2 & Hh & Hb). injection Hh as <- <-.
  apply bind_inv_return in Hb as (processed & w3 & _ & Hb).
  destruct processed; [done |].
  apply bind_inv_return in Hb as (dr & w4 & _ & Hb).
  destruct dr as [[[file_path original_name] file_size]|]; [| done].
  apply bind_inv_return in Hb as (success & w5 & Hsend & Hb).
  apply bind_inv_return in Hb as ([] & w6 & Hrm & Hb).
  injection Hrm as <-. injection Hb as -> <-.
  simpl. by eapply main_send_true_records.
Qed.

Lemma clean_process_true_records (e : Config.Environ) (T : Transport)
    (fuel : nat) (m : Message) (ch : Channel) (d : Document) (w w' : World) :
  document_of m = Some d ->
  CleanFileMonitor.process_message e T fuel m ch w = (Return true, w') ->
  is_Some (clean_processed_files w' !! CleanFileMonitor.get_file_hash d).
Proof.
  intros Hd Hrun. unfold document_of in Hd.
  destruct (msg_media m) as [[[d'|]|]|] eqn:Hm; try done.
  injection Hd as ->.
  unfold CleanFileMonitor.process_message in Hrun. rewrite Hm in Hrun.
  apply try_inv_return in Hrun as [Hb | (err & w1 & _ & Hh)]; [| done].
  apply bind_inv_return in Hb as (attrs & w1 & Ha & Hb).
  injection Ha as <- <-.
  destruct (extract_filename (doc_attributes d)) as [[|c n]|]; try done.
  destruct (negb _); [done |].
  apply bind_inv_return in Hb as (processed & w3 & _ & Hb).
  destruct processed; [done |].
  apply bind_inv_return in Hb as (dr & w4 & _ & Hb).
  destruct dr as [path|]; [| done].
  apply bind_inv_return in Hb as (success & w5 & _ & Hb).
  destruct success; [| done].
  apply bind_inv_return in Hb as ([] & w6 & Hmark & Hb).
  injection Hb as <-.
  unfold CleanFileMonitor.mark_file_as_processed in Hmark.
  apply bind_inv_return in Hmark as ([] & w7 & _ & Hmark).
  injection Hmark as <-. simpl. rewrite lookup_insert_eq. by eexists.
Qed.

(** C6, as the code has it.  In [clean_monitor.py] two documents with the
    same remote id and the same size have the same fingerprint; in
    [main.py] the fingerprint also holds the date of the document, so they
    have the same fingerprint when the dates agree as well.  In both, once
    the first message was relayed, a later message that carries a document
    with the same fingerprint is found in the ledger and skipped: the run
    consists of the lookup alone and returns [False]. *)
Theorem same_fingerprint_relayed_once
    (e : Config.Environ) (T T' : Transport) (fuel fuel' : nat)
    (m1 m2 : Message) (ch ch' : Channel) (d1 d2 : Document)
    (w w1 w2 : World) :
  document_of m1 = Some d1 ->
  document_of m2 = Some d2 ->
  doc_id d1 = doc_id d2 ->
  doc_size d1 = doc_size d2 ->
  passes_extension_check e m2 = true ->
  (CleanFileMonitor.get_file_hash d1 = CleanFileMonitor.get_file_hash d2
   /\ (CleanFileMonitor.process_message e T fuel m1 ch w = (Return true, w1) ->
       clean_processed_files w1 ⊆ clean_processed_files w2 ->
       CleanFileMonitor.process_message e T' fuel' m2 ch' w2
       = (Return false,
          set_trace
            (trace w2 ++ [EvLedgerLookup (CleanFileMonitor.get_file_hash d2)])
            w2)))
  /\ (doc_date d1 = doc_date d2 ->
      AdvancedTelegramMonitor.document_hash d1
      = AdvancedTelegramMonitor.document_hash d2
      /\ (AdvancedTelegramMonitor.process_message e T fuel m1 ch w
          = (Return true, w1) ->
          processed_files w1 ⊆ processed_files w2 ->
          AdvancedTelegramMonitor.process_message e T' fuel' m2 ch' w2
          = (Return false,
             set_trace
               (trace w2
                ++ [EvLedgerLookup (AdvancedTelegramMonitor.document_hash d2)])
               w2))).
Proof.
  intros Hd1 Hd2 Hid Hsize Hp.
  assert (CleanFileMonitor.get_file_hash d1 = CleanFileMonitor.get_file_hash d2)
    as Hc by (unfold CleanFileMonitor.get_file_hash; by rewrite Hid, Hsize).
  split.
  - split; [done |]. intros Hrun Hsub.
    apply (clean_duplicate e T' fuel' m2 ch' w2 d2 Hp Hd2).
    destruct (clean_process_true_records e T fuel m1 ch d1 w w1 Hd1 Hrun)
      as [r Hr].
    exists r. rewrite <- Hc. by eapply lookup_weaken.
  - intros Hdate.
    assert (AdvancedTelegramMonitor.document_hash d1
            = AdvancedTelegramMonitor.document_hash d2) as Hh
      by (unfold AdvancedTelegramMonitor.document_hash;
          by rewrite Hid, Hsize, Hdate).
    split; [done |]. intros Hrun Hsub.
    apply (main_duplicate e T' fuel' m2 ch' w2 d2 Hp Hd2).
    destruct (main_process_true_records e T fuel m1 ch d1 w w1 Hd1 Hrun)
      as [r Hr].
    exists r. rewrite <- Hh. by eapply lookup_weaken.
Qed.

Lemma same_fingerprint_relayed_once_witness :
  let T := Scenario.demo_transport (fun _ => SendOk) in
  exists w1,
    AdvancedTelegramMonitor.process_message Scenario.demo_env T 1
      Scenario.demo_message Scenario.demo_channel Scenario.demo_world
    = (Return true, w1)
    /\ AdvancedTelegramMonitor.process_message Scenario.demo_env T 1
         Scenario.demo_repost Scenario.demo_channel w1
       = (Return false,
          set_trace (trace w1 ++ [EvLedgerLookup (str "7_3_1700000000.0")])
            w1).
Proof.
  intros T.
  assert (exists w1,
            AdvancedTelegramMonitor.process_message Scenario.demo_env T 1
              Scenario.demo_message Scenario.demo_channel Scenario.demo_world
            = (Return true, w1)) as [w1 Hrun].
  { eexists. vm_compute. reflexivity. }
  exists w1. split; [exact Hrun |].
  exact (proj2 (proj2 (same_fingerprint_relayed_once Scenario.demo_env T T 1 1
                         Scenario.demo_message Scenario.demo_repost
                         Scenario.demo_channel Scenario.demo_channel
                         Scenario.demo_document Scenario.demo_document
                         Scenario.demo_world w1 w1
                         eq_refl eq_refl eq_refl eq_refl eq_refl) eq_refl)
           Hrun (reflexivity _)).
Defined.

(** C6 as the claim states it fails in [main.py]: two documents with the
    same remote id and the same size but different dates have different
    fingerprints, and both messages are relayed. *)
Lemma same_id_and_size_relayed_twice :
  let T := Scenario.demo_transport (fun _ => SendOk) in
  let d1 := Scenario.demo_document in
  let d2 := Scenario.demo_later_document in
  doc_id d1 = doc_id d2
  /\ doc_size d1 = doc_size d2
  /\ AdvancedTelegramMonitor.document_hash d1
     <> AdvancedTelegramMonitor.document_hash d2
  /\ exists w',
       AdvancedTelegramMonitor.process_messages Scenario.demo_env T 1
         [Scenario.demo_message; Scenario.demo_later_message]
         Scenario.demo_channel 0 Scenario.demo_world
       = (Return 2, w')
       /\ filter (fun ev => Scenario.is_publish ev = true) (trace w')
          = [EvPublish (Scenario.main_publish Scenario.demo_env
                          (str "a.npvt") 3 Scenario.demo_data 1 1000);
             EvPublish (Scenario.main_publish Scenario.demo_env
                          (str "a.npvt") 3 Scenario.demo_data 2 1003)].
Proof.
  intros T d1 d2. split; [done |]. split; [done |].
  split; [by vm_compute |].
  eexists. split; [vm_compute; reflexivity |]. vm_compute. reflexivity.
Qed.

(** * Further properties of the pipelines *)

(** ** Parts of the world that a computation leaves alone *)

Lemma stable_ret {A B} (f : World -> B) (a : A) : stable f (mret a).
Proof. by intros w. Qed.

Lemma stable_raise {A B} (f : World -> B) (e : exn) : stable f (@raise A e).
Proof. by intros w. Qed.

Lemma stable_out_of_fuel {A B} (f : World -> B) : stable f (@out_of_fuel A).
Proof. by intros w. Qed.

Lemma stable_bind {A A' B} (f : World -> B) (m : M A) (k : A -> M A') :
  stable f m -> (forall a, stable f (k a)) -> stable f (m ≫= k).
Proof.
  intros Hm Hk w. specialize (Hm w).
  unfold mbind, M_bind, bind. destruct (m w) as [[a|err|] w1]; simpl in *;
    [| done | done].
  by rewrite (Hk a w1).
Qed.

Lemma stable_try {A B} (f : World -> B) (m : M A) (h : exn -> M A) :
  stable f m -> (forall err, stable f (h err)) -> stable f (try_except m h).
Proof.
  intros Hm Hh w. specialize (Hm w).
  unfold try_except. destruct (m w) as [[a|err|] w1]; simpl in *;
    [done | | done].
  by rewrite (Hh err w1).
Qed.

Lemma stable_if {A B} (f : World -> B) (b : bool) (m1 m2 : M A) :
  stable f m1 -> stable f m2 -> stable f (if b then m1 else m2).
Proof. by destruct b. Qed.

Lemma stable_read_file {B} (f : World -> B) (path : pystr) :
  stable f (read_file path).
Proof. intros w. unfold read_file. by destruct (files w !! path). Qed.

Lemma stable_now {B} (f : World -> B) : stable f now.
Proof. by intros w. Qed.

Lemma stable_get_file_hash {B} (f : World -> B) (document : option Document) :
  stable f (AdvancedTelegramMonitor.get_file_hash document).
Proof. by destruct document. Qed.

Lemma stable_emit {B} (f : World -> B) (ev : Event) :
  (forall t w, f (set_trace t w) = f w) -> stable f (emit ev).
Proof. intros H w. apply H. Qed.

Lemma stable_publish {B} (f : World -> B) (T : Transport) (ev : Event) :
  (forall t w, f (set_trace t w) = f w) ->
  (forall n w, f (set_publish_calls n w) = f w) ->
  stable f (publish T ev).
Proof. intros H1 H2 w. rewrite publish_run. simpl. by rewrite H2, H1. Qed.

Lemma stable_sleep {B} (f : World -> B) (s : Z) :
  (forall t w, f (set_trace t w) = f w) ->
  (forall t w, f (set_clock t w) = f w) ->
  stable f (sleep s).
Proof. intros H1 H2 w. rewrite sleep_run. simpl. by rewrite H2, H1. Qed.

Lemma stable_log_activity {B} (f : World -> B) (action details : pystr) :
  (forall t w, f (set_trace t w) = f w) ->
  (forall t w, f (set_activity_log t w) = f w) ->
  stable f (DatabaseManager.log_activity action details).
Proof. intros H1 H2 w. rewrite log_activity_run. simpl. by rewrite H2, H1. Qed.

Lemma stable_get_next_sequence_number {B} (f : World -> B) (name : pystr) :
  (forall t w, f (set_trace t w) = f w) ->
  (forall t w, f (set_counters t w) = f w) ->
  stable f (DatabaseManager.get_next_sequence_number name).
Proof.
  intros H1 H2 w. destruct (counters w !! name) as [c|] eqn:Hc.
  - rewrite (get_next_sequence_number_run _ _ _ Hc). simpl. by rewrite H1, H2.
  - rewrite (get_next_sequence_number_missing _ _ Hc). simpl. by rewrite H1.
Qed.


Lemma stable_is_file_processed {B} (f : World -> B) (F : pystr) :
  (forall t w, f (set_trace t w) = f w) ->
  stable f (DatabaseManager.is_file_processed F).
Proof. intros H1 w. rewrite is_file_processed_run. simpl. by rewrite H1. Qed.

Lemma stable_download {B} (f : World -> B) (T : Transport) (m : Message) :
  (forall t w, f (set_trace t w) = f w) ->
  (forall t w, f (set_files t w) = f w) ->
  stable f (download T m).
Proof.
  intros H1 H2 w. unfold download. run_m. simpl.
  destruct (download_media T m); simpl; by rewrite ?H2, ?H1.
Qed.

Lemma stable_remove_if_exists {B} (f : World -> B) (path : pystr) :
  (forall t w, f (set_files t w) = f w) ->
  stable f (remove_if_exists path).
Proof. intros H w. apply H. Qed.


(** ** Pre- and postconditions *)

Lemma triple_ret {A} (P : World -> Prop) (a : A)
    (Q : outcome A -> World -> Prop) :
  (forall w, P w -> Q (Return a) w) -> triple P (mret a) Q.
Proof. intros H w Hw. by apply H. Qed.

Lemma triple_conseq {A} (P P' : World -> Prop) (m : M A)
    (Q Q' : outcome A -> World -> Prop) :
  triple P' m Q' -> (forall w, P w -> P' w) ->
  (forall o w, Q' o w -> Q o w) -> triple P m Q.
Proof. intros H HP HQ w Hw. by apply HQ, H, HP. Qed.

Lemma triple_bind {A B} (P : World -> Prop) (m : M A) (k : A -> M B)
    (Q : outcome B -> World -> Prop) (R : A -> World -> Prop) :
  triple P m (fun o w => match o with
                         | Return a => R a w
                         | Raise err => Q (Raise err) w
                         | OutOfFuel => Q OutOfFuel w
                         end) ->
  (forall a, triple (R a) (k a) Q) ->
  triple P (m ≫= k) Q.
Proof.
  intros Hm Hk w Hw. specialize (Hm w Hw).
  unfold mbind, M_bind, bind. destruct (m w) as [[a|err|] w1]; simpl in *;
    [| done | done].
  by apply Hk.
Qed.

Lemma triple_try {A} (P : World -> Prop) (m : M A) (h : exn -> M A)
    (Q : outcome A -> World -> Prop) (R : exn -> World -> Prop) :
  triple P m (fun o w => match o with
                         | Return a => Q (Return a) w
                         | Raise err => R err w
                         | OutOfFuel => Q OutOfFuel w
                         end) ->
  (forall err, triple (R err) (h err) Q) ->
  triple P (try_except m h) Q.
Proof.
  intros Hm Hh w Hw. specialize (Hm w Hw).
  unfold try_except. destruct (m w) as [[a|err|] w1]; simpl in *;
    [done | | done].
  by apply Hh.
Qed.

(** A computation that leaves [f] alone keeps every property of [f]. *)
Lemma triple_stable {A B} (f : World -> B) (m : M A) (S : B -> Prop) :
  stable f m -> triple (fun w => S (f w)) m (fun _ w => S (f w)).
Proof. intros H w Hw. simpl. by rewrite H. Qed.

Lemma triple_stable_bind {A A' B} (f : World -> B) (m : M A)
    (k : A -> M A') (S : B -> Prop) (Q : outcome A' -> World -> Prop) :
  stable f m ->
  (forall err w, S (f w) -> Q (Raise err) w) ->
  (forall w, S (f w) -> Q OutOfFuel w) ->
  (forall a, triple (fun w => S (f w)) (k a) Q) ->
  triple (fun w => S (f w)) (m ≫= k) Q.
Proof.
  intros Hm Hr Ho Hk.
  apply (triple_bind _ _ _ _ (fun _ w => S (f w))); [| done].
  intros w Hw. pose proof (triple_stable f m S Hm w Hw) as H. simpl in H.
  destruct (m w).1; auto.
Qed.

Lemma triple_stable_bind_total {A A' B} (f : World -> B) (m : M A)
    (k : A -> M A') (S : B -> Prop) (Q : outcome A' -> World -> Prop) :
  stable f m -> always_returns m ->
  (forall a, triple (fun w => S (f w)) (k a) Q) ->
  triple (fun w => S (f w)) (m ≫= k) Q.
Proof.
  intros Hm Hr Hk.
  apply (triple_bind _ _ _ _ (fun _ w => S (f w))); [| done].
  intros w Hw. pose proof (triple_stable f m S Hm w Hw) as H. simpl in H.
  destruct (Hr w) as [a Ha]. by rewrite Ha.
Qed.

Lemma sleep_always_returns (s : Z) : always_returns (sleep s).
Proof. intros w. by exists tt. Qed.

Lemma log_activity_always_returns (action details : pystr) :
  always_returns (DatabaseManager.log_activity action details).
Proof. intros w. by exists tt. Qed.

(** ** main.py: a relay adds exactly one ledger entry *)

Lemma save_processed_file_triple (F : pystr) (row : ProcessedFile)
    (L : gmap pystr ProcessedFile) :
  triple (fun w => processed_files w = L)
    (DatabaseManager.save_processed_file F row)
    (fun o w' =>
       match o with
       | Return _ => L !! F = None /\ processed_files w' = <[F := row]> L
       | Raise _ => processed_files w' = L
       | OutOfFuel => False
       end).
Proof.
  intros w <-. destruct (processed_files w !! F) as [r0|] eqn:Hl.
  - by rewrite (save_processed_file_existing _ _ _ _ Hl).
  - by rewrite (save_processed_file_fresh _ _ _ Hl).
Qed.

Lemma main_send_ledger (e : Config.Environ) (T : Transport) (fuel : nat)
    (path name : pystr) (size : Z) (chan : option pystr) (msg : Message)
    (L : gmap pystr ProcessedFile) :
  triple (fun w => processed_files w = L)
    (AdvancedTelegramMonitor.send_file_with_new_name e T fuel path name size
       chan msg)
    (fun o w' => main_relay_outcome msg name L o (processed_files w')).
Proof.
  induction fuel as [|fuel IH]; [by intros w Hw |].
  cbn [AdvancedTelegramMonitor.send_file_with_new_name].
  apply (triple_try _ _ _ _ (fun _ w => processed_files w = L)).
  - apply (triple_stable_bind processed_files _ _ (fun x => x = L));
      [by apply stable_get_next_sequence_number | done | done | intros n].
    cbv zeta.
    apply (triple_stable_bind processed_files _ _ (fun x => x = L));
      [apply stable_read_file | done | done | intros data].
    apply (triple_stable_bind processed_files _ _ (fun x => x = L));
      [apply stable_now | done | done | intros t].
    apply (triple_stable_bind processed_files _ _ (fun x => x = L));
      [by apply stable_publish | done | done | intros _].
    apply (triple_bind _ _ _ _
             (fun h w => processed_files w = L
                /\ forall d,
                     msg_media msg = Some (MessageMediaDocument (Some d)) ->
                     h = AdvancedTelegramMonitor.document_hash d)).
    { intros w Hw. destruct (msg_media msg) as [[[d|]|]|]; simpl;
        (split; [done |]); try done. by intros d' [= ->]. }
    intros h.
    apply (triple_bind _ _ _ _
             (fun _ w => exists row,
                L !! h = None /\ processed_files w = <[h := row]> L
                /\ original_filename row = name
                /\ forall d,
                     msg_media msg = Some (MessageMediaDocument (Some d)) ->
                     h = AdvancedTelegramMonitor.document_hash d)).
    { intros w [Hw Hh].
      pose proof (save_processed_file_triple h
                    {| original_filename := name;
                       new_filename :=
                         generate_new_filename (FileNamer.init e None None)
                           name n;
                       sequence_number := n; channel_username := chan;
                       file_size := size |} L w Hw) as Hs.
      simpl in Hs.
      destruct (DatabaseManager.save_processed_file _ _ w).1; [| done | done].
      destruct Hs as [? ?]. eexists. done. }
    intros _.
    apply (triple_bind _ _ _ _
             (fun _ w => exists row,
                L !! h = None /\ processed_files w = <[h := row]> L
                /\ original_filename row = name
                /\ forall d,
                     msg_media msg = Some (MessageMediaDocument (Some d)) ->
                     h = AdvancedTelegramMonitor.document_hash d)).
    { intros w Hw. by rewrite log_activity_run. }
    intros _. apply triple_ret. intros w (row & ? & ? & ? & ?).
    simpl. by exists h, row.
  - intros err. destruct err;
      try (apply (triple_stable_bind_total processed_files _ _
                    (fun x => x = L));
           [by apply stable_log_activity | apply log_activity_always_returns
           | intros _];
           by apply triple_ret).
    apply (triple_stable_bind_total processed_files _ _ (fun x => x = L));
      [by apply stable_sleep | apply sleep_always_returns | intros _].
    apply IH.
Qed.

Lemma main_download_file_result (T : Transport) (m : Message) (d : Document)
    (c : ascii) (n : pystr) (w : World) :
  msg_media m = Some (MessageMediaDocument (Some d)) ->
  extract_filename (doc_attributes d) = Some (c :: n) ->
  exists w',
    AdvancedTelegramMonitor.download_file T m w
    = (Return (match download_media T m with
               | Downloaded path data =>
                   Some (path, c :: n, Z.of_nat (length data))
               | _ => None
               end), w')
    /\ processed_files w' = processed_files w
    /\ counters w' = counters w
    /\ files w' = match download_media T m with
                  | Downloaded path data => <[path := data]> (files w)
                  | _ => files w
                  end.
Proof.
  intros Hm Hf. unfold AdvancedTelegramMonitor.download_file.
  rewrite Hm. erewrite try_bind_return; [| reflexivity]. rewrite Hf.
  unfold download. run_m. simpl.
  destruct (download_media T m); eexists; (split; [reflexivity | done]).
Qed.

Lemma main_process_message_effect (e : Config.Environ) (T : Transport)
    (fuel : nat) (m : Message) (ch : Channel) (w : World) :
  main_process_outcome e m (processed_files w)
    (AdvancedTelegramMonitor.process_message e T fuel m ch w).1
    (processed_files
       (AdvancedTelegramMonitor.process_message e T fuel m ch w).2).
Proof.
  unfold AdvancedTelegramMonitor.process_message.
  destruct (msg_media m) as [[[d|]|]|] eqn:Hm; try done.
  erewrite try_bind_return; [| reflexivity].
  destruct (extract_filename (doc_attributes d)) as [[|c n]|] eqn:Hf;
    try done.
  destruct (Config.has_target_extension e (c :: n)) eqn:He; cbn [negb];
    [| done].
  erewrite try_bind_return; [| reflexivity].
  erewrite try_bind_return; [| apply is_file_processed_run].
  destruct (processed_files w !! AdvancedTelegramMonitor.document_hash d)
    as [r0|] eqn:Hl; [done |].
  cbn [bool_decide decide_rel is_Some_dec decide].
  destruct (main_download_file_result T m d c n
              (set_trace
                 (trace w
                  ++ [EvLedgerLookup (AdvancedTelegramMonitor.document_hash d)])
                 w) Hm Hf) as (w2 & Hdl & Hpf & _).
  erewrite try_bind_return; [| exact Hdl]. simpl in Hpf.
  destruct (download_media T m) as [path data| |]; [| by simpl | by simpl].
  pose proof (main_send_ledger e T fuel path (c :: n)
                (Z.of_nat (length data)) (ch_username ch) m
                (processed_files w2) w2 eq_refl) as Hs.
  unfold try_except, mbind, M_bind, bind.
  destruct (AdvancedTelegramMonitor.send_file_with_new_name e T fuel path
              (c :: n) (Z.of_nat (length data)) (ch_username ch) m w2)
    as [[b|err|] w3]; simpl in Hs |- *; [| done | by rewrite Hs].
  destruct b; [| by rewrite Hs].
  destruct Hs as (h & row & Hnone & Hins & Hname & Hh).
  rewrite (Hh d Hm) in *. rewrite Hpf in *.
  exists d, row. unfold document_of, passes_extension_check, filename_of,
    document_of. rewrite Hm, Hf, He, Hname. done.
Qed.

(** X1 (main.py, [process_message]): whatever the message, the fuel and
    the answers of the transport, a call never raises.  When it returns
    [True] the message has a document and a file name that passes the
    extension check, the ledger had no row under the hash of that document,
    and the ledger after the call is the ledger before it with one row
    more, under that hash, holding the file name of the message.  In every
    other case the ledger is as it was. *)
Theorem main_process_message_ledger (e : Config.Environ) (T : Transport)
    (fuel : nat) (m : Message) (ch : Channel) (w : World) :
  main_process_outcome e m (processed_files w)
    (AdvancedTelegramMonitor.process_message e T fuel m ch w).1
    (processed_files
       (AdvancedTelegramMonitor.process_message e T fuel m ch w).2).
Proof. apply main_process_message_effect. Qed.

(** ** main.py: what a channel scan and a cycle return *)

Lemma main_process_messages_count (e : Config.Environ) (T : Transport)
    (fuel : nat) (ch : Channel) (messages : list Message) :
  forall (n0 n : Z) (w w' : World),
  AdvancedTelegramMonitor.process_messages e T fuel messages ch n0 w
  = (Return n, w') ->
  processed_files w ⊆ processed_files w'
  /\ Z.of_nat (size (processed_files w'))
     = Z.of_nat (size (processed_files w)) + (n - n0)
  /\ n0 <= n <= n0 + Z.of_nat (length messages).
Proof.
  induction messages as [|m rest IH]; intros n0 n w w' Hrun.
  - injection Hrun as <- <-. split; [done |]. simpl. lia.
  - cbn [AdvancedTelegramMonitor.process_messages] in Hrun.
    apply bind_inv_return in Hrun as (sent & w1 & Hpm & Hrun).
    pose proof (main_process_message_effect e T fuel m ch w) as Hl.
    rewrite Hpm in Hl. simpl in Hl. destruct sent.
    + destruct Hl as (d & row & _ & _ & Hnone & Hins & _).
      apply bind_inv_return in Hrun as ([] & w2 & Hs & Hrun).
      rewrite sleep_run in Hs. injection Hs as <-.
      apply IH in Hrun as (Hsub & Hsize & Hn). simpl in Hsub, Hsize.
      rewrite Hins in Hsub, Hsize.
      rewrite map_size_insert_None in Hsize by done.
      split; [| split].
      * etrans; [| exact Hsub]. by apply insert_subseteq.
      * lia.
      * cbn [length]. lia.
    + apply IH in Hrun as (Hsub & Hsize & Hn). rewrite Hl in Hsub, Hsize.
      split; [done |]. split; [lia |]. cbn [length]. lia.
Qed.

Lemma main_check_channel_effect (e : Config.Environ) (T : Transport)
    (fuel : nat) (channel_username : pystr) (n : Z) (w w' : World) :
  AdvancedTelegramMonitor.check_channel e T fuel channel_username w
  = (Return n, w') ->
  processed_files w ⊆ processed_files w'
  /\ Z.of_nat (size (processed_files w'))
     = Z.of_nat (size (processed_files w)) + n
  /\ match get_entity T channel_username with
     | EntityFound channel =>
         0 <= n <= Z.of_nat (length (get_messages T channel))
     | _ => n = 0 /\ w' = w
     end.
Proof.
  unfold AdvancedTelegramMonitor.check_channel.
  destruct (get_entity T channel_username) as [channel| |].
  - intros Hrun.
    apply main_process_messages_count in Hrun as (Hsub & Hsize & Hn).
    split; [done |]. split; lia.
  - intros [= <- <-]. split; [done |]. split; [lia | done].
  - intros [= <- <-]. split; [done |]. split; [lia | done].
Qed.

(** X2 (main.py, [check_channel]): when a call returns [n], the ledger
    has kept every row it had and has exactly [n] rows more; [n] is at most
    the number of messages read from the channel, and for a channel that
    cannot be resolved [n] is 0 and nothing at all has changed. *)
Theorem main_check_channel_count (e : Config.Environ) (T : Transport)
    (fuel : nat) (channel_username : pystr) (n : Z) (w w' : World) :
  AdvancedTelegramMonitor.check_channel e T fuel channel_username w
  = (Return n, w') ->
  processed_files w ⊆ processed_files w'
  /\ Z.of_nat (size (processed_files w'))
     = Z.of_nat (size (processed_files w)) + n
  /\ match get_entity T channel_username with
     | EntityFound channel =>
         0 <= n <= Z.of_nat (length (get_messages T channel))
     | _ => n = 0 /\ w' = w
     end.
Proof. apply main_check_channel_effect. Qed.

Lemma main_check_channel_count_witness :
  let T := Scenario.demo_transport (fun _ => SendOk) in
  exists w',
    AdvancedTelegramMonitor.check_channel Scenario.demo_env T 1
      (str "source") Scenario.demo_world = (Return 1, w')
    /\ processed_files Scenario.demo_world ⊆ processed_files w'
    /\ Z.of_nat (size (processed_files w'))
       = Z.of_nat (size (processed_files Scenario.demo_world)) + 1.
Proof.
  intros T.
  assert (exists w',
            AdvancedTelegramMonitor.check_channel Scenario.demo_env T 1
              (str "source") Scenario.demo_world = (Return 1, w'))
    as [w' Hrun].
  { eexists. vm_compute. reflexivity. }
  exists w'. split; [exact Hrun |].
  pose proof (main_check_channel_count Scenario.demo_env T 1 (str "source")
                1 Scenario.demo_world w' Hrun) as (H1 & H2 & _).
  split; [exact H1 | exact H2].
Defined.

Lemma main_cycle_channels_count (e : Config.Environ) (T : Transport)
    (fuel : nat) (source_channels remaining : list pystr) :
  forall (t0 t : Z) (w w' : World),
  AdvancedTelegramMonitor.cycle_channels e T fuel source_channels remaining
    t0 w = (Return t, w') ->
  processed_files w ⊆ processed_files w'
  /\ Z.of_nat (size (processed_files w'))
     = Z.of_nat (size (processed_files w)) + (t - t0).
Proof.
  induction remaining as [|channel rest IH]; intros t0 t w w' Hrun.
  - injection Hrun as <- <-. split; [done | lia].
  - cbn [AdvancedTelegramMonitor.cycle_channels] in Hrun.
    apply bind_inv_return in Hrun as (sent & w1 & Hch & Hrun).
    apply main_check_channel_effect in Hch as (Hsub1 & Hsize1 & _).
    apply bind_inv_return in Hrun as ([] & w2 & Hs & Hrun).
    assert (processed_files w2 = processed_files w1) as Hpf.
    { destruct (bool_decide _); [rewrite sleep_run in Hs |];
        by injection Hs as <-. }
    apply IH in Hrun as (Hsub & Hsize). rewrite Hpf in Hsub, Hsize.
    split; [by etrans | lia].
Qed.

(** X3 (main.py, [monitoring_cycle]): when a cycle returns [total], the
    ledger has kept every row it had and has exactly [total] rows more, and
    the last record of the activity log is [CYCLE_COMPLETE] with that
    number. *)
Theorem main_monitoring_cycle_count (e : Config.Environ) (T : Transport)
    (fuel : nat) (source_channels : list pystr) (total : Z) (w w' : World) :
  AdvancedTelegramMonitor.monitoring_cycle e T fuel source_channels w
  = (Return total, w') ->
  processed_files w ⊆ processed_files w'
  /\ Z.of_nat (size (processed_files w'))
     = Z.of_nat (size (processed_files w)) + total
  /\ last (activity_log w') = Some (str "CYCLE_COMPLETE", str_int total).
Proof.
  unfold AdvancedTelegramMonitor.monitoring_cycle. intros Hrun.
  apply bind_inv_return in Hrun as (t & w1 & Hc & Hrun).
  apply main_cycle_channels_count in Hc as (Hsub & Hsize).
  apply bind_inv_return in Hrun as ([] & w2 & Hlog & Hrun).
  rewrite log_activity_run in Hlog. injection Hlog as <-.
  injection Hrun as <- <-. simpl.
  split; [done |]. split; [lia |]. by rewrite last_snoc.
Qed.

Lemma main_monitoring_cycle_count_witness :
  let T := Scenario.demo_transport (fun _ => SendOk) in
  exists w',
    AdvancedTelegramMonitor.monitoring_cycle Scenario.demo_env T 1
      [str "source"] Scenario.demo_world = (Return 1, w')
    /\ processed_files Scenario.demo_world ⊆ processed_files w'
    /\ Z.of_nat (size (processed_files w'))
       = Z.of_nat (size (processed_files Scenario.demo_world)) + 1
    /\ last (activity_log w') = Some (str "CYCLE_COMPLETE", str_int 1).
Proof.
  intros T.
  assert (exists w',
            AdvancedTelegramMonitor.monitoring_cycle Scenario.demo_env T 1
              [str "source"] Scenario.demo_world = (Return 1, w'))
    as [w' Hrun].
  { eexists. vm_compute. reflexivity. }
  exists w'. split; [exact Hrun |].
  exact (main_monitoring_cycle_count Scenario.demo_env T 1 [str "source"]
           1 Scenario.demo_world w' Hrun).
Defined.

(** ** main.py: the ledger and the counter stay consistent *)

Lemma ledger_consistent_ext : on_counters_and_ledger ledger_consistent.
Proof. intros w w' Hc Hl (c & ? & ? & ?). exists c. by rewrite Hc, Hl. Qed.

Lemma number_reserved_ext (n : Z) : on_counters_and_ledger (number_reserved n).
Proof. intros w w' Hc Hl (? & ? & ?). unfold number_reserved. by rewrite Hc, Hl. Qed.

Lemma number_reserved_consistent (n : Z) (w : World) :
  number_reserved n w -> ledger_consistent w.
Proof.
  intros (Hc & Hlt & Hu). exists n. split; [done |]. split; [| done].
  intros h r Hr. specialize (Hlt h r Hr). lia.
Qed.

Lemma frame_bind {A A'} (P I : World -> Prop) (m : M A) (k : A -> M A') :
  stable counters m -> stable processed_files m ->
  on_counters_and_ledger P -> (forall w, P w -> I w) ->
  (forall a, triple P (k a) (fun _ w => I w)) ->
  triple P (m ≫= k) (fun _ w => I w).
Proof.
  intros Hc Hl Hext HPI Hk.
  apply (triple_bind _ _ _ _ (fun _ w => P w)); [| done].
  intros w Hw.
  assert (P (m w).2) as HP by (apply (Hext w); [apply Hc | apply Hl | done]).
  destruct (m w).1; auto.
Qed.

Lemma preserves_frame {A} (I : World -> Prop) (m : M A) :
  stable counters m -> stable processed_files m ->
  on_counters_and_ledger I -> preserves I m.
Proof. intros Hc Hl Hext w Hw. apply (Hext w); [apply Hc | apply Hl | done]. Qed.

Lemma preserves_bind {A A'} (I : World -> Prop) (m : M A) (k : A -> M A') :
  preserves I m -> (forall a, preserves I (k a)) -> preserves I (m ≫= k).
Proof.
  intros Hm Hk. apply (triple_bind _ _ _ _ (fun _ w => I w)); [| done].
  intros w Hw. specialize (Hm w Hw). simpl in Hm. by destruct (m w).1.
Qed.

Lemma preserves_try {A} (I : World -> Prop) (m : M A) (h : exn -> M A) :
  preserves I m -> (forall err, preserves I (h err)) ->
  preserves I (try_except m h).
Proof.
  intros Hm Hh. apply (triple_try _ _ _ _ (fun _ w => I w)); [| done].
  intros w Hw. specialize (Hm w Hw). simpl in Hm. by destruct (m w).1.
Qed.

Lemma preserves_ret {A} (I : World -> Prop) (a : A) : preserves I (mret a).
Proof. by intros w Hw. Qed.

Lemma get_next_reserves :
  triple ledger_consistent
    (DatabaseManager.get_next_sequence_number DatabaseManager.file_counter)
    (fun o w => match o with
                | Return n => number_reserved n w
                | _ => False
                end).
Proof.
  intros w (c & Hc & Hle & Hu).
  rewrite (get_next_sequence_number_run _ _ _ Hc). simpl.
  split; [apply lookup_insert_eq |]. split; [| done].
  intros h r Hr. specialize (Hle h r Hr). lia.
Qed.

Lemma save_reserved (n : Z) (h : pystr) (row : ProcessedFile) :
  sequence_number row = n ->
  triple (number_reserved n) (DatabaseManager.save_processed_file h row)
    (fun _ w => ledger_consistent w).
Proof.
  intros Hn w (Hc & Hlt & Hu).
  destruct (processed_files w !! h) as [r0|] eqn:Hl.
  - rewrite (save_processed_file_existing _ _ _ _ Hl). simpl.
    apply (number_reserved_consistent n). done.
  - rewrite (save_processed_file_fresh _ _ _ Hl). simpl.
    exists n. split; [done |]. simpl. split.
    + intros h' r. rewrite lookup_insert. case_decide.
      * intros [= <-]. lia.
      * intros Hr. specialize (Hlt h' r Hr). lia.
    + intros h1 h2 r1 r2. rewrite !lookup_insert.
      repeat case_decide; subst; try done.
      * intros [= <-] Hr2 Heq. specialize (Hlt h2 r2 Hr2). lia.
      * intros Hr1 [= <-] Heq. specialize (Hlt h1 r1 Hr1). lia.
      * apply Hu.
Qed.

Lemma main_send_consistent (e : Config.Environ) (T : Transport) (fuel : nat)
    (path name : pystr) (size : Z) (chan : option pystr) (msg : Message) :
  preserves ledger_consistent
    (AdvancedTelegramMonitor.send_file_with_new_name e T fuel path name size
       chan msg).
Proof.
  induction fuel as [|fuel IH]; [by intros w Hw |].
  cbn [AdvancedTelegramMonitor.send_file_with_new_name].
  apply preserves_try.
  - apply (triple_bind _ _ _ _ number_reserved).
    { intros w Hw. pose proof (get_next_reserves w Hw) as H. cbv beta in H.
      by destruct (DatabaseManager.get_next_sequence_number _ w).1. }
    intros n. cbv zeta.
    apply frame_bind;
      [apply stable_read_file | apply stable_read_file
      | apply number_reserved_ext | apply number_reserved_consistent |].
    intros data.
    apply frame_bind;
      [apply stable_now | apply stable_now
      | apply number_reserved_ext | apply number_reserved_consistent |].
    intros t.
    apply frame_bind;
      [by apply stable_publish | by apply stable_publish
      | apply number_reserved_ext | apply number_reserved_consistent |].
    intros _.
    apply frame_bind;
      [| | apply number_reserved_ext | apply number_reserved_consistent |].
    { destruct (msg_media msg) as [[doc|]|];
        [apply stable_get_file_hash | by intros w | by intros w]. }
    { destruct (msg_media msg) as [[doc|]|];
        [apply stable_get_file_hash | by intros w | by intros w]. }
    intros h.
    apply (triple_bind _ _ _ _ (fun _ w => ledger_consistent w)).
    { intros w Hw.
      pose proof (save_reserved n h
                    {| original_filename := name;
                       new_filename :=
                         generate_new_filename (FileNamer.init e None None)
                           name n;
                       sequence_number := n; channel_username := chan;
                       file_size := size |} eq_refl w Hw) as H.
      cbv beta in H.
      by destruct (DatabaseManager.save_processed_file _ _ w).1. }
    intros _.
    apply preserves_bind; [| intros _; apply preserves_ret].
    apply preserves_frame;
      [by apply stable_log_activity | by apply stable_log_activity
      | apply ledger_consistent_ext].
  - intros err. destruct err;
      try (apply preserves_bind; [| intros _; apply preserves_ret];
           apply preserves_frame;
           [by apply stable_log_activity | by apply stable_log_activity
           | apply ledger_consistent_ext]).
    apply preserves_bind; [| intros _; apply IH].
    apply preserves_frame;
      [by apply stable_sleep | by apply stable_sleep
      | apply ledger_consistent_ext].
Qed.

Lemma stable_attributes_of {B} (f : World -> B) (document : option Document) :
  stable f (AdvancedTelegramMonitor.attributes_of document).
Proof. by destruct document. Qed.

Lemma main_download_file_stable {B} (f : World -> B) (T : Transport)
    (m : Message) :
  (forall t w, f (set_trace t w) = f w) ->
  (forall t w, f (set_files t w) = f w) ->
  stable f (AdvancedTelegramMonitor.download_file T m).
Proof.
  intros H1 H2. unfold AdvancedTelegramMonitor.download_file.
  apply stable_try; [| intros err; apply stable_ret].
  destruct (msg_media m) as [[doc|]|]; try apply stable_ret.
  apply stable_bind; [apply stable_attributes_of | intros attrs].
  destruct (extract_filename attrs) as [[|c n]|]; try apply stable_ret.
  apply stable_bind; [by apply stable_download | intros dr].
  destruct dr as [[path size]|]; apply stable_ret.
Qed.

Lemma main_process_message_consistent (e : Config.Environ) (T : Transport)
    (fuel : nat) (m : Message) (ch : Channel) :
  preserves ledger_consistent
    (AdvancedTelegramMonitor.process_message e T fuel m ch).
Proof.
  unfold AdvancedTelegramMonitor.process_message.
  apply preserves_try.
  - destruct (msg_media m) as [[doc|]|]; try apply preserves_ret.
    apply preserves_bind.
    { apply preserves_frame;
        [apply stable_attributes_of | apply stable_attributes_of
        | apply ledger_consistent_ext]. }
    intros attrs.
    destruct (extract_filename attrs) as [[|c n]|]; try apply preserves_ret.
    destruct (negb _); [apply preserves_ret |].
    apply preserves_bind.
    { apply preserves_frame;
        [apply stable_get_file_hash | apply stable_get_file_hash
        | apply ledger_consistent_ext]. }
    intros h.
    apply preserves_bind.
    { apply preserves_frame;
        [by apply stable_is_file_processed | by apply stable_is_file_processed
        | apply ledger_consistent_ext]. }
    intros processed. destruct processed; [apply preserves_ret |].
    apply preserves_bind.
    { apply preserves_frame;
        [by apply main_download_file_stable
        | by apply main_download_file_stable
        | apply ledger_consistent_ext]. }
    intros dr. destruct dr as [[[path name] size]|]; [| apply preserves_ret].
    apply preserves_bind; [apply main_send_consistent | intros success].
    apply preserves_bind; [| intros _; apply preserves_ret].
    apply preserves_frame;
      [by apply stable_remove_if_exists | by apply stable_remove_if_exists
      | apply ledger_consistent_ext].
  - intros err.
    apply preserves_bind; [| intros _; apply preserves_ret].
    apply preserves_frame;
      [by apply stable_log_activity | by apply stable_log_activity
      | apply ledger_consistent_ext].
Qed.

Lemma main_process_messages_consistent (e : Config.Environ) (T : Transport)
    (fuel : nat) (ch : Channel) (messages : list Message) (n0 : Z) :
  preserves ledger_consistent
    (AdvancedTelegramMonitor.process_messages e T fuel messages ch n0).
Proof.
  revert n0. induction messages as [|m rest IH]; intros n0;
    [apply preserves_ret |].
  cbn [AdvancedTelegramMonitor.process_messages].
  apply preserves_bind; [apply main_process_message_consistent |].
  intros sent. destruct sent; [| apply IH].
  apply preserves_bind; [| intros _; apply IH].
  apply preserves_frame;
    [by apply stable_sleep | by apply stable_sleep
    | apply ledger_consistent_ext].
Qed.

Lemma main_check_channel_consistent (e : Config.Environ) (T : Transport)
    (fuel : nat) (channel_username : pystr) :
  preserves ledger_consistent
    (AdvancedTelegramMonitor.check_channel e T fuel channel_username).
Proof.
  unfold AdvancedTelegramMonitor.check_channel.
  destruct (get_entity T channel_username);
    [apply main_process_messages_consistent | apply preserves_ret
    | apply preserves_ret].
Qed.

Lemma main_cycle_channels_consistent (e : Config.Environ) (T : Transport)
    (fuel : nat) (source_channels remaining : list pystr) (t0 : Z) :
  preserves ledger_consistent
    (AdvancedTelegramMonitor.cycle_channels e T fuel source_channels
       remaining t0).
Proof.
  revert t0. induction remaining as [|channel rest IH]; intros t0;
    [apply preserves_ret |].
  cbn [AdvancedTelegramMonitor.cycle_channels].
  apply preserves_bind; [apply main_check_channel_consistent | intros sent].
  apply preserves_bind; [| intros _; apply IH].
  destruct (bool_decide _); [| apply preserves_ret].
  apply preserves_frame;
    [by apply stable_sleep | by apply stable_sleep
    | apply ledger_consistent_ext].
Qed.

(** X4 (main.py, [monitoring_cycle] over database.py): a ledger that
    agrees with its counter (the counter exists, no row is numbered above
    it, no two rows share a sequence number) still agrees with it after a
    cycle, however the cycle ends. *)
Theorem main_monitoring_cycle_consistent (e : Config.Environ)
    (T : Transport) (fuel : nat) (source_channels : list pystr) (w : World) :
  ledger_consistent w ->
  ledger_consistent
    (AdvancedTelegramMonitor.monitoring_cycle e T fuel source_channels w).2.
Proof.
  revert w. change (preserves ledger_consistent
                      (AdvancedTelegramMonitor.monitoring_cycle e T fuel
                         source_channels)).
  unfold AdvancedTelegramMonitor.monitoring_cycle.
  apply preserves_bind; [apply main_cycle_channels_consistent | intros total].
  apply preserves_bind; [| intros _; apply preserves_ret].
  apply preserves_frame;
    [by apply stable_log_activity | by apply stable_log_activity
    | apply ledger_consistent_ext].
Qed.

Lemma main_monitoring_cycle_consistent_witness :
  let T := Scenario.demo_transport (fun _ => SendOk) in
  ledger_consistent Scenario.demo_world
  /\ ledger_consistent
       (AdvancedTelegramMonitor.monitoring_cycle Scenario.demo_env T 1
          [str "source"] Scenario.demo_world).2.
Proof.
  intros T.
  assert (ledger_consistent Scenario.demo_world) as H0.
  { exists 0. split; [reflexivity |]. split.
    - intros h r Hr. simpl in Hr. by rewrite lookup_empty in Hr.
    - intros h1 h2 r1 r2 Hr. simpl in Hr. by rewrite lookup_empty in Hr. }
  split; [exact H0 |].
  exact (main_monitoring_cycle_consistent Scenario.demo_env T 1
           [str "source"] Scenario.demo_world H0).
Defined.

(** ** The temporary file *)



(** ** clean_monitor.py *)

Lemma clean_send_stable {B} (f : World -> B) (e : Config.Environ)
    (T : Transport) (fuel : nat) (path name : pystr) (chan : option pystr) :
  (forall t w, f (set_trace t w) = f w) ->
  (forall t w, f (set_publish_calls t w) = f w) ->
  (forall t w, f (set_clock t w) = f w) ->
  stable f (CleanFileMonitor.send_clean_file e T fuel path name chan).
Proof.
  intros Ht Hp Hc.
  induction fuel as [|fuel IH]; [apply stable_out_of_fuel |].
  cbn [CleanFileMonitor.send_clean_file].
  apply stable_try.
  - apply stable_bind; [apply stable_read_file | intros data].
    apply stable_bind; [apply stable_now | intros t].
    apply stable_bind; [by apply stable_publish | intros _].
    apply stable_ret.
  - intros err. destruct err; try apply stable_ret.
    apply stable_bind; [by apply stable_sleep | intros _]. apply IH.
Qed.

Lemma clean_download_file_result (T : Transport) (m : Message) (name : pystr)
    (w : World) :
  exists w',
    CleanFileMonitor.download_file T m name w
    = (Return (match download_media T m with
               | Downloaded path data => Some path
               | _ => None
               end), w')
    /\ clean_processed_files w' = clean_processed_files w
    /\ files w' = match download_media T m with
                  | Downloaded path data => <[path := data]> (files w)
                  | _ => files w
                  end.
Proof.
  unfold CleanFileMonitor.download_file, download. run_m. simpl.
  destruct (download_media T m); eexists; (split; [reflexivity | done]).
Qed.

Lemma clean_process_message_effect (e : Config.Environ) (T : Transport)
    (fuel : nat) (m : Message) (ch : Channel) (w : World) :
  clean_process_outcome e m ch (clean_processed_files w)
    (CleanFileMonitor.process_message e T fuel m ch w).1
    (clean_processed_files
       (CleanFileMonitor.process_message e T fuel m ch w).2).
Proof.
  unfold CleanFileMonitor.process_message.
  destruct (msg_media m) as [[[d|]|]|] eqn:Hm; try done.
  erewrite try_bind_return; [| reflexivity].
  destruct (extract_filename (doc_attributes d)) as [[|c n]|] eqn:Hf;
    try done.
  destruct (Config.has_target_extension e (c :: n)) eqn:He; cbn [negb];
    [| done].
  erewrite try_bind_return; [| apply clean_is_file_processed_run].
  destruct (clean_processed_files w !! CleanFileMonitor.get_file_hash d)
    as [r0|] eqn:Hl; [done |].
  cbn [bool_decide decide_rel is_Some_dec decide].
  destruct (clean_download_file_result T m (c :: n)
              (set_trace
                 (trace w ++ [EvLedgerLookup (CleanFileMonitor.get_file_hash d)])
                 w)) as (w2 & Hdl & Hpf & _).
  erewrite try_bind_return; [| exact Hdl]. simpl in Hpf.
  destruct (download_media T m) as [path data| |]; [| by simpl | by simpl].
  pose proof (clean_send_stable clean_processed_files e T fuel path (c :: n)
                (ch_username ch) ltac:(done) ltac:(done) ltac:(done) w2)
    as Hst.
  unfold try_except, mbind, M_bind, bind.
  destruct (CleanFileMonitor.send_clean_file e T fuel path (c :: n)
              (ch_username ch) w2) as [[b|err|] w3]; simpl in Hst |- *;
    [| by rewrite Hst, Hpf | by rewrite Hst, Hpf].
  destruct b; simpl; [| by rewrite Hst, Hpf].
  exists d, (c :: n). unfold document_of, passes_extension_check, filename_of,
    document_of. rewrite Hm, Hf, He, Hst, Hpf. done.
Qed.

(** X6 (clean_monitor.py, [process_message]): a call never raises.  When
    it returns [True] the message passes the extension check, the ledger
    had no row under the hash of its document, and the ledger after the call
    is the ledger before it with one row more, under that hash, holding the
    message id, the channel id and the file name.  In every other case the
    ledger is as it was. *)
Theorem clean_process_message_ledger (e : Config.Environ) (T : Transport)
    (fuel : nat) (m : Message) (ch : Channel) (w : World) :
  clean_process_outcome e m ch (clean_processed_files w)
    (CleanFileMonitor.process_message e T fuel m ch w).1
    (clean_processed_files
       (CleanFileMonitor.process_message e T fuel m ch w).2).
Proof. apply clean_process_message_effect. Qed.

(** X7 (clean_monitor.py, [process_message]): under the conditions in
    which [main.py] removes its temporary file, this pipeline leaves the
    downloaded file in place: after the call the file at [path] holds the
    downloaded bytes. *)
Theorem clean_leaves_temporary_file (e : Config.Environ) (T : Transport)
    (fuel : nat) (m : Message) (ch : Channel) (d : Document)
    (path : pystr) (data : list Byte.byte) (b : bool) (w w' : World) :
  passes_extension_check e m = true ->
  document_of m = Some d ->
  clean_processed_files w !! CleanFileMonitor.get_file_hash d = None ->
  download_media T m = Downloaded path data ->
  CleanFileMonitor.process_message e T fuel m ch w = (Return b, w') ->
  files w' = <[path := data]> (files w) /\ files w' !! path = Some data.
Proof.
  intros Hp Hd Hl Hdm Hrun.
  destruct (passes_extension_check_inv e m Hp) as (d' & c & n & Hm & Hf & He).
  unfold document_of in Hd. rewrite Hm in Hd. injection Hd as ->.
  unfold CleanFileMonitor.process_message in Hrun. rewrite Hm in Hrun.
  erewrite try_bind_return in Hrun; [| reflexivity].
  rewrite Hf, He in Hrun. cbn [negb] in Hrun.
  erewrite try_bind_return in Hrun;
    [| by apply clean_is_file_processed_fresh].
  cbv iota in Hrun.
  destruct (clean_download_file_result T m (c :: n)
              (set_trace
                 (trace w ++ [EvLedgerLookup (CleanFileMonitor.get_file_hash d)])
                 w)) as (w2 & Hdl & _ & Hfiles).
  erewrite try_bind_return in Hrun; [| exact Hdl].
  rewrite Hdm in Hrun, Hfiles. simpl in Hfiles.
  pose proof (clean_send_stable files e T fuel path (c :: n)
                (ch_username ch) ltac:(done) ltac:(done) ltac:(done) w2)
    as Hst.
  unfold try_except, mbind, M_bind, bind in Hrun.
  destruct (CleanFileMonitor.send_clean_file e T fuel path (c :: n)
              (ch_username ch) w2) as [[b'|err|] w3]; simpl in Hst, Hrun;
    [| | done].
  - destruct b'; simpl in Hrun; injection Hrun as <- <-; simpl;
      rewrite Hst, Hfiles; (split; [done | apply lookup_insert_eq]).
  - injection Hrun as <- <-. rewrite Hst, Hfiles.
    split; [done | apply lookup_insert_eq].
Qed.

Lemma clean_leaves_temporary_file_witness :
  let T := Scenario.demo_transport (fun _ => SendOk) in
  exists w',
    CleanFileMonitor.process_message Scenario.demo_env T 1
      Scenario.demo_message Scenario.demo_channel Scenario.demo_world
    = (Return true, w')
    /\ files w'
       = <[Scenario.demo_path := Scenario.demo_data]>
           (files Scenario.demo_world)
    /\ files w' !! Scenario.demo_path = Some Scenario.demo_data.
Proof.
  intros T.
  assert (exists w',
            CleanFileMonitor.process_message Scenario.demo_env T 1
              Scenario.demo_message Scenario.demo_channel Scenario.demo_world
            = (Return true, w')) as [w' Hrun].
  { eexists. vm_compute. reflexivity. }
  exists w'. split; [exact Hrun |].
  exact (clean_leaves_temporary_file Scenario.demo_env T 1
           Scenario.demo_message Scenario.demo_channel Scenario.demo_document
           Scenario.demo_path Scenario.demo_data true Scenario.demo_world w'
           eq_refl eq_refl eq_refl eq_refl Hrun).
Defined.

Lemma clean_process_messages_count (e : Config.Environ) (T : Transport)
    (fuel : nat) (ch : Channel) (messages : list Message) :
  forall (n0 n : Z) (w w' : World),
  CleanFileMonitor.process_messages e T fuel messages ch n0 w
  = (Return n, w') ->
  clean_processed_files w ⊆ clean_processed_files w'
  /\ Z.of_nat (size (clean_processed_files w'))
     = Z.of_nat (size (clean_processed_files w)) + (n - n0)
  /\ n0 <= n <= n0 + Z.of_nat (length messages).
Proof.
  induction messages as [|m rest IH]; intros n0 n w w' Hrun.
  - injection Hrun as <- <-. split; [done |]. simpl. lia.
  - cbn [CleanFileMonitor.process_messages] in Hrun.
    apply bind_inv_return in Hrun as (sent & w1 & Hpm & Hrun).
    pose proof (clean_process_message_effect e T fuel m ch w) as Hl.
    rewrite Hpm in Hl. simpl in Hl. destruct sent.
    + destruct Hl as (d & name & _ & _ & _ & Hnone & Hins).
      apply bind_inv_return in Hrun as ([] & w2 & Hs & Hrun).
      rewrite sleep_run in Hs. injection Hs as <-.
      apply IH in Hrun as (Hsub & Hsize & Hn). simpl in Hsub, Hsize.
      rewrite Hins in Hsub, Hsize.
      rewrite map_size_insert_None in Hsize by done.
      split; [| split].
      * etrans; [| exact Hsub]. by apply insert_subseteq.
      * lia.
      * cbn [length]. lia.
    + apply IH in Hrun as (Hsub & Hsize & Hn). rewrite Hl in Hsub, Hsize.
      split; [done |]. split; [lia |]. cbn [length]. lia.
Qed.

Lemma clean_check_channel_count (e : Config.Environ) (T : Transport)
    (fuel : nat) (channel_username : pystr) (n : Z) (w w' : World) :
  CleanFileMonitor.check_channel e T fuel channel_username w
  = (Return n, w') ->
  clean_processed_files w ⊆ clean_processed_files w'
  /\ Z.of_nat (size (clean_processed_files w'))
     = Z.of_nat (size (clean_processed_files w)) + n.
Proof.
  unfold CleanFileMonitor.check_channel.
  destruct (get_entity T channel_username) as [channel| |].
  - intros Hrun.
    apply clean_process_messages_count in Hrun as (Hsub & Hsize & Hn).
    split; [done | lia].
  - intros [= <- <-]. split; [done | lia].
  - intros [= <- <-]. split; [done | lia].
Qed.

Lemma clean_cycle_channels_count (e : Config.Environ) (T : Transport)
    (fuel : nat) (source_channels remaining : list pystr) :
  forall (t0 t : Z) (w w' : World),
  CleanFileMonitor.cycle_channels e T fuel source_channels remaining t0 w
  = (Return t, w') ->
  clean_processed_files w ⊆ clean_processed_files w'
  /\ Z.of_nat (size (clean_processed_files w'))
     = Z.of_nat (size (clean_processed_files w)) + (t - t0).
Proof.
  induction remaining as [|channel rest IH]; intros t0 t w w' Hrun.
  - injection Hrun as <- <-. split; [done | lia].
  - cbn [CleanFileMonitor.cycle_channels] in Hrun.
    apply bind_inv_return in Hrun as (sent & w1 & Hch & Hrun).
    apply clean_check_channel_count in Hch as (Hsub1 & Hsize1).
    apply bind_inv_return in Hrun as ([] & w2 & Hs & Hrun).
    assert (clean_processed_files w2 = clean_processed_files w1) as Hpf.
    { destruct (bool_decide _); [rewrite sleep_run in Hs |];
        by injection Hs as <-. }
    apply IH in Hrun as (Hsub & Hsize). rewrite Hpf in Hsub, Hsize.
    split; [by etrans | lia].
Qed.

(** X8 (clean_monitor.py, [monitoring_cycle]): when a cycle returns
    [total], the ledger has kept every row it had and has exactly [total]
    rows more. *)
Theorem clean_monitoring_cycle_count (e : Config.Environ) (T : Transport)
    (fuel : nat) (source_channels : list pystr) (total : Z) (w w' : World) :
  CleanFileMonitor.monitoring_cycle e T fuel source_channels w
  = (Return total, w') ->
  clean_processed_files w ⊆ clean_processed_files w'
  /\ Z.of_nat (size (clean_processed_files w'))
     = Z.of_nat (size (clean_processed_files w)) + total.
Proof.
  unfold CleanFileMonitor.monitoring_cycle. intros Hrun.
  apply clean_cycle_channels_count in Hrun as (Hsub & Hsize).
  split; [done | lia].
Qed.

Lemma clean_monitoring_cycle_count_witness :
  let T := Scenario.demo_transport (fun _ => SendOk) in
  exists w',
    CleanFileMonitor.monitoring_cycle Scenario.demo_env T 1
      [str "source"] Scenario.demo_world = (Return 1, w')
    /\ clean_processed_files Scenario.demo_world ⊆ clean_processed_files w'
    /\ Z.of_nat (size (clean_processed_files w'))
       = Z.of_nat (size (clean_processed_files Scenario.demo_world)) + 1.
Proof.
  intros T.
  assert (exists w',
            CleanFileMonitor.monitoring_cycle Scenario.demo_env T 1
              [str "source"] Scenario.demo_world = (Return 1, w'))
    as [w' Hrun].
  { eexists. vm_compute. reflexivity. }
  exists w'. split; [exact Hrun |].
  exact (clean_monitoring_cycle_count Scenario.demo_env T 1 [str "source"]
           1 Scenario.demo_world w' Hrun).
Defined.

(** ** user_monitor.py *)

Lemma user_forward_refused (self : TelegramChannelMonitor.Monitor)
    (T : Transport) (fuel : nat) (m : Message) (ch : Channel) (name : pystr)
    (w : World) (err : exn) :
  publish_result (publish_outcome T (publish_calls w)) = Raise err ->
  (forall s, err <> FloodWaitError s) ->
  TelegramChannelMonitor.forward_message self T (S fuel) m ch name w
  = (Return tt, user_forwarded m ch w).
Proof.
  intros Hout Herr. cbn [TelegramChannelMonitor.forward_message].
  erewrite try_raise; cycle 1.
  { erewrite bind_raise; [reflexivity |].
    rewrite publish_run. simpl. rewrite Hout. reflexivity. }
  destruct err; try reflexivity. by destruct (Herr seconds).
Qed.

(** X9 (user_monitor.py, [process_message] and [forward_message]): when
    the forward call of a matching message is refused with an error other
    than a flood wait, [process_message] still returns [True], so the
    caller counts the message as sent; nothing is recorded in
    [sent_messages] or in the activity log, and the only events are the
    refused forward call and, before it, the lookup when the monitor has a
    connection (the monitor that [__init__] builds has none). *)
Theorem user_refused_forward_is_counted
    (self : TelegramChannelMonitor.Monitor) (e : Config.Environ)
    (T : Transport) (fuel : nat) (m : Message) (ch : Channel) (w : World)
    (err : exn) :
  passes_extension_check e m = true ->
  (is_Some (TelegramChannelMonitor.db_conn self) ->
   sent_messages w !! (msg_id m, ch_id ch) = None) ->
  publish_result (publish_outcome T (publish_calls w)) = Raise err ->
  (forall s, err <> FloodWaitError s) ->
  exists w',
    TelegramChannelMonitor.process_message self e T (S fuel) m ch w
    = (Return true, w')
    /\ sent_messages w' = sent_messages w
    /\ activity_log w' = activity_log w
    /\ trace w'
       = trace w
         ++ match TelegramChannelMonitor.db_conn self with
            | Some _ => [EvSentLookup (msg_id m) (ch_id ch)]
            | None => []
            end
         ++ [EvForward (msg_id m) (ch_id ch)].
Proof.
  intros Hp Hl Hout Herr.
  destruct (passes_extension_check_inv e m Hp) as (d & c & n & Hm & Hf & He).
  destruct self as [[conn|]]; cbn [TelegramChannelMonitor.db_conn] in *.
  - specialize (Hl ltac:(by eexists)). eexists. split.
    + unfold TelegramChannelMonitor.process_message. rewrite Hm.
      erewrite try_bind_return; [| by rewrite is_message_processed_run].
      rewrite Hl. cbv iota.
      erewrite try_bind_return; [| reflexivity].
      rewrite Hf, He. cbn [negb].
      erewrite try_bind_return; [| by eapply user_forward_refused].
      reflexivity.
    + simpl. by rewrite <- app_assoc.
  - eexists. split.
    + unfold TelegramChannelMonitor.process_message. rewrite Hm.
      erewrite try_bind_return; [| by rewrite is_message_processed_run].
      cbv iota.
      erewrite try_bind_return; [| reflexivity].
      rewrite Hf, He. cbn [negb].
      erewrite try_bind_return; [| by eapply user_forward_refused].
      reflexivity.
    + done.
Qed.

Lemma user_refused_forward_is_counted_witness :
  let T := Scenario.demo_transport (fun _ => SendAdminRequired) in
  exists w',
    TelegramChannelMonitor.process_message TelegramChannelMonitor.init
      Scenario.demo_env T 1 Scenario.demo_message Scenario.demo_channel
      Scenario.demo_world
    = (Return true, w')
    /\ sent_messages w' = sent_messages Scenario.demo_world
    /\ activity_log w' = activity_log Scenario.demo_world
    /\ trace w' = trace Scenario.demo_world ++ [] ++ [EvForward 11 5].
Proof.
  intros T.
  apply (user_refused_forward_is_counted TelegramChannelMonitor.init
           Scenario.demo_env T 0 Scenario.demo_message Scenario.demo_channel
           Scenario.demo_world ChatAdminRequiredError);
    [reflexivity | reflexivity | reflexivity |].
  intros s. discriminate.
Defined.

(** One accepted forward of a monitor without a connection: the guards of
    [is_message_processed], [mark_message_as_sent] and [log_activity]
    return at once. *)
Lemma user_forward_unrecorded (e : Config.Environ) (T : Transport)
    (fuel : nat) (m : Message) (ch : Channel) (w : World) :
  passes_extension_check e m = true ->
  publish_outcome T (publish_calls w) = SendOk ->
  TelegramChannelMonitor.process_message TelegramChannelMonitor.init e T
    (S fuel) m ch w
  = (Return true, user_forwarded m ch w).
Proof.
  intros Hp Hout.
  destruct (passes_extension_check_inv e m Hp) as (d & c & n & Hm & Hf & He).
  unfold TelegramChannelMonitor.process_message. rewrite Hm.
  erewrite try_bind_return; [| reflexivity]. cbv iota.
  erewrite try_bind_return; [| reflexivity].
  rewrite Hf, He. cbn [negb].
  erewrite try_bind_return; cycle 1.
  { cbn [TelegramChannelMonitor.forward_message].
    erewrite try_return; [reflexivity |].
    erewrite bind_return;
      [| rewrite publish_run; simpl; by rewrite Hout].
    reflexivity. }
  reflexivity.
Qed.

(** X10 (user_monitor.py, [process_message], [mark_message_as_sent],
    [is_message_processed]): the monitor that [__init__] builds has no
    database connection, and [init_database] raises before it opens one
    ([config.py] has no [DATABASE_FILE]).  With it a matching message whose
    forward call succeeds is forwarded and [True] is returned, and the
    forward call is the only thing that happened: no row of [sent_messages],
    no activity record.  So the same message is forwarded again, with [True]
    again, each time it is processed. *)
Theorem user_forward_repeats_without_connection (e : Config.Environ)
    (T : Transport) (fuel : nat) (m : Message) (ch : Channel) (w : World) :
  passes_extension_check e m = true ->
  publish_outcome T (publish_calls w) = SendOk ->
  (forall self,
     TelegramChannelMonitor.init_database self w = (Raise AttributeError, w))
  /\ TelegramChannelMonitor.process_message TelegramChannelMonitor.init e T
       (S fuel) m ch w
     = (Return true, user_forwarded m ch w)
  /\ sent_messages (user_forwarded m ch w) = sent_messages w
  /\ activity_log (user_forwarded m ch w) = activity_log w
  /\ (publish_outcome T (S (publish_calls w)) = SendOk ->
      TelegramChannelMonitor.process_message TelegramChannelMonitor.init e T
        (S fuel) m ch (user_forwarded m ch w)
      = (Return true, user_forwarded m ch (user_forwarded m ch w))).
Proof.
  intros Hp Hout. split; [intros self; apply init_database_raises |].
  split; [by apply user_forward_unrecorded |].
  split; [done |]. split; [done |].
  intros Hout2. by apply user_forward_unrecorded.
Qed.

Lemma user_forward_repeats_without_connection_witness :
  let T := Scenario.demo_transport (fun _ => SendOk) in
  let run :=
    TelegramChannelMonitor.process_message TelegramChannelMonitor.init
      Scenario.demo_env T 1 Scenario.demo_message Scenario.demo_channel in
  let w1 := user_forwarded Scenario.demo_message Scenario.demo_channel
              Scenario.demo_world in
  run Scenario.demo_world = (Return true, w1)
  /\ run w1
     = (Return true,
        user_forwarded Scenario.demo_message Scenario.demo_channel w1)
  /\ trace (user_forwarded Scenario.demo_message Scenario.demo_channel w1)
     = [EvForward 11 5; EvForward 11 5].
Proof.
  intros T run w1.
  destruct (user_forward_repeats_without_connection Scenario.demo_env T 0
              Scenario.demo_message Scenario.demo_channel Scenario.demo_world
              eq_refl eq_refl) as (_ & H1 & _ & _ & H2).
  split; [exact H1 |]. split; [exact (H2 eq_refl) | reflexivity].
Defined.

(** ** Fingerprints and generated names do not collide *)

Lemma uint_chars_inj (d d' : Decimal.uint) :
  uint_chars d = uint_chars d' -> d = d'.
Proof.
  revert d'. induction d as [|d IH|d IH|d IH|d IH|d IH|d IH|d IH|d IH|d IH|d IH];
    intros [|d'|d'|d'|d'|d'|d'|d'|d'|d'|d']; simpl; intros H;
    try discriminate; try reflexivity;
    injection H as H; f_equal; by apply IH.
Qed.

Lemma uint_chars_head (d : Decimal.uint) (c : ascii) (r : pystr) :
  uint_chars d = c :: r -> isdigit c = true.
Proof.
  intros H. pose proof (uint_chars_digits d) as Hd. rewrite H in Hd.
  by apply Forall_cons in Hd as [? _].
Qed.

Lemma str_int_inj (a b : Z) : str_int a = str_int b -> a = b.
Proof.
  unfold str_int. intros H. apply DecimalZ.to_int_inj.
  destruct (Z.to_int a) as [d|d], (Z.to_int b) as [d'|d'].
  - f_equal. by apply uint_chars_inj.
  - apply uint_chars_head in H. discriminate.
  - symmetry in H. apply uint_chars_head in H. discriminate.
  - injection H as H. f_equal. by apply uint_chars_inj.
Qed.

Lemma str_int_no_underscore (n : Z) : "_"%char ∉ str_int n.
Proof.
  unfold str_int. intros Hin.
  assert ("_"%char ∈ uint_chars (match Z.to_int n with Pos d | Neg d => d end))
    as Hd.
  { destruct (Z.to_int n); [done |].
    apply elem_of_cons in Hin as [Hin | Hin]; [discriminate | done]. }
  pose proof (uint_chars_digits (match Z.to_int n with Pos d | Neg d => d end))
    as Hall.
  rewrite Forall_forall in Hall. apply Hall in Hd. discriminate.
Qed.

(** Two strings that agree are cut alike at their first separator. *)
Lemma app_sep_inj (sep : ascii) (a a' b b' : pystr) :
  sep ∉ a -> sep ∉ a' -> a ++ sep :: b = a' ++ sep :: b' ->
  a = a' /\ b = b'.
Proof.
  revert a'. induction a as [|x a IH]; intros [|x' a'] Ha Ha' H; simpl in H.
  - by injection H as ->.
  - injection H as -> _. exfalso. apply Ha'. left.
  - injection H as -> _. exfalso. apply Ha. left.
  - injection H as -> H.
    apply not_elem_of_cons in Ha as [_ Ha].
    apply not_elem_of_cons in Ha' as [_ Ha'].
    destruct (IH a' Ha Ha' H) as [-> ->]. done.
Qed.

(** X11 ([get_file_hash] of clean_monitor.py and of main.py): the hash
    of clean_monitor.py identifies the pair (id, size) of a document, and
    the hash of main.py identifies the triple (id, size, date): two
    documents have the same hash exactly when they agree on these. *)
Theorem fingerprints_are_injective (d1 d2 : Document) :
  (CleanFileMonitor.get_file_hash d1 = CleanFileMonitor.get_file_hash d2
   <-> doc_id d1 = doc_id d2 /\ doc_size d1 = doc_size d2)
  /\ (AdvancedTelegramMonitor.document_hash d1
      = AdvancedTelegramMonitor.document_hash d2
      <-> doc_id d1 = doc_id d2 /\ doc_size d1 = doc_size d2
          /\ doc_date d1 = doc_date d2).
Proof.
  split; split.
  - unfold CleanFileMonitor.get_file_hash. intros H.
    apply app_sep_inj in H as [Hi Hs]; try apply str_int_no_underscore.
    split; by apply str_int_inj.
  - intros [Hi Hs]. unfold CleanFileMonitor.get_file_hash. by rewrite Hi, Hs.
  - unfold AdvancedTelegramMonitor.document_hash,
      AdvancedTelegramMonitor.timestamp_str. intros H.
    apply app_sep_inj in H as [Hi H]; try apply str_int_no_underscore.
    apply app_sep_inj in H as [Hs H]; try apply str_int_no_underscore.
    apply app_inv_tail in H.
    repeat split; by apply str_int_inj.
  - intros (Hi & Hs & Hd). unfold AdvancedTelegramMonitor.document_hash.
    by rewrite Hi, Hs, Hd.
Qed.

Lemma uint_chars_leading_zeros (k : nat) (d : Decimal.uint) :
  uint_chars (Nat.iter k D0 d) = replicate k "0"%char ++ uint_chars d.
Proof. induction k as [|k IH]; simpl; [done | by rewrite IH]. Qed.

Lemma of_uint_leading_zeros (k : nat) (d : Decimal.uint) :
  Z.of_uint (Nat.iter k D0 d) = Z.of_uint d.
Proof. induction k as [|k IH]; simpl; [done | exact IH]. Qed.

Lemma zfill_inj (width width' : nat) (d d' : Decimal.uint) :
  zfill width (uint_chars d) = zfill width' (uint_chars d') ->
  Z.of_uint d = Z.of_uint d'.
Proof.
  unfold zfill. rewrite <- !uint_chars_leading_zeros. intros H.
  apply uint_chars_inj in H.
  rewrite <- (of_uint_leading_zeros (width - length (uint_chars d)) d).
  rewrite H. apply of_uint_leading_zeros.
Qed.

Lemma zfill_head (width : nat) (d : Decimal.uint) (c : ascii) (r : pystr) :
  zfill width (uint_chars d) = c :: r -> isdigit c = true.
Proof.
  intros H. pose proof (zfill_digits width _ (uint_chars_digits d)) as Hd.
  rewrite H in Hd. by apply Forall_cons in Hd as [? _].
Qed.

Lemma fmt_04d_inj (n n' : Z) : fmt_04d n = fmt_04d n' -> n = n'.
Proof.
  unfold fmt_04d. intros H.
  rewrite <- (DecimalZ.of_to n), <- (DecimalZ.of_to n').
  destruct (Z.to_int n) as [d|d], (Z.to_int n') as [d'|d']; simpl.
  - by apply zfill_inj in H.
  - apply zfill_head in H. discriminate.
  - symmetry in H. apply zfill_head in H. discriminate.
  - injection H as H. apply zfill_inj in H. by rewrite H.
Qed.

Lemma fmt_04d_no_underscore (n : Z) : "_"%char ∉ fmt_04d n.
Proof.
  unfold fmt_04d. intros Hin.
  assert (exists width d, "_"%char ∈ zfill width (uint_chars d))
    as (width & d & Hd).
  { destruct (Z.to_int n) as [d|d]; [by exists 4%nat, d |].
    apply elem_of_cons in Hin as [Hin | Hin]; [discriminate |].
    by exists 3%nat, d. }
  pose proof (zfill_digits width _ (uint_chars_digits d)) as Hall.
  rewrite Forall_forall in Hall. apply Hall in Hd. discriminate.
Qed.

Lemma generate_new_filename_numbered (self : FileNamingSystem) (f : pystr)
    (n : Z) :
  show_sequence self = true ->
  exists rest,
    generate_new_filename self f n
    = prefix self ++ fmt_04d n ++ "_"%char :: rest.
Proof.
  intros Hs. unfold generate_new_filename. rewrite Hs.
  destruct (split_ext (clean_filename f)) as [np ext].
  destruct (0 <? length np)%nat, ext as [|x ext'];
    eexists; rewrite <- ?app_assoc; simpl; rewrite <- ?app_assoc;
    reflexivity.
Qed.

(** X12 (file_namer.py, [generate_new_filename]): with the sequence
    number shown, two generated names are equal only if the sequence
    numbers are equal, whatever the original names; distinct numbers never
    give the same name. *)
Theorem generated_names_differ_by_sequence_number
    (self : FileNamingSystem) (f f' : pystr) (n n' : Z) :
  show_sequence self = true ->
  generate_new_filename self f n = generate_new_filename self f' n' ->
  n = n'.
Proof.
  intros Hs H.
  destruct (generate_new_filename_numbered self f n Hs) as [r Hr].
  destruct (generate_new_filename_numbered self f' n' Hs) as [r' Hr'].
  rewrite Hr, Hr' in H. apply app_inv_head in H.
  apply app_sep_inj in H as [H _]; try apply fmt_04d_no_underscore.
  by apply fmt_04d_inj.
Qed.

Lemma generated_names_differ_by_sequence_number_witness :
  let self := FileNamer.init Scenario.demo_env None None in
  show_sequence self = true
  /\ generate_new_filename self (str "a.npvt") 5
     = generate_new_filename self (str " a .npvt") 5
  /\ 5 = 5.
Proof.
  intros self. split; [reflexivity |]. split; [vm_compute; reflexivity |].
  apply (generated_names_differ_by_sequence_number self
           (str "a.npvt") (str " a .npvt") 5 5);
    [reflexivity | vm_compute; reflexivity].
Defined.

(** ** Reading names back, and the extension of a generated name *)

Lemma strip_literal_inv (p s r : pystr) :
  strip_literal p s = Some r -> s = p ++ r.
Proof.
  revert s. induction p as [|a p IH]; intros s; simpl.
  - by intros [= ->].
  - destruct s as [|b s]; [done |].
    destruct (ascii_eqb a b) eqn:Hab; [| done].
    apply ascii_eqb_eq in Hab as ->. intros H. by rewrite (IH _ H).
Qed.

Lemma span_digits_spec (s ds r : pystr) :
  span_digits s = (ds, r) ->
  s = ds ++ r /\ Forall (fun c => isdigit c = true) ds.
Proof.
  revert ds r. induction s as [|c t IH]; intros ds r; simpl.
  - by intros [= <- <-].
  - destruct (isdigit c) eqn:Hc.
    + destruct (span_digits t) as [ds' r'].
      intros [= <- <-]. destruct (IH _ _ eq_refl) as [-> Hd].
      split; [done | by constructor].
    + by intros [= <- <-].
Qed.

(** X13 (file_namer.py, [extract_original_name]): the names from which
    something is read back are exactly those made of the prefix, one digit
    or more, an underscore, the destination id, an underscore and a rest;
    the rest is what is returned. *)
Theorem extract_original_name_iff (self : FileNamingSystem) (s r : pystr) :
  extract_original_name self s = Some r
  <-> exists ds,
        ds <> [] /\ Forall (fun c => isdigit c = true) ds
        /\ s = prefix self ++ ds ++ "_"%char :: destination_id self
                 ++ "_"%char :: r.
Proof.
  split.
  - unfold extract_original_name.
    destruct (strip_literal (prefix self) s) as [r1|] eqn:H1; [| done].
    apply strip_literal_inv in H1 as ->.
    destruct (span_digits r1) as [ds r2] eqn:H2.
    apply span_digits_spec in H2 as [-> Hd].
    destruct ds as [|d ds]; [done |]. intros H3.
    apply strip_literal_inv in H3 as ->.
    exists (d :: ds). split; [done |]. split; [done |].
    simpl. by rewrite <- !app_assoc.
  - intros (ds & Hne & Hd & ->). by apply extract_original_name_shape.
Qed.

Lemma lower_char_dot (c : ascii) :
  lower_char c = "."%char -> c = "."%char.
Proof.
  destruct c as [[] [] [] [] [] [] [] []]; intros H; try reflexivity;
    vm_compute in H; discriminate.
Qed.

Lemma generated_name_keeps_extension_latin (self : FileNamingSystem)
    (e : Config.Environ) (f : pystr) (n : Z) (x : pystr) :
  Config.TARGET_EXTENSION e = "."%char :: x ->
  x <> [] ->
  "."%char ∉ x ->
  Config.has_target_extension e f = true ->
  Config.has_target_extension e (generate_new_filename self f n) = true
  /\ (split_ext (generate_new_filename self f n)).2 = (split_ext f).2.
Proof.
  intros Ht Hx Hdot Hf.
  unfold Config.has_target_extension in *. rewrite Ht in *.
  apply endswith_spec in Hf as [q Hq].
  (* the name ends with a dot and an extension without dot *)
  assert (exists q' s', f = q' ++ "."%char :: s' /\ lower s' = x)
    as (q' & s' & -> & Hs').
  { exists (take (length q) f). unfold lower in Hq.
    assert (map lower_char (drop (length q) f) = "."%char :: x) as Hd.
    { by rewrite <- skipn_map, Hq, drop_app_length. }
    destruct (drop (length q) f) as [|c s'] eqn:Hdrop; [done |].
    injection Hd as Hc Hd. apply lower_char_dot in Hc as ->.
    exists s'. split; [| done]. by rewrite <- Hdrop, take_drop. }
  assert ("."%char ∉ s') as Hno.
  { intros Hin. apply Hdot. rewrite <- Hs'. unfold lower.
    apply list_elem_of_fmap. by exists "."%char. }
  assert (s' <> []) as Hne by (intros ->; by apply Hx).
  assert (split_ext (q' ++ "."%char :: s') = (q', s')) as Hsplit.
  { unfold split_ext. by rewrite rsplit_dot_app. }
  assert (exists B, generate_new_filename self (q' ++ "."%char :: s') n
                    = B ++ "."%char :: s') as [B HB].
  { unfold generate_new_filename. rewrite clean_filename_split, Hsplit.
    simpl fst. simpl snd. destruct s' as [|c0 s0]; [done |].
    cbn [ext_suffix]. unfold split_ext at 1.
    rewrite rsplit_dot_app by done. by eexists. }
  rewrite HB, Hsplit. split.
  - apply endswith_spec. exists (lower B).
    rewrite lower_app. by rewrite <- Hs'.
  - unfold split_ext. by rewrite rsplit_dot_app.
Qed.

(** X14 (file_namer.py, [generate_new_filename], with the extension test
    of the pipelines), for a file name, a prefix, a destination id and a
    target extension of code points below 256, where [str.lower] does not
    look at the context: when the target extension is a dot followed by at
    least one character and no further dot, the name generated for a file
    that passes the extension test passes it too, and keeps the extension
    of the original name as it was written. *)
Theorem generated_name_keeps_extension (self : FileNamingSystem)
    (e : Config.Environ) (f : pystr) (n : Z) (x : pystr) :
  let env := option_map Unicode.of_pystr (Config.env_TARGET_EXTENSION e) in
  Unicode.TARGET_EXTENSION env = Unicode.of_pystr ("."%char :: x) ->
  x <> [] ->
  "."%char ∉ x ->
  Unicode.has_target_extension env (Unicode.of_pystr f) = true ->
  Unicode.has_target_extension env
    (Unicode.of_pystr (generate_new_filename self f n)) = true
  /\ (split_ext (generate_new_filename self f n)).2 = (split_ext f).2.
Proof.
  intros env Ht Hx Hdot. unfold env in *.
  rewrite !has_target_extension_latin.
  apply (generated_name_keeps_extension_latin self e f n x); [| done | done].
  apply of_pystr_inj. rewrite <- Ht.
  unfold Unicode.TARGET_EXTENSION, Config.TARGET_EXTENSION.
  rewrite <- lower_of_pystr. f_equal.
  by destruct (Config.env_TARGET_EXTENSION e).
Qed.

Lemma generated_name_keeps_extension_witness :
  let self := FileNamer.init Scenario.demo_env None None in
  let name := generate_new_filename self (str "My File.NPVT") 7 in
  let env :=
    option_map Unicode.of_pystr
      (Config.env_TARGET_EXTENSION Scenario.demo_env) in
  Unicode.has_target_extension env (Unicode.of_pystr (str "My File.NPVT"))
  = true
  /\ Unicode.has_target_extension env (Unicode.of_pystr name) = true
  /\ (split_ext name).2 = (split_ext (str "My File.NPVT")).2.
Proof.
  intros self name env. split; [reflexivity |].
  apply (generated_name_keeps_extension self Scenario.demo_env
           (str "My File.NPVT") 7 (str "npvt"));
    [reflexivity | discriminate | | reflexivity].
  vm_compute. intros H.
  repeat (apply elem_of_cons in H as [H | H]; [discriminate H |]).
  by apply elem_of_nil in H.
Defined.

(** ** The list of source channels *)

Lemma lstrip_head (s : pystr) (c : ascii) (t : pystr) :
  lstrip s = c :: t -> isspace c = false.
Proof.
  induction s as [|a u IH]; simpl; [done |].
  destruct (isspace a) eqn:Ha; [done |]. by intros [= <- <-].
Qed.

Lemma rstrip_last (s : pystr) (c : ascii) :
  last (rstrip s) = Some c -> isspace c = false.
Proof.
  induction s as [|a u IH]; simpl; [done |].
  destruct (rstrip u) as [|b r].
  - destruct (isspace a) eqn:Ha; [done |]. by intros [= <-].
  - done.
Qed.

Lemma last_lstrip (s : pystr) :
  lstrip s <> [] -> last (lstrip s) = last s.
Proof.
  induction s as [|a u IH]; simpl; [done |].
  destruct (isspace a); [| done].
  intros H. rewrite (IH H). destruct u; [done | reflexivity].
Qed.

Lemma split_comma_no_comma (s : pystr) :
  Forall (fun piece => ","%char ∉ piece) (Config.split_comma s).
Proof.
  induction s as [|c t IH]; simpl.
  - constructor; [apply not_elem_of_nil | constructor].
  - destruct (ascii_eqb c ","%char) eqn:Hc.
    + constructor; [apply not_elem_of_nil | done].
    + destruct (Config.split_comma t) as [|piece rest].
      * constructor; [| constructor].
        intros H%list_elem_of_singleton. subst.
        by rewrite (proj2 (ascii_eqb_eq _ _) eq_refl) in Hc.
      * inversion IH as [|? ? Hp Hr]; subst. constructor; [| done].
        intros H. apply elem_of_cons in H as [<- | H]; [| done].
        by rewrite (proj2 (ascii_eqb_eq _ _) eq_refl) in Hc.
Qed.

(** X15 (config.py, [SOURCE_CHANNELS]): every channel name of the list
    is non-empty, holds no comma, and neither starts nor ends with a
    whitespace character. *)
Theorem source_channels_are_trimmed (source_channels_str : pystr) :
  Forall (fun c =>
            c <> [] /\ (","%char ∉ c)
            /\ (forall a, head c = Some a -> isspace a = false)
            /\ (forall a, last c = Some a -> isspace a = false))
    (Config.SOURCE_CHANNELS source_channels_str).
Proof.
  unfold Config.SOURCE_CHANNELS. apply Forall_forall. intros c Hc.
  apply list_elem_of_fmap in Hc as (piece & -> & Hp).
  apply list_elem_of_filter in Hp as [Hne Hp].
  split; [done |]. split; [| split].
  - intros H%elem_of_strip.
    pose proof (split_comma_no_comma source_channels_str) as Hall.
    rewrite Forall_forall in Hall. by apply (Hall piece).
  - intros a Ha. unfold strip in *.
    destruct (lstrip (rstrip piece)) as [|b t] eqn:Hl; [done |].
    injection Ha as ->. by apply lstrip_head in Hl.
  - intros a Ha. unfold strip in *. rewrite last_lstrip in Ha by done.
    by apply rstrip_last in Ha.
Qed.

(** ** The counters of the database *)

(** X16 (database.py, [init_counter] and [get_next_sequence_number]):
    the counters are independent of each other and of the ledger.  Neither
    function changes a counter of another name or the ledger;
    [init_counter] on a counter that exists changes nothing at all, and on
    a missing counter it creates it at 0. *)
Theorem counters_are_independent (name other : pystr) (w : World) :
  name <> other ->
  counters (DatabaseManager.get_next_sequence_number name w).2 !! other
  = counters w !! other
  /\ counters (DatabaseManager.init_counter name w).2 !! other
     = counters w !! other
  /\ (forall c, counters w !! name = Some c ->
        DatabaseManager.init_counter name w = (Return tt, w))
  /\ (counters w !! name = None ->
        counters (DatabaseManager.init_counter name w).2 !! name = Some 0)
  /\ processed_files (DatabaseManager.get_next_sequence_number name w).2
     = processed_files w
  /\ processed_files (DatabaseManager.init_counter name w).2
     = processed_files w.
Proof.
  intros Hne. repeat split.
  - destruct (counters w !! name) as [c|] eqn:Hc.
    + rewrite (get_next_sequence_number_run _ _ _ Hc). simpl.
      by rewrite lookup_insert_ne.
    + by rewrite (get_next_sequence_number_missing _ _ Hc).
  - unfold DatabaseManager.init_counter. run_m.
    destruct (counters w !! name) eqn:Hc; simpl; [done |].
    by rewrite lookup_insert_ne.
  - intros c Hc. unfold DatabaseManager.init_counter. run_m. by rewrite Hc.
  - intros Hc. unfold DatabaseManager.init_counter. run_m. rewrite Hc. simpl.
    apply lookup_insert_eq.
  - destruct (counters w !! name) as [c|] eqn:Hc.
    + by rewrite (get_next_sequence_number_run _ _ _ Hc).
    + by rewrite (get_next_sequence_number_missing _ _ Hc).
  - unfold DatabaseManager.init_counter. run_m.
    by destruct (counters w !! name).
Qed.

Lemma counters_are_independent_witness :
  let w := Scenario.demo_world in
  counters
    (DatabaseManager.get_next_sequence_number DatabaseManager.file_counter
       w).2 !! str "other" = None
  /\ DatabaseManager.init_counter DatabaseManager.file_counter w
     = (Return tt, w).
Proof.
  intros w.
  destruct (counters_are_independent DatabaseManager.file_counter
              (str "other") w ltac:(discriminate))
    as (H1 & _ & H3 & _).
  split; [exact H1 | exact (H3 0 eq_refl)].
Defined.

(** ** What a download returns *)

(** X17 (main.py, [download_file]): a call never raises, whatever the
    message and the transport, and changes neither the ledger nor the
    counters.  A result [(path, name, size)] means that [name] is the
    non-empty file name of the message's document and that the transport
    wrote, at [path], a file of [size] bytes; with no result the files are
    as they were. *)
Theorem main_download_file_never_raises (T : Transport) (m : Message)
    (w : World) :
  exists r w',
    AdvancedTelegramMonitor.download_file T m w = (Return r, w')
    /\ processed_files w' = processed_files w
    /\ counters w' = counters w
    /\ match r with
       | Some (path, name, size) =>
           filename_of m = Some name /\ name <> []
           /\ exists data,
                download_media T m = Downloaded path data
                /\ files w' = <[path := data]> (files w)
                /\ size = Z.of_nat (length data)
       | None => files w' = files w
       end.
Proof.
  unfold filename_of, document_of.
  destruct (msg_media m) as [[[d|]|]|] eqn:Hm.
  - destruct (extract_filename (doc_attributes d)) as [[|c n]|] eqn:Hf.
    + unfold AdvancedTelegramMonitor.download_file. rewrite Hm.
      erewrite try_bind_return; [| reflexivity]. rewrite Hf.
      by eexists _, _.
    + destruct (main_download_file_result T m d c n w Hm Hf)
        as (w' & -> & Hp & Hc & Hfs).
      eexists _, _. split; [reflexivity |]. split; [done |]. split; [done |].
      destruct (download_media T m) as [path data| |]; [| done | done].
      split; [done |]. split; [done |]. by exists data.
    + unfold AdvancedTelegramMonitor.download_file. rewrite Hm.
      erewrite try_bind_return; [| reflexivity]. rewrite Hf.
      by eexists _, _.
  - unfold AdvancedTelegramMonitor.download_file. rewrite Hm.
    by eexists _, _.
  - unfold AdvancedTelegramMonitor.download_file. rewrite Hm.
    by eexists _, _.
  - unfold AdvancedTelegramMonitor.download_file. rewrite Hm.
    by eexists _, _.
Qed.

(** ** A cycle of [user_monitor.py] *)

Lemma kept_emit (w0 : World) (ev : Event) :
  preserves (user_records_kept w0) (emit ev).
Proof. intros w Hw. exact Hw. Qed.

Lemma kept_sleep (w0 : World) (s : Z) :
  preserves (user_records_kept w0) (sleep s).
Proof. intros w Hw. exact Hw. Qed.

Lemma kept_publish (w0 : World) (T : Transport) (ev : Event) :
  preserves (user_records_kept w0) (publish T ev).
Proof. intros w Hw. exact Hw. Qed.

Lemma kept_log_activity (w0 : World) (self : TelegramChannelMonitor.Monitor)
    (action details : pystr) :
  preserves (user_records_kept w0)
    (TelegramChannelMonitor.log_activity self action details).
Proof.
  unfold TelegramChannelMonitor.log_activity.
  destruct (TelegramChannelMonitor.db_conn self); intros w Hw; exact Hw.
Qed.

Lemma kept_raise {A} (w0 : World) (err : exn) :
  preserves (user_records_kept w0) (@raise A err).
Proof. intros w Hw. exact Hw. Qed.

Lemma kept_mark_message_as_sent (w0 : World)
    (self : TelegramChannelMonitor.Monitor) (m : Message) (ch : Channel)
    (filename : pystr) :
  preserves (user_records_kept w0)
    (TelegramChannelMonitor.mark_message_as_sent self m ch filename).
Proof.
  unfold TelegramChannelMonitor.mark_message_as_sent.
  destruct (TelegramChannelMonitor.db_conn self) eqn:Hc;
    [| apply preserves_ret].
  apply preserves_bind.
  { destruct (msg_media m) as [[[d|]|]|];
      first [apply preserves_ret | apply kept_raise]. }
  intros size. apply preserves_bind; [apply kept_emit | intros _].
  apply preserves_bind; [| intros _; apply kept_log_activity].
  intros w Hw. unfold modify. cbn [fst snd].
  destruct (sent_messages w !! (msg_id m, ch_id ch)) eqn:Hk; [done |].
  destruct Hw as (Hs & Hrest). split; [| done]. simpl.
  etrans; [exact Hs |]. by apply insert_subseteq.
Qed.

Lemma kept_forward_message (w0 : World)
    (self : TelegramChannelMonitor.Monitor) (T : Transport) (fuel : nat)
    (m : Message) (ch : Channel) (filename : pystr) :
  preserves (user_records_kept w0)
    (TelegramChannelMonitor.forward_message self T fuel m ch filename).
Proof.
  induction fuel as [|fuel IH]; simpl.
  - intros w Hw. exact Hw.
  - apply preserves_try.
    + apply preserves_bind; [apply kept_publish | intros _].
      apply preserves_bind; [apply kept_mark_message_as_sent | intros _].
      apply kept_log_activity.
    + intros err. destruct err; try apply preserves_ret.
      apply preserves_bind; [apply kept_sleep | intros _; apply IH].
Qed.

Lemma kept_process_message (w0 : World)
    (self : TelegramChannelMonitor.Monitor) (e : Config.Environ)
    (T : Transport) (fuel : nat) (m : Message) (ch : Channel) :
  preserves (user_records_kept w0)
    (TelegramChannelMonitor.process_message self e T fuel m ch).
Proof.
  unfold TelegramChannelMonitor.process_message.
  apply preserves_try; [| intros _; apply preserves_ret].
  destruct (msg_media m) as [[document|]|]; try apply preserves_ret.
  apply preserves_bind.
  { unfold TelegramChannelMonitor.is_message_processed.
    destruct (TelegramChannelMonitor.db_conn self); intros w Hw; exact Hw. }
  intros processed. destruct processed; [apply preserves_ret |].
  apply preserves_bind.
  { destruct document; [apply preserves_ret | apply kept_raise]. }
  intros attrs. destruct (extract_filename attrs) as [[|c n]|];
    try apply preserves_ret.
  destruct (negb _); [apply preserves_ret |].
  apply preserves_bind; [apply kept_forward_message | intros _].
  apply preserves_ret.
Qed.

Lemma kept_process_messages (w0 : World)
    (self : TelegramChannelMonitor.Monitor) (e : Config.Environ)
    (T : Transport) (fuel : nat) (messages : list Message) (ch : Channel)
    (sent_count : Z) :
  preserves (user_records_kept w0)
    (TelegramChannelMonitor.process_messages self e T fuel messages ch
       sent_count).
Proof.
  revert sent_count. induction messages as [|m rest IH]; intros sent_count.
  - apply preserves_ret.
  - simpl. apply preserves_bind; [apply kept_process_message | intros sent].
    destruct sent; [| apply IH].
    apply preserves_bind; [apply kept_sleep | intros _; apply IH].
Qed.

Lemma kept_cycle_channels (w0 : World)
    (self : TelegramChannelMonitor.Monitor) (e : Config.Environ)
    (T : Transport) (fuel : nat) (channels remaining : list Channel)
    (total_sent : Z) :
  preserves (user_records_kept w0)
    (TelegramChannelMonitor.cycle_channels self e T fuel channels remaining
       total_sent).
Proof.
  revert total_sent. induction remaining as [|ch rest IH]; intros total_sent.
  - apply preserves_ret.
  - simpl. apply preserves_bind.
    { apply preserves_try; [apply kept_process_messages |].
      intros _. apply preserves_ret. }
    intros sent. apply preserves_bind; [| intros _; apply IH].
    destruct (bool_decide _); [apply kept_sleep | apply preserves_ret].
Qed.

Lemma try_never_raises {A} (m : M A) (h : exn -> M A) (w : World)
    (err : exn) :
  (forall err', always_returns (h err')) ->
  (try_except m h w).1 <> Raise err.
Proof.
  intros Hh. unfold try_except. destruct (m w) as [[a|err'|] w']; simpl.
  - done.
  - destruct (Hh err' w') as [a Ha]. by rewrite Ha.
  - done.
Qed.

(** Without a connection a cycle changes nothing but the trace, the count
    of publish calls and the clock. *)
Lemma user_init_cycle_stable {B} (f : World -> B) (e : Config.Environ)
    (T : Transport) (fuel : nat) (source_channels : list pystr) :
  (forall t w, f (set_trace t w) = f w) ->
  (forall n w, f (set_publish_calls n w) = f w) ->
  (forall t w, f (set_clock t w) = f w) ->
  stable f
    (TelegramChannelMonitor.monitor_cycle TelegramChannelMonitor.init e T
       fuel source_channels).
Proof.
  intros Ht Hn Hc.
  assert (forall m ch name fuel',
            stable f (TelegramChannelMonitor.forward_message
                        TelegramChannelMonitor.init T fuel' m ch name))
    as Hfwd.
  { intros m ch name fuel'. induction fuel' as [|fuel' IH];
      [apply stable_out_of_fuel |].
    cbn [TelegramChannelMonitor.forward_message].
    apply stable_try.
    - apply stable_bind; [by apply stable_publish | intros _].
      apply stable_bind; intros; apply stable_ret.
    - intros err. destruct err; try apply stable_ret.
      apply stable_bind; [by apply stable_sleep | intros _; apply IH]. }
  assert (forall m ch,
            stable f (TelegramChannelMonitor.process_message
                        TelegramChannelMonitor.init e T fuel m ch)) as Hpm.
  { intros m ch. unfold TelegramChannelMonitor.process_message.
    apply stable_try; [| intros _; apply stable_ret].
    destruct (msg_media m) as [[document|]|]; try apply stable_ret.
    apply stable_bind; [apply stable_ret | intros processed].
    destruct processed; [apply stable_ret |].
    apply stable_bind; [apply stable_attributes_of | intros attrs].
    destruct (extract_filename attrs) as [[|c n]|]; try apply stable_ret.
    destruct (negb _); [apply stable_ret |].
    apply stable_bind; [apply Hfwd | intros _; apply stable_ret]. }
  assert (forall messages ch n,
            stable f (TelegramChannelMonitor.process_messages
                        TelegramChannelMonitor.init e T fuel messages ch n))
    as Hpms.
  { intros messages ch. induction messages as [|m rest IH]; intros n.
    - apply stable_ret.
    - simpl. apply stable_bind; [apply Hpm | intros sent].
      destruct sent; [| apply IH].
      apply stable_bind; [by apply stable_sleep | intros _; apply IH]. }
  unfold TelegramChannelMonitor.monitor_cycle.
  apply stable_try; [| intros err; apply stable_ret].
  apply stable_bind.
  { unfold TelegramChannelMonitor.check_channel_access.
    destruct (get_entity T _); [apply stable_ret | |]; apply stable_raise. }
  intros channels. destruct channels as [|c cs]; [apply stable_ret |].
  apply stable_bind; [| intros total; apply stable_ret].
  generalize (c :: cs) at 2. generalize 0. generalize (c :: cs).
  intros all n remaining. revert n.
  induction remaining as [|ch rest IH]; intros n; [apply stable_ret |].
  simpl. apply stable_bind.
  { apply stable_try; [apply Hpms | intros _; apply stable_ret]. }
  intros sent. apply stable_bind; [| intros _; apply IH].
  apply stable_if; [by apply stable_sleep | apply stable_ret].
Qed.

(** X18 (user_monitor.py, [monitor_cycle] with [check_channel_access] and
    [check_channel_messages]): a cycle never raises; it keeps every record
    of a forwarded message and touches neither the ledgers and counters of
    the other pipelines nor the files.  The monitor that [__init__] builds
    has no database connection: its cycles leave [sent_messages] and the
    activity log exactly as they were, and with a destination channel that
    cannot be resolved a cycle changes nothing at all (the [CYCLE_ERROR]
    record is not written either). *)
Theorem user_monitor_cycle_keeps_records
    (self : TelegramChannelMonitor.Monitor) (e : Config.Environ)
    (T : Transport) (fuel : nat) (source_channels : list pystr) (w : World) :
  user_records_kept w
    (TelegramChannelMonitor.monitor_cycle self e T fuel source_channels w).2
  /\ (forall err,
        (TelegramChannelMonitor.monitor_cycle self e T fuel source_channels
           w).1
        <> Raise err)
  /\ sent_messages
       (TelegramChannelMonitor.monitor_cycle TelegramChannelMonitor.init e T
          fuel source_channels w).2
     = sent_messages w
  /\ activity_log
       (TelegramChannelMonitor.monitor_cycle TelegramChannelMonitor.init e T
          fuel source_channels w).2
     = activity_log w
  /\ ((forall entity,
         get_entity T (Config.DESTINATION_CHANNEL e) <> EntityFound entity) ->
      TelegramChannelMonitor.monitor_cycle TelegramChannelMonitor.init e T
        fuel source_channels w
      = (Return tt, w)).
Proof.
  split; [| split; [| split; [| split]]].
  - assert (preserves (user_records_kept w)
              (TelegramChannelMonitor.monitor_cycle self e T fuel
                 source_channels)) as Hp.
    { unfold TelegramChannelMonitor.monitor_cycle.
      apply preserves_try; [| intros err; apply kept_log_activity].
      apply preserves_bind.
      { unfold TelegramChannelMonitor.check_channel_access.
        destruct (get_entity T _); [apply preserves_ret | |];
          apply kept_raise. }
      intros channels. destruct channels as [|c cs]; [apply preserves_ret |].
      apply preserves_bind; [apply kept_cycle_channels | intros total].
      apply kept_log_activity. }
    apply Hp. by repeat split.
  - intros err. apply try_never_raises. intros err'.
    unfold TelegramChannelMonitor.log_activity.
    destruct (TelegramChannelMonitor.db_conn self);
      [apply log_activity_always_returns | by intros w'; exists tt].
  - by apply user_init_cycle_stable.
  - by apply user_init_cycle_stable.
  - intros Hdest. unfold TelegramChannelMonitor.monitor_cycle,
      TelegramChannelMonitor.check_channel_access.
    destruct (get_entity T (Config.DESTINATION_CHANNEL e)) as [entity| |]
      eqn:Hg; [by destruct (Hdest entity) | |]; reflexivity.
Qed.

(** ** No exception leaves a cycle *)

Lemma never_raises_ret {A} (a : A) : never_raises (mret a).
Proof. by intros w err. Qed.

Lemma never_raises_total {A} (m : M A) : always_returns m -> never_raises m.
Proof. intros Hm w err. destruct (Hm w) as [a Ha]. by rewrite Ha. Qed.

Lemma never_raises_bind {A B} (m : M A) (k : A -> M B) :
  never_raises m -> (forall a, never_raises (k a)) -> never_raises (m ≫= k).
Proof.
  intros Hm Hk w err. unfold mbind, M_bind, bind.
  pose proof (Hm w) as Hw.
  destruct (m w) as [[a|err'|] w1]; simpl in *.
  - apply Hk.
  - by destruct (Hw err').
  - done.
Qed.

Lemma main_process_messages_never_raises (e : Config.Environ) (T : Transport)
    (fuel : nat) (messages : list Message) (ch : Channel) (sent_count : Z) :
  never_raises
    (AdvancedTelegramMonitor.process_messages e T fuel messages ch sent_count).
Proof.
  revert sent_count. induction messages as [|m rest IH]; intros sent_count.
  - apply never_raises_ret.
  - simpl. apply never_raises_bind.
    + intros w err Hr.
      pose proof (main_process_message_effect e T fuel m ch w) as H.
      by rewrite Hr in H.
    + intros sent. destruct sent; [| apply IH].
      apply never_raises_bind; [| intros _; apply IH].
      apply never_raises_total, sleep_always_returns.
Qed.

Lemma clean_process_messages_never_raises (e : Config.Environ) (T : Transport)
    (fuel : nat) (messages : list Message) (ch : Channel) (sent_count : Z) :
  never_raises
    (CleanFileMonitor.process_messages e T fuel messages ch sent_count).
Proof.
  revert sent_count. induction messages as [|m rest IH]; intros sent_count.
  - apply never_raises_ret.
  - simpl. apply never_raises_bind.
    + intros w err Hr.
      pose proof (clean_process_message_effect e T fuel m ch w) as H.
      by rewrite Hr in H.
    + intros sent. destruct sent; [| apply IH].
      apply never_raises_bind; [| intros _; apply IH].
      apply never_raises_total, sleep_always_returns.
Qed.

Lemma main_cycle_channels_never_raises (e : Config.Environ) (T : Transport)
    (fuel : nat) (source_channels remaining : list pystr) (total_sent : Z) :
  never_raises
    (AdvancedTelegramMonitor.cycle_channels e T fuel source_channels remaining
       total_sent).
Proof.
  revert total_sent. induction remaining as [|c rest IH]; intros total_sent.
  - apply never_raises_ret.
  - simpl. apply never_raises_bind.
    + unfold AdvancedTelegramMonitor.check_channel.
      destruct (get_entity T c); try apply never_raises_ret.
      apply main_process_messages_never_raises.
    + intros sent. apply never_raises_bind; [| intros _; apply IH].
      destruct (bool_decide _); [| apply never_raises_ret].
      apply never_raises_total, sleep_always_returns.
Qed.

Lemma clean_cycle_channels_never_raises (e : Config.Environ) (T : Transport)
    (fuel : nat) (source_channels remaining : list pystr) (total_sent : Z) :
  never_raises
    (CleanFileMonitor.cycle_channels e T fuel source_channels remaining
       total_sent).
Proof.
  revert total_sent. induction remaining as [|c rest IH]; intros total_sent.
  - apply never_raises_ret.
  - simpl. apply never_raises_bind.
    + unfold CleanFileMonitor.check_channel.
      destruct (get_entity T c); try apply never_raises_ret.
      apply clean_process_messages_never_raises.
    + intros sent. apply never_raises_bind; [| intros _; apply IH].
      destruct (bool_decide _); [| apply never_raises_ret].
      apply never_raises_total, sleep_always_returns.
Qed.

(** X19 (main.py and clean_monitor.py, [check_channel] and
    [monitoring_cycle]): no exception leaves the message loop of
    [check_channel], so its [except] clauses answer the calls to the
    transport only, and no exception leaves a monitoring cycle of either
    pipeline, whatever the channels, the messages and the answers of the
    transport. *)
Theorem monitoring_cycles_never_raise (e : Config.Environ) (T : Transport)
    (fuel : nat) (source_channels : list pystr) :
  (forall messages ch,
     never_raises
       (AdvancedTelegramMonitor.process_messages e T fuel messages ch 0)
     /\ never_raises
          (CleanFileMonitor.process_messages e T fuel messages ch 0))
  /\ never_raises
       (AdvancedTelegramMonitor.monitoring_cycle e T fuel source_channels)
  /\ never_raises
       (CleanFileMonitor.monitoring_cycle e T fuel source_channels).
Proof.
  split; [| split].
  - intros messages ch. split.
    + apply main_process_messages_never_raises.
    + apply clean_process_messages_never_raises.
  - unfold AdvancedTelegramMonitor.monitoring_cycle.
    apply never_raises_bind; [apply main_cycle_channels_never_raises |].
    intros total. apply never_raises_bind; [| intros _; apply never_raises_ret].
    apply never_raises_total, log_activity_always_returns.
  - apply clean_cycle_channels_never_raises.
Qed.
